(** * sumologic: a shallow embedding of the Sumo Logic API client

    The Go package [sumologic] offers Get/Create/Update/Delete for hosted
    collectors and for three kinds of sources.  Every operation builds one
    HTTP request, hands it to the transport and maps the response (status
    code, headers, body) to a result or an error.

    Conventions of the embedding.
    - A Go [string] is a byte string: [String.string].
    - A Go [int] / [int64] is a [Z]; an [int] has 64 bits.  The range is
      the predicate [is_int], checked where the code checks it (decoding a
      JSON number).
    - A Go slice is a [list]: the nil slice and the empty slice both have
      length 0 and are both the empty list.
    - A pointer that may be nil is an [option].
    - An HTTP body is either a JSON document, given by its value tree, or
      text that is not JSON ([Malformed], which includes the empty body).
      What [encoding/json] does between a value tree and the Go structs
      (key names, [omitempty], case folding of keys, type mismatches, the
      coercion of strings to valid UTF-8) is modelled; the concrete syntax
      of JSON text is not.
    - [http.Client.Do] is the environment: a function from the request to
      either a transport error or a response.
    - A nil dereference is the outcome [Panics]. *)

From Stdlib Require Import ZArith List String Ascii Bool Lia.
From Stdlib Require Import DecimalString.
Import ListNotations.
Open Scope string_scope.
Open Scope Z_scope.

(** ** Strings *)

Fixpoint take (n : nat) (s : string) : string :=
  match n, s with
  | S n', String c r => String c (take n' r)
  | _, _ => EmptyString
  end.

Fixpoint drop (n : nat) (s : string) : string :=
  match n, s with
  | S n', String _ r => drop n' r
  | _, _ => s
  end.

(** [strings.HasPrefix]. *)
Fixpoint HasPrefix (s p : string) : bool :=
  match p, s with
  | EmptyString, _ => true
  | String a p', String b s' => Ascii.eqb a b && HasPrefix s' p'
  | String _ _, EmptyString => false
  end.

(** [strings.Contains]. *)
Fixpoint Contains (s sub : string) : bool :=
  HasPrefix s sub ||
  match s with
  | EmptyString => false
  | String _ s' => Contains s' sub
  end.

Definition byte_in (lo hi : N) (c : ascii) : bool :=
  (lo <=? N_of_ascii c)%N && (N_of_ascii c <=? hi)%N.

Definition lower (c : ascii) : ascii :=
  if byte_in 65 90 c then ascii_of_N (N_of_ascii c + 32) else c.

Definition upper (c : ascii) : ascii :=
  if byte_in 97 122 c then ascii_of_N (N_of_ascii c - 32) else c.

(** ** UTF-8, as package [unicode/utf8] validates it *)

Definition cont (c : ascii) : bool := byte_in 128 191 c.

(** [utf8.DecodeRuneInString], reduced to what the encoder looks at: the
    width of the rune at the head of [s], or [None] for [RuneError] of
    width 1 (an invalid or truncated encoding). *)
Definition DecodeRuneInString (s : string) : option nat :=
  match s with
  | EmptyString => None
  | String b0 r0 =>
    if byte_in 0 127 b0 then Some 1%nat
    else match r0 with
    | EmptyString => None
    | String b1 r1 =>
      if byte_in 194 223 b0 then (if cont b1 then Some 2%nat else None)
      else match r1 with
      | EmptyString => None
      | String b2 r2 =>
        let second3 :=
          if byte_in 224 224 b0 then byte_in 160 191 b1
          else if byte_in 237 237 b0 then byte_in 128 159 b1
          else cont b1 in
        if byte_in 224 239 b0 then (if second3 && cont b2 then Some 3%nat else None)
        else match r2 with
        | EmptyString => None
        | String b3 _ =>
          let second4 :=
            if byte_in 240 240 b0 then byte_in 144 191 b1
            else if byte_in 244 244 b0 then byte_in 128 143 b1
            else cont b1 in
          if byte_in 240 244 b0
          then (if second4 && cont b2 && cont b3 then Some 4%nat else None)
          else None
        end
      end
    end
  end.

(** U+FFFD, the replacement rune, in UTF-8. *)
Definition RuneError : string :=
  String (ascii_of_N 239) (String (ascii_of_N 191) (String (ascii_of_N 189) EmptyString)).

Fixpoint coerce (fuel : nat) (s : string) : string :=
  match fuel with
  | O => EmptyString
  | S fuel' =>
    match s with
    | EmptyString => EmptyString
    | String _ r =>
      match DecodeRuneInString s with
      | Some n => take n s ++ coerce fuel' (drop n s)
      | None => RuneError ++ coerce fuel' r
      end
    end
  end.

(** What [json.Marshal] writes for a Go string, as the text it denotes:
    invalid bytes are replaced by U+FFFD, everything else is kept. *)
Definition toValidUTF8 (s : string) : string := coerce (String.length s) s.

Definition ValidString (s : string) : Prop := toValidUTF8 s = s.

(** ** Package [fmt] *)

Inductive Arg : Type :=
| ArgInt (n : Z)
| ArgString (s : string).

(** [%d] of an int. *)
Definition itoa (n : Z) : string := NilZero.string_of_int (Z.to_int n).

Definition typeName (a : Arg) : string :=
  match a with ArgInt _ => "int" | ArgString _ => "string" end.

Definition printValue (a : Arg) : string :=
  match a with ArgInt n => itoa n | ArgString s => s end.

(** [badVerb] of the printer: a verb the operand's type does not have. *)
Definition badVerb (verb : ascii) (a : Arg) : string :=
  "%!" ++ String verb ("(" ++ typeName a ++ "=" ++ printValue a ++ ")").

Definition verb_in (verb : ascii) (l : string) : bool :=
  Contains l (String verb EmptyString).

(** [printArg] of the printer, for the plain verbs.  The verbs of the format strings
    of this package are [d], [s] and the back quote; the other verbs Go
    accepts for an operand (radix and quoting verbs) are outside the
    fragment and print nothing here. *)
Definition printArg (a : Arg) (verb : ascii) : string :=
  match a with
  | ArgInt n =>
    if verb_in verb "dv" then itoa n
    else if verb_in verb "bcoOqxXU" then EmptyString
    else badVerb verb a
  | ArgString s =>
    if verb_in verb "sv" then s
    else if verb_in verb "qxX" then EmptyString
    else badVerb verb a
  end.

Definition extraArgs (a : list Arg) : string :=
  match a with
  | [] => EmptyString
  | _ => "%!(EXTRA "
         ++ String.concat ", " (map (fun x => typeName x ++ "=" ++ printValue x) a)
         ++ ")"
  end.

(** [fmt.Sprintf] for formats whose directives are a percent sign followed
    directly by the verb (no flags, width, precision or argument index). *)
Fixpoint Sprintf (format : string) (a : list Arg) : string :=
  match format with
  | EmptyString => extraArgs a
  | String c rest =>
    if Ascii.eqb c "%" then
      match rest with
      | EmptyString => "%!(NOVERB)" ++ extraArgs a
      | String verb rest' =>
        if Ascii.eqb verb "%" then String "%" (Sprintf rest' a)
        else match a with
             | [] => "%!" ++ String verb ("(MISSING)" ++ Sprintf rest' [])
             | x :: a' => printArg x verb ++ Sprintf rest' a'
             end
      end
    else String c (Sprintf rest a)
  end.


(** ** Package [regexp]

    The fragment the package's one pattern needs: literal bytes, the dot
    and the star.  Go matches runes; a dot is any rune but a line feed.  The
    pattern's literals are ASCII and a line feed is one byte, so matching
    byte by byte accepts the same strings. *)

Inductive regex : Type :=
| Fail
| Emp
| Lit (c : ascii)
| AnyCharNotNL
| AnyChar
| Cat (r1 r2 : regex)
| Alt (r1 r2 : regex)
| Star (r : regex).

Fixpoint nullable (r : regex) : bool :=
  match r with
  | Fail | Lit _ | AnyCharNotNL | AnyChar => false
  | Emp | Star _ => true
  | Cat r1 r2 => nullable r1 && nullable r2
  | Alt r1 r2 => nullable r1 || nullable r2
  end.

Definition newline : ascii := ascii_of_N 10.

Fixpoint deriv (c : ascii) (r : regex) : regex :=
  match r with
  | Fail | Emp => Fail
  | Lit a => if Ascii.eqb a c then Emp else Fail
  | AnyCharNotNL => if Ascii.eqb c newline then Fail else Emp
  | AnyChar => Emp
  | Cat r1 r2 =>
    if nullable r1 then Alt (Cat (deriv c r1) r2) (deriv c r2)
    else Cat (deriv c r1) r2
  | Alt r1 r2 => Alt (deriv c r1) (deriv c r2)
  | Star r1 => Cat (deriv c r1) (Star r1)
  end.

Fixpoint matches (r : regex) (s : string) : bool :=
  match s with
  | EmptyString => nullable r
  | String c s' => matches (deriv c r) s'
  end.

(** [regexp.Compile] on patterns made of literals, [.] and a postfix [*]. *)
Fixpoint Compile (p : string) : regex :=
  match p with
  | EmptyString => Emp
  | String c rest =>
    let atom := if Ascii.eqb c "." then AnyCharNotNL else Lit c in
    match rest with
    | EmptyString => atom
    | String c' rest' =>
      if Ascii.eqb c' "*" then Cat (Star atom) (Compile rest')
      else Cat atom (Compile rest)
    end
  end.

(** [regexp.MatchString]: the pattern is not anchored, so it may match
    anywhere in [s]. *)
Definition MatchString (pattern s : string) : bool :=
  matches (Cat (Star AnyChar) (Cat (Compile pattern) (Star AnyChar))) s.

(** ** Package [encoding/json] *)

#[local] Set Warnings "-register-all".

(** A JSON document.  [JInt] is a number written as an integer literal,
    [JNumber] any other number literal, kept as its text.  [JString s]
    is a string whose characters are, in UTF-8, the bytes [s]. *)
Inductive json : Type :=
| JNull
| JBool (b : bool)
| JInt (n : Z)
| JNumber (lit : string)
| JString (s : string)
| JArray (l : list json)
| JObject (m : list (string * json)).

Inductive json_error : Type :=
| SyntaxError
| UnmarshalTypeError (Value : string).

Definition is_int (n : Z) : Prop := - 2 ^ 63 <= n < 2 ^ 63.

Definition is_intb (n : Z) : bool := (- 2 ^ 63 <=? n) && (n <? 2 ^ 63).

Definition kindName (j : json) : string :=
  match j with
  | JNull => "null"
  | JBool _ => "bool"
  | JInt _ | JNumber _ => "number"
  | JString _ => "string"
  | JArray _ => "array"
  | JObject _ => "object"
  end.

(** A decoder stores a document into a Go value that already exists: it
    returns the value after the store and the error it saved, if any.  As in
    Go, an error does not stop the decoding: the first one is kept and
    returned at the end. *)
Definition Decoder (T : Type) : Type := json -> T -> T * option json_error.

Definition first_error (a b : option json_error) : option json_error :=
  match a with
  | Some _ => a
  | None => b
  end.

Definition mismatch {T : Type} (j : json) (v : T) : T * option json_error :=
  (v, Some (UnmarshalTypeError (kindName j))).

Definition decode_int : Decoder Z := fun j v =>
  match j with
  | JNull => (v, None)
  | JInt n => if is_intb n then (n, None) else mismatch j v
  | _ => mismatch j v
  end.

Definition decode_string : Decoder string := fun j v =>
  match j with
  | JNull => (v, None)
  | JString s => (s, None)
  | _ => mismatch j v
  end.

Definition decode_bool : Decoder bool := fun j v =>
  match j with
  | JNull => (v, None)
  | JBool b => (b, None)
  | _ => mismatch j v
  end.

(** Element [i] of the array is stored into element [i] of the slice when
    the slice has one and into a zero value otherwise; the slice ends up
    with the length of the array. *)
Fixpoint decodeArray {T : Type} (dec : Decoder T) (zero : T)
    (js : list json) (old : list T) : list T * option json_error :=
  match js with
  | [] => ([], None)
  | j :: js' =>
    let '(x, e1) := dec j (hd zero old) in
    let '(xs, e2) := decodeArray dec zero js' (tl old) in
    (x :: xs, first_error e1 e2)
  end.

Definition decode_slice {T : Type} (dec : Decoder T) (zero : T) : Decoder (list T) :=
  fun j v =>
  match j with
  | JNull => ([], None)
  | JArray js => decodeArray dec zero js v
  | _ => mismatch j v
  end.

(** A struct field as the decoder sees it: the key of its tag and the
    store into that field. *)
Definition Field (T : Type) : Type := (string * Decoder T)%type.

Definition field {T A : Type} (name : string) (dec : Decoder A)
    (get : T -> A) (set : A -> T -> T) : Field T :=
  (name, fun j t => let '(x, e) := dec j (get t) in (set x t, e)).

(** Key folding: ASCII letters without case, and the two runes that fold
    to ASCII letters, U+212A (Kelvin sign) to [k] and U+017F (long s) to
    [s]. *)
Fixpoint foldName (s : string) : string :=
  match s with
  | EmptyString => EmptyString
  | String c r =>
    match r with
    | String c1 r1 =>
      if byte_in 197 197 c && byte_in 191 191 c1 then String "s" (foldName r1)
      else match r1 with
           | String c2 r2 =>
             if byte_in 226 226 c && byte_in 132 132 c1 && byte_in 170 170 c2
             then String "k" (foldName r2)
             else String (lower c) (foldName r)
           | EmptyString => String (lower c) (foldName r)
           end
    | EmptyString => String (lower c) EmptyString
    end
  end.

Fixpoint findFold {T : Type} (fields : list (Field T)) (key : string) : option (Decoder T) :=
  match fields with
  | [] => None
  | (name, dec) :: rest =>
    if String.eqb (foldName name) (foldName key) then Some dec
    else findFold rest key
  end.

Fixpoint findExact {T : Type} (fields : list (Field T)) (key : string) : option (Decoder T) :=
  match fields with
  | [] => None
  | (name, dec) :: rest =>
    if String.eqb name key then Some dec else findExact rest key
  end.

(** The field a key selects: the one with exactly that name, else the first
    one equal to it under folding. *)
Definition findField {T : Type} (fields : list (Field T)) (key : string) : option (Decoder T) :=
  match findExact fields key with
  | Some dec => Some dec
  | None => findFold fields key
  end.

(** The members of an object are stored in the order they are written; a
    key no field has is skipped. *)
Fixpoint decodeFields {T : Type} (fields : list (Field T))
    (m : list (string * json)) (t : T) : T * option json_error :=
  match m with
  | [] => (t, None)
  | (key, v) :: rest =>
    let '(t1, e1) :=
      match findField fields key with
      | Some dec => dec v t
      | None => (t, None)
      end in
    let '(t2, e2) := decodeFields fields rest t1 in
    (t2, first_error e1 e2)
  end.

Definition decode_struct {T : Type} (fields : list (Field T)) : Decoder T :=
  fun j v =>
  match j with
  | JNull => (v, None)
  | JObject m => decodeFields fields m v
  | _ => mismatch j v
  end.

(** The encoder's side: the members a field contributes to its object. *)
Definition Members : Type := list (string * json).

Definition member_string (key s : string) : Members := [(key, JString (toValidUTF8 s))].

Definition member_bool (key : string) (b : bool) : Members := [(key, JBool b)].

Definition member (key : string) (j : json) : Members := [(key, j)].

Definition omitempty_int (key : string) (n : Z) : Members :=
  if n =? 0 then [] else [(key, JInt n)].

Definition omitempty_string (key s : string) : Members :=
  match s with
  | EmptyString => []
  | _ => member_string key s
  end.

Definition omitempty_bool (key : string) (b : bool) : Members :=
  if b then member_bool key b else [].

Definition omitempty_slice {T : Type} (key : string) (enc : T -> json) (l : list T) : Members :=
  match l with
  | [] => []
  | _ => [(key, JArray (map enc l))]
  end.

(** ** The wire types of the package

    Each struct comes with its zero value, its field stores, the table of
    its fields as the decoder sees them (the key of each [json] tag), its
    encoder (a field tagged [omitempty] is left out when it is zero, false,
    empty or of length 0; on a field of struct type the option does nothing)
    and three notions about its values: [inrange_], the integers are in
    the range of their Go type; [coerce_], the value with every string
    coerced to valid UTF-8; [valid_], in range and left as it is by the
    coercion, that is, every string is valid UTF-8. *)

(** [CollectorLinks] contains references to related resources such as sources. *)
Record CollectorLinks : Type := mkCollectorLinks {
  CollectorLinks_Rel : string;
  CollectorLinks_Href : string
}.

Definition CollectorLinks_zero : CollectorLinks :=
  mkCollectorLinks EmptyString EmptyString.

Definition set_CollectorLinks_Rel (v : string) (x : CollectorLinks) : CollectorLinks :=
  mkCollectorLinks v (CollectorLinks_Href x).

Definition set_CollectorLinks_Href (v : string) (x : CollectorLinks) : CollectorLinks :=
  mkCollectorLinks (CollectorLinks_Rel x) v.

Definition CollectorLinks_fields : list (Field CollectorLinks) :=
  [ field "rel" decode_string CollectorLinks_Rel set_CollectorLinks_Rel;
    field "href" decode_string CollectorLinks_Href set_CollectorLinks_Href ].

Definition decode_CollectorLinks : Decoder CollectorLinks :=
  decode_struct CollectorLinks_fields.

Definition encode_CollectorLinks (x : CollectorLinks) : json :=
  JObject (member_string "rel" (CollectorLinks_Rel x)
        ++ member_string "href" (CollectorLinks_Href x)).

Definition inrange_CollectorLinks (x : CollectorLinks) : Prop :=
  True.

Definition coerce_CollectorLinks (x : CollectorLinks) : CollectorLinks :=
  mkCollectorLinks (toValidUTF8 (CollectorLinks_Rel x))
    (toValidUTF8 (CollectorLinks_Href x)).

Definition valid_CollectorLinks (x : CollectorLinks) : Prop :=
  inrange_CollectorLinks x /\ coerce_CollectorLinks x = x.

(** [Collector] can either be an installed or hosted collector. *)
Record Collector : Type := mkCollector {
  Collector_ID : Z;
  Collector_Name : string;
  Collector_Description : string;
  Collector_Category : string;
  Collector_TimeZone : string;
  Collector_Links : list CollectorLinks;
  Collector_CollectorType : string;
  Collector_CollectorVersion : string;
  Collector_LastSeenAlive : Z;
  Collector_Alive : bool
}.

Definition Collector_zero : Collector :=
  mkCollector 0 EmptyString EmptyString EmptyString EmptyString [] EmptyString
    EmptyString 0 false.

Definition set_Collector_ID (v : Z) (x : Collector) : Collector :=
  mkCollector v (Collector_Name x) (Collector_Description x) (Collector_Category x)
    (Collector_TimeZone x) (Collector_Links x) (Collector_CollectorType x)
    (Collector_CollectorVersion x) (Collector_LastSeenAlive x) (Collector_Alive x).

Definition set_Collector_Name (v : string) (x : Collector) : Collector :=
  mkCollector (Collector_ID x) v (Collector_Description x) (Collector_Category x)
    (Collector_TimeZone x) (Collector_Links x) (Collector_CollectorType x)
    (Collector_CollectorVersion x) (Collector_LastSeenAlive x) (Collector_Alive x).

Definition set_Collector_Description (v : string) (x : Collector) : Collector :=
  mkCollector (Collector_ID x) (Collector_Name x) v (Collector_Category x)
    (Collector_TimeZone x) (Collector_Links x) (Collector_CollectorType x)
    (Collector_CollectorVersion x) (Collector_LastSeenAlive x) (Collector_Alive x).

Definition set_Collector_Category (v : string) (x : Collector) : Collector :=
  mkCollector (Collector_ID x) (Collector_Name x) (Collector_Description x) v
    (Collector_TimeZone x) (Collector_Links x) (Collector_CollectorType x)
    (Collector_CollectorVersion x) (Collector_LastSeenAlive x) (Collector_Alive x).

Definition set_Collector_TimeZone (v : string) (x : Collector) : Collector :=
  mkCollector (Collector_ID x) (Collector_Name x) (Collector_Description x)
    (Collector_Category x) v (Collector_Links x) (Collector_CollectorType x)
    (Collector_CollectorVersion x) (Collector_LastSeenAlive x) (Collector_Alive x).

Definition set_Collector_Links (v : list CollectorLinks) (x : Collector) : Collector :=
  mkCollector (Collector_ID x) (Collector_Name x) (Collector_Description x)
    (Collector_Category x) (Collector_TimeZone x) v (Collector_CollectorType x)
    (Collector_CollectorVersion x) (Collector_LastSeenAlive x) (Collector_Alive x).

Definition set_Collector_CollectorType (v : string) (x : Collector) : Collector :=
  mkCollector (Collector_ID x) (Collector_Name x) (Collector_Description x)
    (Collector_Category x) (Collector_TimeZone x) (Collector_Links x) v
    (Collector_CollectorVersion x) (Collector_LastSeenAlive x) (Collector_Alive x).

Definition set_Collector_CollectorVersion (v : string) (x : Collector) : Collector :=
  mkCollector (Collector_ID x) (Collector_Name x) (Collector_Description x)
    (Collector_Category x) (Collector_TimeZone x) (Collector_Links x)
    (Collector_CollectorType x) v (Collector_LastSeenAlive x) (Collector_Alive x).

Definition set_Collector_LastSeenAlive (v : Z) (x : Collector) : Collector :=
  mkCollector (Collector_ID x) (Collector_Name x) (Collector_Description x)
    (Collector_Category x) (Collector_TimeZone x) (Collector_Links x)
    (Collector_CollectorType x) (Collector_CollectorVersion x) v (Collector_Alive x).

Definition set_Collector_Alive (v : bool) (x : Collector) : Collector :=
  mkCollector (Collector_ID x) (Collector_Name x) (Collector_Description x)
    (Collector_Category x) (Collector_TimeZone x) (Collector_Links x)
    (Collector_CollectorType x) (Collector_CollectorVersion x)
    (Collector_LastSeenAlive x) v.

Definition Collector_fields : list (Field Collector) :=
  [ field "id" decode_int Collector_ID set_Collector_ID;
    field "name" decode_string Collector_Name set_Collector_Name;
    field "description" decode_string Collector_Description set_Collector_Description;
    field "category" decode_string Collector_Category set_Collector_Category;
    field "timezone" decode_string Collector_TimeZone set_Collector_TimeZone;
    field "links" (decode_slice decode_CollectorLinks CollectorLinks_zero)
      Collector_Links set_Collector_Links;
    field "collectorType" decode_string
      Collector_CollectorType set_Collector_CollectorType;
    field "collectorVersion" decode_string
      Collector_CollectorVersion set_Collector_CollectorVersion;
    field "lastSeenAlive" decode_int Collector_LastSeenAlive set_Collector_LastSeenAlive;
    field "alive" decode_bool Collector_Alive set_Collector_Alive ].

Definition decode_Collector : Decoder Collector :=
  decode_struct Collector_fields.

Definition encode_Collector (x : Collector) : json :=
  JObject (omitempty_int "id" (Collector_ID x)
        ++ member_string "name" (Collector_Name x)
        ++ omitempty_string "description" (Collector_Description x)
        ++ omitempty_string "category" (Collector_Category x)
        ++ omitempty_string "timezone" (Collector_TimeZone x)
        ++ omitempty_slice "links" encode_CollectorLinks (Collector_Links x)
        ++ omitempty_string "collectorType" (Collector_CollectorType x)
        ++ omitempty_string "collectorVersion" (Collector_CollectorVersion x)
        ++ omitempty_int "lastSeenAlive" (Collector_LastSeenAlive x)
        ++ omitempty_bool "alive" (Collector_Alive x)).

Definition inrange_Collector (x : Collector) : Prop :=
  is_int (Collector_ID x)
  /\ Forall inrange_CollectorLinks (Collector_Links x)
  /\ is_int (Collector_LastSeenAlive x).

Definition coerce_Collector (x : Collector) : Collector :=
  mkCollector (Collector_ID x)
    (toValidUTF8 (Collector_Name x))
    (toValidUTF8 (Collector_Description x))
    (toValidUTF8 (Collector_Category x))
    (toValidUTF8 (Collector_TimeZone x))
    (map coerce_CollectorLinks (Collector_Links x))
    (toValidUTF8 (Collector_CollectorType x))
    (toValidUTF8 (Collector_CollectorVersion x))
    (Collector_LastSeenAlive x)
    (Collector_Alive x).


(** [CollectorRequest] is the wrapper for collector API calls. *)
Record CollectorRequest : Type := mkCollectorRequest {
  CollectorRequest_Collector : Collector
}.

Definition CollectorRequest_zero : CollectorRequest :=
  mkCollectorRequest Collector_zero.

Definition set_CollectorRequest_Collector (v : Collector) (x : CollectorRequest)
    : CollectorRequest :=
  mkCollectorRequest v.

Definition CollectorRequest_fields : list (Field CollectorRequest) :=
  [ field "collector" decode_Collector
      CollectorRequest_Collector set_CollectorRequest_Collector ].

Definition decode_CollectorRequest : Decoder CollectorRequest :=
  decode_struct CollectorRequest_fields.

Definition encode_CollectorRequest (x : CollectorRequest) : json :=
  JObject (member "collector" (encode_Collector (CollectorRequest_Collector x))).

Definition inrange_CollectorRequest (x : CollectorRequest) : Prop :=
  inrange_Collector (CollectorRequest_Collector x).

Definition coerce_CollectorRequest (x : CollectorRequest) : CollectorRequest :=
  mkCollectorRequest (coerce_Collector (CollectorRequest_Collector x)).

Definition valid_CollectorRequest (x : CollectorRequest) : Prop :=
  inrange_CollectorRequest x /\ coerce_CollectorRequest x = x.

(** Modelled from the spec: the declaration of [Filter] is not among the
    sources; the spec gives a filter the fields filterType, name and regexp,
    with these names on the wire. *)
Record Filter : Type := mkFilter {
  Filter_FilterType : string;
  Filter_Name : string;
  Filter_Regexp : string
}.

Definition Filter_zero : Filter :=
  mkFilter EmptyString EmptyString EmptyString.

Definition set_Filter_FilterType (v : string) (x : Filter) : Filter :=
  mkFilter v (Filter_Name x) (Filter_Regexp x).

Definition set_Filter_Name (v : string) (x : Filter) : Filter :=
  mkFilter (Filter_FilterType x) v (Filter_Regexp x).

Definition set_Filter_Regexp (v : string) (x : Filter) : Filter :=
  mkFilter (Filter_FilterType x) (Filter_Name x) v.

Definition Filter_fields : list (Field Filter) :=
  [ field "filterType" decode_string Filter_FilterType set_Filter_FilterType;
    field "name" decode_string Filter_Name set_Filter_Name;
    field "regexp" decode_string Filter_Regexp set_Filter_Regexp ].

Definition decode_Filter : Decoder Filter :=
  decode_struct Filter_fields.

Definition encode_Filter (x : Filter) : json :=
  JObject (member_string "filterType" (Filter_FilterType x)
        ++ member_string "name" (Filter_Name x)
        ++ member_string "regexp" (Filter_Regexp x)).

Definition inrange_Filter (x : Filter) : Prop :=
  True.

Definition coerce_Filter (x : Filter) : Filter :=
  mkFilter (toValidUTF8 (Filter_FilterType x))
    (toValidUTF8 (Filter_Name x))
    (toValidUTF8 (Filter_Regexp x)).

Definition valid_Filter (x : Filter) : Prop :=
  inrange_Filter x /\ coerce_Filter x = x.

(** [HTTPSource], an HTTP source of a collector. *)
Record HTTPSource : Type := mkHTTPSource {
  HTTPSource_ID : Z;
  HTTPSource_Name : string;
  HTTPSource_CollectorID : Z;
  HTTPSource_Description : string;
  HTTPSource_Category : string;
  HTTPSource_TimeZone : string;
  HTTPSource_SourceType : string;
  HTTPSource_MessagePerRequest : bool;
  HTTPSource_MultilineProcessingEnabled : bool;
  HTTPSource_UseAutolineMatching : bool;
  HTTPSource_ManualPrefixRegexp : string;
  HTTPSource_Url : string;
  HTTPSource_Filters : list Filter
}.

Definition HTTPSource_zero : HTTPSource :=
  mkHTTPSource 0 EmptyString 0 EmptyString EmptyString EmptyString EmptyString false
    false false EmptyString EmptyString [].

Definition set_HTTPSource_ID (v : Z) (x : HTTPSource) : HTTPSource :=
  mkHTTPSource v (HTTPSource_Name x) (HTTPSource_CollectorID x)
    (HTTPSource_Description x) (HTTPSource_Category x) (HTTPSource_TimeZone x)
    (HTTPSource_SourceType x) (HTTPSource_MessagePerRequest x)
    (HTTPSource_MultilineProcessingEnabled x) (HTTPSource_UseAutolineMatching x)
    (HTTPSource_ManualPrefixRegexp x) (HTTPSource_Url x) (HTTPSource_Filters x).

Definition set_HTTPSource_Name (v : string) (x : HTTPSource) : HTTPSource :=
  mkHTTPSource (HTTPSource_ID x) v (HTTPSource_CollectorID x) (HTTPSource_Description
    x) (HTTPSource_Category x) (HTTPSource_TimeZone x) (HTTPSource_SourceType x)
    (HTTPSource_MessagePerRequest x) (HTTPSource_MultilineProcessingEnabled x)
    (HTTPSource_UseAutolineMatching x) (HTTPSource_ManualPrefixRegexp x)
    (HTTPSource_Url x) (HTTPSource_Filters x).

Definition set_HTTPSource_CollectorID (v : Z) (x : HTTPSource) : HTTPSource :=
  mkHTTPSource (HTTPSource_ID x) (HTTPSource_Name x) v (HTTPSource_Description x)
    (HTTPSource_Category x) (HTTPSource_TimeZone x) (HTTPSource_SourceType x)
    (HTTPSource_MessagePerRequest x) (HTTPSource_MultilineProcessingEnabled x)
    (HTTPSource_UseAutolineMatching x) (HTTPSource_ManualPrefixRegexp x)
    (HTTPSource_Url x) (HTTPSource_Filters x).

Definition set_HTTPSource_Description (v : string) (x : HTTPSource) : HTTPSource :=
  mkHTTPSource (HTTPSource_ID x) (HTTPSource_Name x) (HTTPSource_CollectorID x) v
    (HTTPSource_Category x) (HTTPSource_TimeZone x) (HTTPSource_SourceType x)
    (HTTPSource_MessagePerRequest x) (HTTPSource_MultilineProcessingEnabled x)
    (HTTPSource_UseAutolineMatching x) (HTTPSource_ManualPrefixRegexp x)
    (HTTPSource_Url x) (HTTPSource_Filters x).

Definition set_HTTPSource_Category (v : string) (x : HTTPSource) : HTTPSource :=
  mkHTTPSource (HTTPSource_ID x) (HTTPSource_Name x) (HTTPSource_CollectorID x)
    (HTTPSource_Description x) v (HTTPSource_TimeZone x) (HTTPSource_SourceType x)
    (HTTPSource_MessagePerRequest x) (HTTPSource_MultilineProcessingEnabled x)
    (HTTPSource_UseAutolineMatching x) (HTTPSource_ManualPrefixRegexp x)
    (HTTPSource_Url x) (HTTPSource_Filters x).

Definition set_HTTPSource_TimeZone (v : string) (x : HTTPSource) : HTTPSource :=
  mkHTTPSource (HTTPSource_ID x) (HTTPSource_Name x) (HTTPSource_CollectorID x)
    (HTTPSource_Description x) (HTTPSource_Category x) v (HTTPSource_SourceType x)
    (HTTPSource_MessagePerRequest x) (HTTPSource_MultilineProcessingEnabled x)
    (HTTPSource_UseAutolineMatching x) (HTTPSource_ManualPrefixRegexp x)
    (HTTPSource_Url x) (HTTPSource_Filters x).

Definition set_HTTPSource_SourceType (v : string) (x : HTTPSource) : HTTPSource :=
  mkHTTPSource (HTTPSource_ID x) (HTTPSource_Name x) (HTTPSource_CollectorID x)
    (HTTPSource_Description x) (HTTPSource_Category x) (HTTPSource_TimeZone x) v
    (HTTPSource_MessagePerRequest x) (HTTPSource_MultilineProcessingEnabled x)
    (HTTPSource_UseAutolineMatching x) (HTTPSource_ManualPrefixRegexp x)
    (HTTPSource_Url x) (HTTPSource_Filters x).

Definition set_HTTPSource_MessagePerRequest (v : bool) (x : HTTPSource) : HTTPSource :=
  mkHTTPSource (HTTPSource_ID x) (HTTPSource_Name x) (HTTPSource_CollectorID x)
    (HTTPSource_Description x) (HTTPSource_Category x) (HTTPSource_TimeZone x)
    (HTTPSource_SourceType x) v (HTTPSource_MultilineProcessingEnabled x)
    (HTTPSource_UseAutolineMatching x) (HTTPSource_ManualPrefixRegexp x)
    (HTTPSource_Url x) (HTTPSource_Filters x).

Definition set_HTTPSource_MultilineProcessingEnabled (v : bool) (x : HTTPSource)
    : HTTPSource :=
  mkHTTPSource (HTTPSource_ID x) (HTTPSource_Name x) (HTTPSource_CollectorID x)
    (HTTPSource_Description x) (HTTPSource_Category x) (HTTPSource_TimeZone x)
    (HTTPSource_SourceType x) (HTTPSource_MessagePerRequest x) v
    (HTTPSource_UseAutolineMatching x) (HTTPSource_ManualPrefixRegexp x)
    (HTTPSource_Url x) (HTTPSource_Filters x).

Definition set_HTTPSource_UseAutolineMatching (v : bool) (x : HTTPSource) : HTTPSource :=
  mkHTTPSource (HTTPSource_ID x) (HTTPSource_Name x) (HTTPSource_CollectorID x)
    (HTTPSource_Description x) (HTTPSource_Category x) (HTTPSource_TimeZone x)
    (HTTPSource_SourceType x) (HTTPSource_MessagePerRequest x)
    (HTTPSource_MultilineProcessingEnabled x) v (HTTPSource_ManualPrefixRegexp x)
    (HTTPSource_Url x) (HTTPSource_Filters x).

Definition set_HTTPSource_ManualPrefixRegexp (v : string) (x : HTTPSource) : HTTPSource :=
  mkHTTPSource (HTTPSource_ID x) (HTTPSource_Name x) (HTTPSource_CollectorID x)
    (HTTPSource_Description x) (HTTPSource_Category x) (HTTPSource_TimeZone x)
    (HTTPSource_SourceType x) (HTTPSource_MessagePerRequest x)
    (HTTPSource_MultilineProcessingEnabled x) (HTTPSource_UseAutolineMatching x) v
    (HTTPSource_Url x) (HTTPSource_Filters x).

Definition set_HTTPSource_Url (v : string) (x : HTTPSource) : HTTPSource :=
  mkHTTPSource (HTTPSource_ID x) (HTTPSource_Name x) (HTTPSource_CollectorID x)
    (HTTPSource_Description x) (HTTPSource_Category x) (HTTPSource_TimeZone x)
    (HTTPSource_SourceType x) (HTTPSource_MessagePerRequest x)
    (HTTPSource_MultilineProcessingEnabled x) (HTTPSource_UseAutolineMatching x)
    (HTTPSource_ManualPrefixRegexp x) v (HTTPSource_Filters x).

Definition set_HTTPSource_Filters (v : list Filter) (x : HTTPSource) : HTTPSource :=
  mkHTTPSource (HTTPSource_ID x) (HTTPSource_Name x) (HTTPSource_CollectorID x)
    (HTTPSource_Description x) (HTTPSource_Category x) (HTTPSource_TimeZone x)
    (HTTPSource_SourceType x) (HTTPSource_MessagePerRequest x)
    (HTTPSource_MultilineProcessingEnabled x) (HTTPSource_UseAutolineMatching x)
    (HTTPSource_ManualPrefixRegexp x) (HTTPSource_Url x) v.

Definition HTTPSource_fields : list (Field HTTPSource) :=
  [ field "id" decode_int HTTPSource_ID set_HTTPSource_ID;
    field "name" decode_string HTTPSource_Name set_HTTPSource_Name;
    field "CollectorId" decode_int HTTPSource_CollectorID set_HTTPSource_CollectorID;
    field "description" decode_string HTTPSource_Description set_HTTPSource_Description;
    field "category" decode_string HTTPSource_Category set_HTTPSource_Category;
    field "timezone" decode_string HTTPSource_TimeZone set_HTTPSource_TimeZone;
    field "sourceType" decode_string HTTPSource_SourceType set_HTTPSource_SourceType;
    field "messagePerRequest" decode_bool
      HTTPSource_MessagePerRequest set_HTTPSource_MessagePerRequest;
    field "multilineProcessingEnabled" decode_bool
      HTTPSource_MultilineProcessingEnabled set_HTTPSource_MultilineProcessingEnabled;
    field "useAutolineMatching" decode_bool
      HTTPSource_UseAutolineMatching set_HTTPSource_UseAutolineMatching;
    field "manualPrefixRegexp" decode_string
      HTTPSource_ManualPrefixRegexp set_HTTPSource_ManualPrefixRegexp;
    field "url" decode_string HTTPSource_Url set_HTTPSource_Url;
    field "filters" (decode_slice decode_Filter Filter_zero)
      HTTPSource_Filters set_HTTPSource_Filters ].

Definition decode_HTTPSource : Decoder HTTPSource :=
  decode_struct HTTPSource_fields.

Definition encode_HTTPSource (x : HTTPSource) : json :=
  JObject (omitempty_int "id" (HTTPSource_ID x)
        ++ member_string "name" (HTTPSource_Name x)
        ++ omitempty_int "CollectorId" (HTTPSource_CollectorID x)
        ++ omitempty_string "description" (HTTPSource_Description x)
        ++ omitempty_string "category" (HTTPSource_Category x)
        ++ omitempty_string "timezone" (HTTPSource_TimeZone x)
        ++ omitempty_string "sourceType" (HTTPSource_SourceType x)
        ++ member_bool "messagePerRequest" (HTTPSource_MessagePerRequest x)
        ++ member_bool "multilineProcessingEnabled" (HTTPSource_MultilineProcessingEnabled x)
        ++ member_bool "useAutolineMatching" (HTTPSource_UseAutolineMatching x)
        ++ omitempty_string "manualPrefixRegexp" (HTTPSource_ManualPrefixRegexp x)
        ++ omitempty_string "url" (HTTPSource_Url x)
        ++ omitempty_slice "filters" encode_Filter (HTTPSource_Filters x)).

Definition inrange_HTTPSource (x : HTTPSource) : Prop :=
  is_int (HTTPSource_ID x)
  /\ is_int (HTTPSource_CollectorID x)
  /\ Forall inrange_Filter (HTTPSource_Filters x).

Definition coerce_HTTPSource (x : HTTPSource) : HTTPSource :=
  mkHTTPSource (HTTPSource_ID x)
    (toValidUTF8 (HTTPSource_Name x))
    (HTTPSource_CollectorID x)
    (toValidUTF8 (HTTPSource_Description x))
    (toValidUTF8 (HTTPSource_Category x))
    (toValidUTF8 (HTTPSource_TimeZone x))
    (toValidUTF8 (HTTPSource_SourceType x))
    (HTTPSource_MessagePerRequest x)
    (HTTPSource_MultilineProcessingEnabled x)
    (HTTPSource_UseAutolineMatching x)
    (toValidUTF8 (HTTPSource_ManualPrefixRegexp x))
    (toValidUTF8 (HTTPSource_Url x))
    (map coerce_Filter (HTTPSource_Filters x)).


(** [HTTPSourceRequest] is the wrapper for source API calls. *)
Record HTTPSourceRequest : Type := mkHTTPSourceRequest {
  HTTPSourceRequest_Source : HTTPSource
}.

Definition HTTPSourceRequest_zero : HTTPSourceRequest :=
  mkHTTPSourceRequest HTTPSource_zero.

Definition set_HTTPSourceRequest_Source (v : HTTPSource) (x : HTTPSourceRequest)
    : HTTPSourceRequest :=
  mkHTTPSourceRequest v.

Definition HTTPSourceRequest_fields : list (Field HTTPSourceRequest) :=
  [ field "source" decode_HTTPSource
      HTTPSourceRequest_Source set_HTTPSourceRequest_Source ].

Definition decode_HTTPSourceRequest : Decoder HTTPSourceRequest :=
  decode_struct HTTPSourceRequest_fields.

Definition encode_HTTPSourceRequest (x : HTTPSourceRequest) : json :=
  JObject (member "source" (encode_HTTPSource (HTTPSourceRequest_Source x))).

Definition inrange_HTTPSourceRequest (x : HTTPSourceRequest) : Prop :=
  inrange_HTTPSource (HTTPSourceRequest_Source x).

Definition coerce_HTTPSourceRequest (x : HTTPSourceRequest) : HTTPSourceRequest :=
  mkHTTPSourceRequest (coerce_HTTPSource (HTTPSourceRequest_Source x)).

Definition valid_HTTPSourceRequest (x : HTTPSourceRequest) : Prop :=
  inrange_HTTPSourceRequest x /\ coerce_HTTPSourceRequest x = x.

(** [AWSBucketPath] contains AWS S3 bucket configuration. *)
Record AWSBucketPath : Type := mkAWSBucketPath {
  AWSBucketPath_Type : string;
  AWSBucketPath_BucketName : string;
  AWSBucketPath_PathExpression : string
}.

Definition AWSBucketPath_zero : AWSBucketPath :=
  mkAWSBucketPath EmptyString EmptyString EmptyString.

Definition set_AWSBucketPath_Type (v : string) (x : AWSBucketPath) : AWSBucketPath :=
  mkAWSBucketPath v (AWSBucketPath_BucketName x) (AWSBucketPath_PathExpression x).

Definition set_AWSBucketPath_BucketName (v : string) (x : AWSBucketPath)
    : AWSBucketPath :=
  mkAWSBucketPath (AWSBucketPath_Type x) v (AWSBucketPath_PathExpression x).

Definition set_AWSBucketPath_PathExpression (v : string) (x : AWSBucketPath)
    : AWSBucketPath :=
  mkAWSBucketPath (AWSBucketPath_Type x) (AWSBucketPath_BucketName x) v.

Definition AWSBucketPath_fields : list (Field AWSBucketPath) :=
  [ field "type" decode_string AWSBucketPath_Type set_AWSBucketPath_Type;
    field "bucketName" decode_string
      AWSBucketPath_BucketName set_AWSBucketPath_BucketName;
    field "pathExpression" decode_string
      AWSBucketPath_PathExpression set_AWSBucketPath_PathExpression ].

Definition decode_AWSBucketPath : Decoder AWSBucketPath :=
  decode_struct AWSBucketPath_fields.

Definition encode_AWSBucketPath (x : AWSBucketPath) : json :=
  JObject (member_string "type" (AWSBucketPath_Type x)
        ++ member_string "bucketName" (AWSBucketPath_BucketName x)
        ++ member_string "pathExpression" (AWSBucketPath_PathExpression x)).

Definition inrange_AWSBucketPath (x : AWSBucketPath) : Prop :=
  True.

Definition coerce_AWSBucketPath (x : AWSBucketPath) : AWSBucketPath :=
  mkAWSBucketPath (toValidUTF8 (AWSBucketPath_Type x))
    (toValidUTF8 (AWSBucketPath_BucketName x))
    (toValidUTF8 (AWSBucketPath_PathExpression x)).

Definition valid_AWSBucketPath (x : AWSBucketPath) : Prop :=
  inrange_AWSBucketPath x /\ coerce_AWSBucketPath x = x.

(** [AWSBucketAuthentication] contains AWS authentication configuration. *)
Record AWSBucketAuthentication : Type := mkAWSBucketAuthentication {
  AWSBucketAuthentication_Type : string;
  AWSBucketAuthentication_RoleARN : string
}.

Definition AWSBucketAuthentication_zero : AWSBucketAuthentication :=
  mkAWSBucketAuthentication EmptyString EmptyString.

Definition set_AWSBucketAuthentication_Type (v : string) (x : AWSBucketAuthentication)
    : AWSBucketAuthentication :=
  mkAWSBucketAuthentication v (AWSBucketAuthentication_RoleARN x).

Definition set_AWSBucketAuthentication_RoleARN (v : string) (x : AWSBucketAuthentication)
    : AWSBucketAuthentication :=
  mkAWSBucketAuthentication (AWSBucketAuthentication_Type x) v.

Definition AWSBucketAuthentication_fields : list (Field AWSBucketAuthentication) :=
  [ field "type" decode_string
      AWSBucketAuthentication_Type set_AWSBucketAuthentication_Type;
    field "roleARN" decode_string
      AWSBucketAuthentication_RoleARN set_AWSBucketAuthentication_RoleARN ].

Definition decode_AWSBucketAuthentication : Decoder AWSBucketAuthentication :=
  decode_struct AWSBucketAuthentication_fields.

Definition encode_AWSBucketAuthentication (x : AWSBucketAuthentication) : json :=
  JObject (member_string "type" (AWSBucketAuthentication_Type x)
        ++ member_string "roleARN" (AWSBucketAuthentication_RoleARN x)).

Definition inrange_AWSBucketAuthentication (x : AWSBucketAuthentication) : Prop :=
  True.

Definition coerce_AWSBucketAuthentication (x : AWSBucketAuthentication) : AWSBucketAuthentication :=
  mkAWSBucketAuthentication (toValidUTF8 (AWSBucketAuthentication_Type x))
    (toValidUTF8 (AWSBucketAuthentication_RoleARN x)).

Definition valid_AWSBucketAuthentication (x : AWSBucketAuthentication) : Prop :=
  inrange_AWSBucketAuthentication x /\ coerce_AWSBucketAuthentication x = x.

(** [AWSBucketResource]: one bucket with its access. *)
Record AWSBucketResource : Type := mkAWSBucketResource {
  AWSBucketResource_ServiceType : string;
  AWSBucketResource_Path : AWSBucketPath;
  AWSBucketResource_Authentication : AWSBucketAuthentication
}.

Definition AWSBucketResource_zero : AWSBucketResource :=
  mkAWSBucketResource EmptyString AWSBucketPath_zero AWSBucketAuthentication_zero.

Definition set_AWSBucketResource_ServiceType (v : string) (x : AWSBucketResource)
    : AWSBucketResource :=
  mkAWSBucketResource v (AWSBucketResource_Path x) (AWSBucketResource_Authentication
    x).

Definition set_AWSBucketResource_Path (v : AWSBucketPath) (x : AWSBucketResource)
    : AWSBucketResource :=
  mkAWSBucketResource (AWSBucketResource_ServiceType x) v
    (AWSBucketResource_Authentication x).

Definition set_AWSBucketResource_Authentication (v : AWSBucketAuthentication) (x : AWSBucketResource)
    : AWSBucketResource :=
  mkAWSBucketResource (AWSBucketResource_ServiceType x) (AWSBucketResource_Path x) v.

Definition AWSBucketResource_fields : list (Field AWSBucketResource) :=
  [ field "serviceType" decode_string
      AWSBucketResource_ServiceType set_AWSBucketResource_ServiceType;
    field "path" decode_AWSBucketPath AWSBucketResource_Path set_AWSBucketResource_Path;
    field "authentication" decode_AWSBucketAuthentication
      AWSBucketResource_Authentication set_AWSBucketResource_Authentication ].

Definition decode_AWSBucketResource : Decoder AWSBucketResource :=
  decode_struct AWSBucketResource_fields.

Definition encode_AWSBucketResource (x : AWSBucketResource) : json :=
  JObject (member_string "serviceType" (AWSBucketResource_ServiceType x)
        ++ member "path" (encode_AWSBucketPath (AWSBucketResource_Path x))
        ++ member "authentication" (encode_AWSBucketAuthentication (AWSBucketResource_Authentication x))).

Definition inrange_AWSBucketResource (x : AWSBucketResource) : Prop :=
  inrange_AWSBucketPath (AWSBucketResource_Path x)
  /\ inrange_AWSBucketAuthentication (AWSBucketResource_Authentication x).

Definition coerce_AWSBucketResource (x : AWSBucketResource) : AWSBucketResource :=
  mkAWSBucketResource (toValidUTF8 (AWSBucketResource_ServiceType x))
    (coerce_AWSBucketPath (AWSBucketResource_Path x))
    (coerce_AWSBucketAuthentication (AWSBucketResource_Authentication x)).

Definition valid_AWSBucketResource (x : AWSBucketResource) : Prop :=
  inrange_AWSBucketResource x /\ coerce_AWSBucketResource x = x.

(** [AWSBucketThirdPartyRef] contains the buckets of an AWS source. *)
Record AWSBucketThirdPartyRef : Type := mkAWSBucketThirdPartyRef {
  AWSBucketThirdPartyRef_Resources : list AWSBucketResource
}.

Definition AWSBucketThirdPartyRef_zero : AWSBucketThirdPartyRef :=
  mkAWSBucketThirdPartyRef [].

Definition set_AWSBucketThirdPartyRef_Resources (v : list AWSBucketResource) (x : AWSBucketThirdPartyRef)
    : AWSBucketThirdPartyRef :=
  mkAWSBucketThirdPartyRef v.

Definition AWSBucketThirdPartyRef_fields : list (Field AWSBucketThirdPartyRef) :=
  [ field "resources" (decode_slice decode_AWSBucketResource AWSBucketResource_zero)
      AWSBucketThirdPartyRef_Resources set_AWSBucketThirdPartyRef_Resources ].

Definition decode_AWSBucketThirdPartyRef : Decoder AWSBucketThirdPartyRef :=
  decode_struct AWSBucketThirdPartyRef_fields.

Definition encode_AWSBucketThirdPartyRef (x : AWSBucketThirdPartyRef) : json :=
  JObject (omitempty_slice "resources" encode_AWSBucketResource (AWSBucketThirdPartyRef_Resources x)).

Definition inrange_AWSBucketThirdPartyRef (x : AWSBucketThirdPartyRef) : Prop :=
  Forall inrange_AWSBucketResource (AWSBucketThirdPartyRef_Resources x).

Definition coerce_AWSBucketThirdPartyRef (x : AWSBucketThirdPartyRef) : AWSBucketThirdPartyRef :=
  mkAWSBucketThirdPartyRef (map coerce_AWSBucketResource (AWSBucketThirdPartyRef_Resources x)).

Definition valid_AWSBucketThirdPartyRef (x : AWSBucketThirdPartyRef) : Prop :=
  inrange_AWSBucketThirdPartyRef x /\ coerce_AWSBucketThirdPartyRef x = x.

(** [AWSCloudTrailSource], a CloudTrail source of a collector. *)
Record AWSCloudTrailSource : Type := mkAWSCloudTrailSource {
  AWSCloudTrailSource_ID : Z;
  AWSCloudTrailSource_Name : string;
  AWSCloudTrailSource_CollectorID : Z;
  AWSCloudTrailSource_Description : string;
  AWSCloudTrailSource_Category : string;
  AWSCloudTrailSource_TimeZone : string;
  AWSCloudTrailSource_SourceType : string;
  AWSCloudTrailSource_ContentType : string;
  AWSCloudTrailSource_ScanInterval : Z;
  AWSCloudTrailSource_Paused : bool;
  AWSCloudTrailSource_CutoffRelativeTime : string;
  AWSCloudTrailSource_ThirdPartyRef : AWSBucketThirdPartyRef
}.

Definition AWSCloudTrailSource_zero : AWSCloudTrailSource :=
  mkAWSCloudTrailSource 0 EmptyString 0 EmptyString EmptyString EmptyString
    EmptyString EmptyString 0 false EmptyString AWSBucketThirdPartyRef_zero.

Definition set_AWSCloudTrailSource_ID (v : Z) (x : AWSCloudTrailSource)
    : AWSCloudTrailSource :=
  mkAWSCloudTrailSource v (AWSCloudTrailSource_Name x)
    (AWSCloudTrailSource_CollectorID x) (AWSCloudTrailSource_Description x)
    (AWSCloudTrailSource_Category x) (AWSCloudTrailSource_TimeZone x)
    (AWSCloudTrailSource_SourceType x) (AWSCloudTrailSource_ContentType x)
    (AWSCloudTrailSource_ScanInterval x) (AWSCloudTrailSource_Paused x)
    (AWSCloudTrailSource_CutoffRelativeTime x) (AWSCloudTrailSource_ThirdPartyRef x).

Definition set_AWSCloudTrailSource_Name (v : string) (x : AWSCloudTrailSource)
    : AWSCloudTrailSource :=
  mkAWSCloudTrailSource (AWSCloudTrailSource_ID x) v (AWSCloudTrailSource_CollectorID
    x) (AWSCloudTrailSource_Description x) (AWSCloudTrailSource_Category x)
    (AWSCloudTrailSource_TimeZone x) (AWSCloudTrailSource_SourceType x)
    (AWSCloudTrailSource_ContentType x) (AWSCloudTrailSource_ScanInterval x)
    (AWSCloudTrailSource_Paused x) (AWSCloudTrailSource_CutoffRelativeTime x)
    (AWSCloudTrailSource_ThirdPartyRef x).

Definition set_AWSCloudTrailSource_CollectorID (v : Z) (x : AWSCloudTrailSource)
    : AWSCloudTrailSource :=
  mkAWSCloudTrailSource (AWSCloudTrailSource_ID x) (AWSCloudTrailSource_Name x) v
    (AWSCloudTrailSource_Description x) (AWSCloudTrailSource_Category x)
    (AWSCloudTrailSource_TimeZone x) (AWSCloudTrailSource_SourceType x)
    (AWSCloudTrailSource_ContentType x) (AWSCloudTrailSource_ScanInterval x)
    (AWSCloudTrailSource_Paused x) (AWSCloudTrailSource_CutoffRelativeTime x)
    (AWSCloudTrailSource_ThirdPartyRef x).

Definition set_AWSCloudTrailSource_Description (v : string) (x : AWSCloudTrailSource)
    : AWSCloudTrailSource :=
  mkAWSCloudTrailSource (AWSCloudTrailSource_ID x) (AWSCloudTrailSource_Name x)
    (AWSCloudTrailSource_CollectorID x) v (AWSCloudTrailSource_Category x)
    (AWSCloudTrailSource_TimeZone x) (AWSCloudTrailSource_SourceType x)
    (AWSCloudTrailSource_ContentType x) (AWSCloudTrailSource_ScanInterval x)
    (AWSCloudTrailSource_Paused x) (AWSCloudTrailSource_CutoffRelativeTime x)
    (AWSCloudTrailSource_ThirdPartyRef x).

Definition set_AWSCloudTrailSource_Category (v : string) (x : AWSCloudTrailSource)
    : AWSCloudTrailSource :=
  mkAWSCloudTrailSource (AWSCloudTrailSource_ID x) (AWSCloudTrailSource_Name x)
    (AWSCloudTrailSource_CollectorID x) (AWSCloudTrailSource_Description x) v
    (AWSCloudTrailSource_TimeZone x) (AWSCloudTrailSource_SourceType x)
    (AWSCloudTrailSource_ContentType x) (AWSCloudTrailSource_ScanInterval x)
    (AWSCloudTrailSource_Paused x) (AWSCloudTrailSource_CutoffRelativeTime x)
    (AWSCloudTrailSource_ThirdPartyRef x).

Definition set_AWSCloudTrailSource_TimeZone (v : string) (x : AWSCloudTrailSource)
    : AWSCloudTrailSource :=
  mkAWSCloudTrailSource (AWSCloudTrailSource_ID x) (AWSCloudTrailSource_Name x)
    (AWSCloudTrailSource_CollectorID x) (AWSCloudTrailSource_Description x)
    (AWSCloudTrailSource_Category x) v (AWSCloudTrailSource_SourceType x)
    (AWSCloudTrailSource_ContentType x) (AWSCloudTrailSource_ScanInterval x)
    (AWSCloudTrailSource_Paused x) (AWSCloudTrailSource_CutoffRelativeTime x)
    (AWSCloudTrailSource_ThirdPartyRef x).

Definition set_AWSCloudTrailSource_SourceType (v : string) (x : AWSCloudTrailSource)
    : AWSCloudTrailSource :=
  mkAWSCloudTrailSource (AWSCloudTrailSource_ID x) (AWSCloudTrailSource_Name x)
    (AWSCloudTrailSource_CollectorID x) (AWSCloudTrailSource_Description x)
    (AWSCloudTrailSource_Category x) (AWSCloudTrailSource_TimeZone x) v
    (AWSCloudTrailSource_ContentType x) (AWSCloudTrailSource_ScanInterval x)
    (AWSCloudTrailSource_Paused x) (AWSCloudTrailSource_CutoffRelativeTime x)
    (AWSCloudTrailSource_ThirdPartyRef x).

Definition set_AWSCloudTrailSource_ContentType (v : string) (x : AWSCloudTrailSource)
    : AWSCloudTrailSource :=
  mkAWSCloudTrailSource (AWSCloudTrailSource_ID x) (AWSCloudTrailSource_Name x)
    (AWSCloudTrailSource_CollectorID x) (AWSCloudTrailSource_Description x)
    (AWSCloudTrailSource_Category x) (AWSCloudTrailSource_TimeZone x)
    (AWSCloudTrailSource_SourceType x) v (AWSCloudTrailSource_ScanInterval x)
    (AWSCloudTrailSource_Paused x) (AWSCloudTrailSource_CutoffRelativeTime x)
    (AWSCloudTrailSource_ThirdPartyRef x).

Definition set_AWSCloudTrailSource_ScanInterval (v : Z) (x : AWSCloudTrailSource)
    : AWSCloudTrailSource :=
  mkAWSCloudTrailSource (AWSCloudTrailSource_ID x) (AWSCloudTrailSource_Name x)
    (AWSCloudTrailSource_CollectorID x) (AWSCloudTrailSource_Description x)
    (AWSCloudTrailSource_Category x) (AWSCloudTrailSource_TimeZone x)
    (AWSCloudTrailSource_SourceType x) (AWSCloudTrailSource_ContentType x) v
    (AWSCloudTrailSource_Paused x) (AWSCloudTrailSource_CutoffRelativeTime x)
    (AWSCloudTrailSource_ThirdPartyRef x).

Definition set_AWSCloudTrailSource_Paused (v : bool) (x : AWSCloudTrailSource)
    : AWSCloudTrailSource :=
  mkAWSCloudTrailSource (AWSCloudTrailSource_ID x) (AWSCloudTrailSource_Name x)
    (AWSCloudTrailSource_CollectorID x) (AWSCloudTrailSource_Description x)
    (AWSCloudTrailSource_Category x) (AWSCloudTrailSource_TimeZone x)
    (AWSCloudTrailSource_SourceType x) (AWSCloudTrailSource_ContentType x)
    (AWSCloudTrailSource_ScanInterval x) v (AWSCloudTrailSource_CutoffRelativeTime x)
    (AWSCloudTrailSource_ThirdPartyRef x).

Definition set_AWSCloudTrailSource_CutoffRelativeTime (v : string) (x : AWSCloudTrailSource)
    : AWSCloudTrailSource :=
  mkAWSCloudTrailSource (AWSCloudTrailSource_ID x) (AWSCloudTrailSource_Name x)
    (AWSCloudTrailSource_CollectorID x) (AWSCloudTrailSource_Description x)
    (AWSCloudTrailSource_Category x) (AWSCloudTrailSource_TimeZone x)
    (AWSCloudTrailSource_SourceType x) (AWSCloudTrailSource_ContentType x)
    (AWSCloudTrailSource_ScanInterval x) (AWSCloudTrailSource_Paused x) v
    (AWSCloudTrailSource_ThirdPartyRef x).

Definition set_AWSCloudTrailSource_ThirdPartyRef (v : AWSBucketThirdPartyRef) (x : AWSCloudTrailSource)
    : AWSCloudTrailSource :=
  mkAWSCloudTrailSource (AWSCloudTrailSource_ID x) (AWSCloudTrailSource_Name x)
    (AWSCloudTrailSource_CollectorID x) (AWSCloudTrailSource_Description x)
    (AWSCloudTrailSource_Category x) (AWSCloudTrailSource_TimeZone x)
    (AWSCloudTrailSource_SourceType x) (AWSCloudTrailSource_ContentType x)
    (AWSCloudTrailSource_ScanInterval x) (AWSCloudTrailSource_Paused x)
    (AWSCloudTrailSource_CutoffRelativeTime x) v.

Definition AWSCloudTrailSource_fields : list (Field AWSCloudTrailSource) :=
  [ field "id" decode_int AWSCloudTrailSource_ID set_AWSCloudTrailSource_ID;
    field "name" decode_string AWSCloudTrailSource_Name set_AWSCloudTrailSource_Name;
    field "CollectorId" decode_int
      AWSCloudTrailSource_CollectorID set_AWSCloudTrailSource_CollectorID;
    field "description" decode_string
      AWSCloudTrailSource_Description set_AWSCloudTrailSource_Description;
    field "category" decode_string
      AWSCloudTrailSource_Category set_AWSCloudTrailSource_Category;
    field "timezone" decode_string
      AWSCloudTrailSource_TimeZone set_AWSCloudTrailSource_TimeZone;
    field "sourceType" decode_string
      AWSCloudTrailSource_SourceType set_AWSCloudTrailSource_SourceType;
    field "contentType" decode_string
      AWSCloudTrailSource_ContentType set_AWSCloudTrailSource_ContentType;
    field "scanInterval" decode_int
      AWSCloudTrailSource_ScanInterval set_AWSCloudTrailSource_ScanInterval;
    field "paused" decode_bool AWSCloudTrailSource_Paused set_AWSCloudTrailSource_Paused;
    field "cutoffRelativeTime" decode_string
      AWSCloudTrailSource_CutoffRelativeTime set_AWSCloudTrailSource_CutoffRelativeTime;
    field "thirdPartyRef" decode_AWSBucketThirdPartyRef
      AWSCloudTrailSource_ThirdPartyRef set_AWSCloudTrailSource_ThirdPartyRef ].

Definition decode_AWSCloudTrailSource : Decoder AWSCloudTrailSource :=
  decode_struct AWSCloudTrailSource_fields.

Definition encode_AWSCloudTrailSource (x : AWSCloudTrailSource) : json :=
  JObject (omitempty_int "id" (AWSCloudTrailSource_ID x)
        ++ member_string "name" (AWSCloudTrailSource_Name x)
        ++ omitempty_int "CollectorId" (AWSCloudTrailSource_CollectorID x)
        ++ omitempty_string "description" (AWSCloudTrailSource_Description x)
        ++ omitempty_string "category" (AWSCloudTrailSource_Category x)
        ++ omitempty_string "timezone" (AWSCloudTrailSource_TimeZone x)
        ++ omitempty_string "sourceType" (AWSCloudTrailSource_SourceType x)
        ++ omitempty_string "contentType" (AWSCloudTrailSource_ContentType x)
        ++ omitempty_int "scanInterval" (AWSCloudTrailSource_ScanInterval x)
        ++ member_bool "paused" (AWSCloudTrailSource_Paused x)
        ++ member_string "cutoffRelativeTime" (AWSCloudTrailSource_CutoffRelativeTime x)
        ++ member "thirdPartyRef" (encode_AWSBucketThirdPartyRef (AWSCloudTrailSource_ThirdPartyRef x))).

Definition inrange_AWSCloudTrailSource (x : AWSCloudTrailSource) : Prop :=
  is_int (AWSCloudTrailSource_ID x)
  /\ is_int (AWSCloudTrailSource_CollectorID x)
  /\ is_int (AWSCloudTrailSource_ScanInterval x)
  /\ inrange_AWSBucketThirdPartyRef (AWSCloudTrailSource_ThirdPartyRef x).

Definition coerce_AWSCloudTrailSource (x : AWSCloudTrailSource) : AWSCloudTrailSource :=
  mkAWSCloudTrailSource (AWSCloudTrailSource_ID x)
    (toValidUTF8 (AWSCloudTrailSource_Name x))
    (AWSCloudTrailSource_CollectorID x)
    (toValidUTF8 (AWSCloudTrailSource_Description x))
    (toValidUTF8 (AWSCloudTrailSource_Category x))
    (toValidUTF8 (AWSCloudTrailSource_TimeZone x))
    (toValidUTF8 (AWSCloudTrailSource_SourceType x))
    (toValidUTF8 (AWSCloudTrailSource_ContentType x))
    (AWSCloudTrailSource_ScanInterval x)
    (AWSCloudTrailSource_Paused x)
    (toValidUTF8 (AWSCloudTrailSource_CutoffRelativeTime x))
    (coerce_AWSBucketThirdPartyRef (AWSCloudTrailSource_ThirdPartyRef x)).


(** [AWSCloudTrailSourceRequest] is the wrapper for source API calls. *)
Record AWSCloudTrailSourceRequest : Type := mkAWSCloudTrailSourceRequest {
  AWSCloudTrailSourceRequest_Source : AWSCloudTrailSource
}.

Definition AWSCloudTrailSourceRequest_zero : AWSCloudTrailSourceRequest :=
  mkAWSCloudTrailSourceRequest AWSCloudTrailSource_zero.

Definition set_AWSCloudTrailSourceRequest_Source (v : AWSCloudTrailSource) (x : AWSCloudTrailSourceRequest)
    : AWSCloudTrailSourceRequest :=
  mkAWSCloudTrailSourceRequest v.

Definition AWSCloudTrailSourceRequest_fields : list (Field AWSCloudTrailSourceRequest) :=
  [ field "source" decode_AWSCloudTrailSource
      AWSCloudTrailSourceRequest_Source set_AWSCloudTrailSourceRequest_Source ].

Definition decode_AWSCloudTrailSourceRequest : Decoder AWSCloudTrailSourceRequest :=
  decode_struct AWSCloudTrailSourceRequest_fields.

Definition encode_AWSCloudTrailSourceRequest (x : AWSCloudTrailSourceRequest) : json :=
  JObject (member "source" (encode_AWSCloudTrailSource (AWSCloudTrailSourceRequest_Source x))).

Definition inrange_AWSCloudTrailSourceRequest (x : AWSCloudTrailSourceRequest) : Prop :=
  inrange_AWSCloudTrailSource (AWSCloudTrailSourceRequest_Source x).

Definition coerce_AWSCloudTrailSourceRequest (x : AWSCloudTrailSourceRequest) : AWSCloudTrailSourceRequest :=
  mkAWSCloudTrailSourceRequest (coerce_AWSCloudTrailSource (AWSCloudTrailSourceRequest_Source x)).

Definition valid_AWSCloudTrailSourceRequest (x : AWSCloudTrailSourceRequest) : Prop :=
  inrange_AWSCloudTrailSourceRequest x /\ coerce_AWSCloudTrailSourceRequest x = x.

(** [AWSLogSource], an S3 log source of a collector. *)
Record AWSLogSource : Type := mkAWSLogSource {
  AWSLogSource_ID : Z;
  AWSLogSource_Name : string;
  AWSLogSource_CollectorID : Z;
  AWSLogSource_Description : string;
  AWSLogSource_Category : string;
  AWSLogSource_TimeZone : string;
  AWSLogSource_SourceType : string;
  AWSLogSource_ContentType : string;
  AWSLogSource_ScanInterval : Z;
  AWSLogSource_Paused : bool;
  AWSLogSource_CutoffRelativeTime : string;
  AWSLogSource_MultilineProcessingEnabled : bool;
  AWSLogSource_UseAutolineMatching : bool;
  AWSLogSource_ManualPrefixRegexp : string;
  AWSLogSource_Url : string;
  AWSLogSource_ThirdPartyRef : AWSBucketThirdPartyRef
}.

Definition AWSLogSource_zero : AWSLogSource :=
  mkAWSLogSource 0 EmptyString 0 EmptyString EmptyString EmptyString EmptyString
    EmptyString 0 false EmptyString false false EmptyString EmptyString
    AWSBucketThirdPartyRef_zero.

Definition set_AWSLogSource_ID (v : Z) (x : AWSLogSource) : AWSLogSource :=
  mkAWSLogSource v (AWSLogSource_Name x) (AWSLogSource_CollectorID x)
    (AWSLogSource_Description x) (AWSLogSource_Category x) (AWSLogSource_TimeZone x)
    (AWSLogSource_SourceType x) (AWSLogSource_ContentType x)
    (AWSLogSource_ScanInterval x) (AWSLogSource_Paused x)
    (AWSLogSource_CutoffRelativeTime x) (AWSLogSource_MultilineProcessingEnabled x)
    (AWSLogSource_UseAutolineMatching x) (AWSLogSource_ManualPrefixRegexp x)
    (AWSLogSource_Url x) (AWSLogSource_ThirdPartyRef x).

Definition set_AWSLogSource_Name (v : string) (x : AWSLogSource) : AWSLogSource :=
  mkAWSLogSource (AWSLogSource_ID x) v (AWSLogSource_CollectorID x)
    (AWSLogSource_Description x) (AWSLogSource_Category x) (AWSLogSource_TimeZone x)
    (AWSLogSource_SourceType x) (AWSLogSource_ContentType x)
    (AWSLogSource_ScanInterval x) (AWSLogSource_Paused x)
    (AWSLogSource_CutoffRelativeTime x) (AWSLogSource_MultilineProcessingEnabled x)
    (AWSLogSource_UseAutolineMatching x) (AWSLogSource_ManualPrefixRegexp x)
    (AWSLogSource_Url x) (AWSLogSource_ThirdPartyRef x).

Definition set_AWSLogSource_CollectorID (v : Z) (x : AWSLogSource) : AWSLogSource :=
  mkAWSLogSource (AWSLogSource_ID x) (AWSLogSource_Name x) v (AWSLogSource_Description
    x) (AWSLogSource_Category x) (AWSLogSource_TimeZone x) (AWSLogSource_SourceType x)
    (AWSLogSource_ContentType x) (AWSLogSource_ScanInterval x) (AWSLogSource_Paused x)
    (AWSLogSource_CutoffRelativeTime x) (AWSLogSource_MultilineProcessingEnabled x)
    (AWSLogSource_UseAutolineMatching x) (AWSLogSource_ManualPrefixRegexp x)
    (AWSLogSource_Url x) (AWSLogSource_ThirdPartyRef x).

Definition set_AWSLogSource_Description (v : string) (x : AWSLogSource) : AWSLogSource :=
  mkAWSLogSource (AWSLogSource_ID x) (AWSLogSource_Name x) (AWSLogSource_CollectorID
    x) v (AWSLogSource_Category x) (AWSLogSource_TimeZone x) (AWSLogSource_SourceType
    x) (AWSLogSource_ContentType x) (AWSLogSource_ScanInterval x) (AWSLogSource_Paused
    x) (AWSLogSource_CutoffRelativeTime x) (AWSLogSource_MultilineProcessingEnabled x)
    (AWSLogSource_UseAutolineMatching x) (AWSLogSource_ManualPrefixRegexp x)
    (AWSLogSource_Url x) (AWSLogSource_ThirdPartyRef x).

Definition set_AWSLogSource_Category (v : string) (x : AWSLogSource) : AWSLogSource :=
  mkAWSLogSource (AWSLogSource_ID x) (AWSLogSource_Name x) (AWSLogSource_CollectorID
    x) (AWSLogSource_Description x) v (AWSLogSource_TimeZone x)
    (AWSLogSource_SourceType x) (AWSLogSource_ContentType x)
    (AWSLogSource_ScanInterval x) (AWSLogSource_Paused x)
    (AWSLogSource_CutoffRelativeTime x) (AWSLogSource_MultilineProcessingEnabled x)
    (AWSLogSource_UseAutolineMatching x) (AWSLogSource_ManualPrefixRegexp x)
    (AWSLogSource_Url x) (AWSLogSource_ThirdPartyRef x).

Definition set_AWSLogSource_TimeZone (v : string) (x : AWSLogSource) : AWSLogSource :=
  mkAWSLogSource (AWSLogSource_ID x) (AWSLogSource_Name x) (AWSLogSource_CollectorID
    x) (AWSLogSource_Description x) (AWSLogSource_Category x) v
    (AWSLogSource_SourceType x) (AWSLogSource_ContentType x)
    (AWSLogSource_ScanInterval x) (AWSLogSource_Paused x)
    (AWSLogSource_CutoffRelativeTime x) (AWSLogSource_MultilineProcessingEnabled x)
    (AWSLogSource_UseAutolineMatching x) (AWSLogSource_ManualPrefixRegexp x)
    (AWSLogSource_Url x) (AWSLogSource_ThirdPartyRef x).

Definition set_AWSLogSource_SourceType (v : string) (x : AWSLogSource) : AWSLogSource :=
  mkAWSLogSource (AWSLogSource_ID x) (AWSLogSource_Name x) (AWSLogSource_CollectorID
    x) (AWSLogSource_Description x) (AWSLogSource_Category x) (AWSLogSource_TimeZone
    x) v (AWSLogSource_ContentType x) (AWSLogSource_ScanInterval x)
    (AWSLogSource_Paused x) (AWSLogSource_CutoffRelativeTime x)
    (AWSLogSource_MultilineProcessingEnabled x) (AWSLogSource_UseAutolineMatching x)
    (AWSLogSource_ManualPrefixRegexp x) (AWSLogSource_Url x)
    (AWSLogSource_ThirdPartyRef x).

Definition set_AWSLogSource_ContentType (v : string) (x : AWSLogSource) : AWSLogSource :=
  mkAWSLogSource (AWSLogSource_ID x) (AWSLogSource_Name x) (AWSLogSource_CollectorID
    x) (AWSLogSource_Description x) (AWSLogSource_Category x) (AWSLogSource_TimeZone
    x) (AWSLogSource_SourceType x) v (AWSLogSource_ScanInterval x)
    (AWSLogSource_Paused x) (AWSLogSource_CutoffRelativeTime x)
    (AWSLogSource_MultilineProcessingEnabled x) (AWSLogSource_UseAutolineMatching x)
    (AWSLogSource_ManualPrefixRegexp x) (AWSLogSource_Url x)
    (AWSLogSource_ThirdPartyRef x).

Definition set_AWSLogSource_ScanInterval (v : Z) (x : AWSLogSource) : AWSLogSource :=
  mkAWSLogSource (AWSLogSource_ID x) (AWSLogSource_Name x) (AWSLogSource_CollectorID
    x) (AWSLogSource_Description x) (AWSLogSource_Category x) (AWSLogSource_TimeZone
    x) (AWSLogSource_SourceType x) (AWSLogSource_ContentType x) v (AWSLogSource_Paused
    x) (AWSLogSource_CutoffRelativeTime x) (AWSLogSource_MultilineProcessingEnabled x)
    (AWSLogSource_UseAutolineMatching x) (AWSLogSource_ManualPrefixRegexp x)
    (AWSLogSource_Url x) (AWSLogSource_ThirdPartyRef x).

Definition set_AWSLogSource_Paused (v : bool) (x : AWSLogSource) : AWSLogSource :=
  mkAWSLogSource (AWSLogSource_ID x) (AWSLogSource_Name x) (AWSLogSource_CollectorID
    x) (AWSLogSource_Description x) (AWSLogSource_Category x) (AWSLogSource_TimeZone
    x) (AWSLogSource_SourceType x) (AWSLogSource_ContentType x)
    (AWSLogSource_ScanInterval x) v (AWSLogSource_CutoffRelativeTime x)
    (AWSLogSource_MultilineProcessingEnabled x) (AWSLogSource_UseAutolineMatching x)
    (AWSLogSource_ManualPrefixRegexp x) (AWSLogSource_Url x)
    (AWSLogSource_ThirdPartyRef x).

Definition set_AWSLogSource_CutoffRelativeTime (v : string) (x : AWSLogSource)
    : AWSLogSource :=
  mkAWSLogSource (AWSLogSource_ID x) (AWSLogSource_Name x) (AWSLogSource_CollectorID
    x) (AWSLogSource_Description x) (AWSLogSource_Category x) (AWSLogSource_TimeZone
    x) (AWSLogSource_SourceType x) (AWSLogSource_ContentType x)
    (AWSLogSource_ScanInterval x) (AWSLogSource_Paused x) v
    (AWSLogSource_MultilineProcessingEnabled x) (AWSLogSource_UseAutolineMatching x)
    (AWSLogSource_ManualPrefixRegexp x) (AWSLogSource_Url x)
    (AWSLogSource_ThirdPartyRef x).

Definition set_AWSLogSource_MultilineProcessingEnabled (v : bool) (x : AWSLogSource)
    : AWSLogSource :=
  mkAWSLogSource (AWSLogSource_ID x) (AWSLogSource_Name x) (AWSLogSource_CollectorID
    x) (AWSLogSource_Description x) (AWSLogSource_Category x) (AWSLogSource_TimeZone
    x) (AWSLogSource_SourceType x) (AWSLogSource_ContentType x)
    (AWSLogSource_ScanInterval x) (AWSLogSource_Paused x)
    (AWSLogSource_CutoffRelativeTime x) v (AWSLogSource_UseAutolineMatching x)
    (AWSLogSource_ManualPrefixRegexp x) (AWSLogSource_Url x)
    (AWSLogSource_ThirdPartyRef x).

Definition set_AWSLogSource_UseAutolineMatching (v : bool) (x : AWSLogSource)
    : AWSLogSource :=
  mkAWSLogSource (AWSLogSource_ID x) (AWSLogSource_Name x) (AWSLogSource_CollectorID
    x) (AWSLogSource_Description x) (AWSLogSource_Category x) (AWSLogSource_TimeZone
    x) (AWSLogSource_SourceType x) (AWSLogSource_ContentType x)
    (AWSLogSource_ScanInterval x) (AWSLogSource_Paused x)
    (AWSLogSource_CutoffRelativeTime x) (AWSLogSource_MultilineProcessingEnabled x) v
    (AWSLogSource_ManualPrefixRegexp x) (AWSLogSource_Url x)
    (AWSLogSource_ThirdPartyRef x).

Definition set_AWSLogSource_ManualPrefixRegexp (v : string) (x : AWSLogSource)
    : AWSLogSource :=
  mkAWSLogSource (AWSLogSource_ID x) (AWSLogSource_Name x) (AWSLogSource_CollectorID
    x) (AWSLogSource_Description x) (AWSLogSource_Category x) (AWSLogSource_TimeZone
    x) (AWSLogSource_SourceType x) (AWSLogSource_ContentType x)
    (AWSLogSource_ScanInterval x) (AWSLogSource_Paused x)
    (AWSLogSource_CutoffRelativeTime x) (AWSLogSource_MultilineProcessingEnabled x)
    (AWSLogSource_UseAutolineMatching x) v (AWSLogSource_Url x)
    (AWSLogSource_ThirdPartyRef x).

Definition set_AWSLogSource_Url (v : string) (x : AWSLogSource) : AWSLogSource :=
  mkAWSLogSource (AWSLogSource_ID x) (AWSLogSource_Name x) (AWSLogSource_CollectorID
    x) (AWSLogSource_Description x) (AWSLogSource_Category x) (AWSLogSource_TimeZone
    x) (AWSLogSource_SourceType x) (AWSLogSource_ContentType x)
    (AWSLogSource_ScanInterval x) (AWSLogSource_Paused x)
    (AWSLogSource_CutoffRelativeTime x) (AWSLogSource_MultilineProcessingEnabled x)
    (AWSLogSource_UseAutolineMatching x) (AWSLogSource_ManualPrefixRegexp x) v
    (AWSLogSource_ThirdPartyRef x).

Definition set_AWSLogSource_ThirdPartyRef (v : AWSBucketThirdPartyRef) (x : AWSLogSource)
    : AWSLogSource :=
  mkAWSLogSource (AWSLogSource_ID x) (AWSLogSource_Name x) (AWSLogSource_CollectorID
    x) (AWSLogSource_Description x) (AWSLogSource_Category x) (AWSLogSource_TimeZone
    x) (AWSLogSource_SourceType x) (AWSLogSource_ContentType x)
    (AWSLogSource_ScanInterval x) (AWSLogSource_Paused x)
    (AWSLogSource_CutoffRelativeTime x) (AWSLogSource_MultilineProcessingEnabled x)
    (AWSLogSource_UseAutolineMatching x) (AWSLogSource_ManualPrefixRegexp x)
    (AWSLogSource_Url x) v.

Definition AWSLogSource_fields : list (Field AWSLogSource) :=
  [ field "id" decode_int AWSLogSource_ID set_AWSLogSource_ID;
    field "name" decode_string AWSLogSource_Name set_AWSLogSource_Name;
    field "CollectorId" decode_int AWSLogSource_CollectorID set_AWSLogSource_CollectorID;
    field "description" decode_string
      AWSLogSource_Description set_AWSLogSource_Description;
    field "category" decode_string AWSLogSource_Category set_AWSLogSource_Category;
    field "timezone" decode_string AWSLogSource_TimeZone set_AWSLogSource_TimeZone;
    field "sourceType" decode_string AWSLogSource_SourceType set_AWSLogSource_SourceType;
    field "contentType" decode_string
      AWSLogSource_ContentType set_AWSLogSource_ContentType;
    field "scanInterval" decode_int
      AWSLogSource_ScanInterval set_AWSLogSource_ScanInterval;
    field "paused" decode_bool AWSLogSource_Paused set_AWSLogSource_Paused;
    field "cutoffRelativeTime" decode_string
      AWSLogSource_CutoffRelativeTime set_AWSLogSource_CutoffRelativeTime;
    field "multilineProcessingEnabled" decode_bool
      AWSLogSource_MultilineProcessingEnabled set_AWSLogSource_MultilineProcessingEnabled;
    field "useAutolineMatching" decode_bool
      AWSLogSource_UseAutolineMatching set_AWSLogSource_UseAutolineMatching;
    field "manualPrefixRegexp" decode_string
      AWSLogSource_ManualPrefixRegexp set_AWSLogSource_ManualPrefixRegexp;
    field "url" decode_string AWSLogSource_Url set_AWSLogSource_Url;
    field "thirdPartyRef" decode_AWSBucketThirdPartyRef
      AWSLogSource_ThirdPartyRef set_AWSLogSource_ThirdPartyRef ].

Definition decode_AWSLogSource : Decoder AWSLogSource :=
  decode_struct AWSLogSource_fields.

Definition encode_AWSLogSource (x : AWSLogSource) : json :=
  JObject (omitempty_int "id" (AWSLogSource_ID x)
        ++ member_string "name" (AWSLogSource_Name x)
        ++ omitempty_int "CollectorId" (AWSLogSource_CollectorID x)
        ++ omitempty_string "description" (AWSLogSource_Description x)
        ++ omitempty_string "category" (AWSLogSource_Category x)
        ++ omitempty_string "timezone" (AWSLogSource_TimeZone x)
        ++ omitempty_string "sourceType" (AWSLogSource_SourceType x)
        ++ omitempty_string "contentType" (AWSLogSource_ContentType x)
        ++ omitempty_int "scanInterval" (AWSLogSource_ScanInterval x)
        ++ member_bool "paused" (AWSLogSource_Paused x)
        ++ omitempty_string "cutoffRelativeTime" (AWSLogSource_CutoffRelativeTime x)
        ++ omitempty_bool "multilineProcessingEnabled" (AWSLogSource_MultilineProcessingEnabled x)
        ++ omitempty_bool "useAutolineMatching" (AWSLogSource_UseAutolineMatching x)
        ++ omitempty_string "manualPrefixRegexp" (AWSLogSource_ManualPrefixRegexp x)
        ++ omitempty_string "url" (AWSLogSource_Url x)
        ++ member "thirdPartyRef" (encode_AWSBucketThirdPartyRef (AWSLogSource_ThirdPartyRef x))).

Definition inrange_AWSLogSource (x : AWSLogSource) : Prop :=
  is_int (AWSLogSource_ID x)
  /\ is_int (AWSLogSource_CollectorID x)
  /\ is_int (AWSLogSource_ScanInterval x)
  /\ inrange_AWSBucketThirdPartyRef (AWSLogSource_ThirdPartyRef x).

Definition coerce_AWSLogSource (x : AWSLogSource) : AWSLogSource :=
  mkAWSLogSource (AWSLogSource_ID x)
    (toValidUTF8 (AWSLogSource_Name x))
    (AWSLogSource_CollectorID x)
    (toValidUTF8 (AWSLogSource_Description x))
    (toValidUTF8 (AWSLogSource_Category x))
    (toValidUTF8 (AWSLogSource_TimeZone x))
    (toValidUTF8 (AWSLogSource_SourceType x))
    (toValidUTF8 (AWSLogSource_ContentType x))
    (AWSLogSource_ScanInterval x)
    (AWSLogSource_Paused x)
    (toValidUTF8 (AWSLogSource_CutoffRelativeTime x))
    (AWSLogSource_MultilineProcessingEnabled x)
    (AWSLogSource_UseAutolineMatching x)
    (toValidUTF8 (AWSLogSource_ManualPrefixRegexp x))
    (toValidUTF8 (AWSLogSource_Url x))
    (coerce_AWSBucketThirdPartyRef (AWSLogSource_ThirdPartyRef x)).


(** [AWSLogSourceRequest] is the wrapper for source API calls. *)
Record AWSLogSourceRequest : Type := mkAWSLogSourceRequest {
  AWSLogSourceRequest_Source : AWSLogSource
}.

Definition AWSLogSourceRequest_zero : AWSLogSourceRequest :=
  mkAWSLogSourceRequest AWSLogSource_zero.

Definition set_AWSLogSourceRequest_Source (v : AWSLogSource) (x : AWSLogSourceRequest)
    : AWSLogSourceRequest :=
  mkAWSLogSourceRequest v.

Definition AWSLogSourceRequest_fields : list (Field AWSLogSourceRequest) :=
  [ field "source" decode_AWSLogSource
      AWSLogSourceRequest_Source set_AWSLogSourceRequest_Source ].

Definition decode_AWSLogSourceRequest : Decoder AWSLogSourceRequest :=
  decode_struct AWSLogSourceRequest_fields.

Definition encode_AWSLogSourceRequest (x : AWSLogSourceRequest) : json :=
  JObject (member "source" (encode_AWSLogSource (AWSLogSourceRequest_Source x))).

Definition inrange_AWSLogSourceRequest (x : AWSLogSourceRequest) : Prop :=
  inrange_AWSLogSource (AWSLogSourceRequest_Source x).

Definition coerce_AWSLogSourceRequest (x : AWSLogSourceRequest) : AWSLogSourceRequest :=
  mkAWSLogSourceRequest (coerce_AWSLogSource (AWSLogSourceRequest_Source x)).

Definition valid_AWSLogSourceRequest (x : AWSLogSourceRequest) : Prop :=
  inrange_AWSLogSourceRequest x /\ coerce_AWSLogSourceRequest x = x.

(** [Error], the body the API sends with a 400. *)
Record Error : Type := mkError {
  Error_Status : Z;
  Error_ID : string;
  Error_Code : string;
  Error_Message : string
}.

Definition Error_zero : Error :=
  mkError 0 EmptyString EmptyString EmptyString.

Definition set_Error_Status (v : Z) (x : Error) : Error :=
  mkError v (Error_ID x) (Error_Code x) (Error_Message x).

Definition set_Error_ID (v : string) (x : Error) : Error :=
  mkError (Error_Status x) v (Error_Code x) (Error_Message x).

Definition set_Error_Code (v : string) (x : Error) : Error :=
  mkError (Error_Status x) (Error_ID x) v (Error_Message x).

Definition set_Error_Message (v : string) (x : Error) : Error :=
  mkError (Error_Status x) (Error_ID x) (Error_Code x) v.

Definition Error_fields : list (Field Error) :=
  [ field "status" decode_int Error_Status set_Error_Status;
    field "id" decode_string Error_ID set_Error_ID;
    field "code" decode_string Error_Code set_Error_Code;
    field "message" decode_string Error_Message set_Error_Message ].

Definition decode_Error : Decoder Error :=
  decode_struct Error_fields.

(** What [ioutil.ReadAll] read from the body of an answer: a JSON document,
    or text that is no JSON (the empty body is such a text). *)
Inductive Body : Type :=
| Malformed
| Document (j : json).

(** [new(T)]: a pointer to a zero value. *)
Definition new {T : Type} (zero : T) : option T := Some zero.

(** [json.Unmarshal data &p] for a body [data] and a pointer [p] to a
    struct: every call of the package passes the address of a pointer it got
    from [new].  Text that is not JSON is refused before anything is stored.
    The document [null] sets the pointer to nil and is no error.  Any other
    document is stored into the struct, which is allocated first when the
    pointer is nil. *)
Definition Unmarshal {T : Type} (dec : Decoder T) (zero : T)
    (data : Body) (p : option T) : option T * option json_error :=
  match data with
  | Malformed => (p, Some SyntaxError)
  | Document JNull => (None, None)
  | Document j =>
    let '(v, e) := dec j (match p with Some v0 => v0 | None => zero end) in
    (Some v, e)
  end.

(** ** Errors

    The package-level error values are compared by identity in Go: each is a
    constructor of its own, also the two that carry the same text.
    [errorString] is a value made by [fmt.Errorf]; [JsonError] is what
    [json.Unmarshal] returned; [TransportError] is what [http.Client.Do]
    returned. *)
Inductive error : Type :=
| ErrClientAuthenticationError  (* "Authentication Error with Sumo Logic" *)
| ErrCollectorNotFound          (* "Collector not found" *)
| ErrSourceNotFound             (* "Source not found" *)
| ErrAwsAuthenticationError     (* "Authentication Error with Sumo Logic" *)
| errorString (msg : string)
| JsonError (e : json_error)
| TransportError (msg : string).

Definition Errorf (format : string) (a : list Arg) : error :=
  errorString (Sprintf format a).

(** ** Package [net/url], for the URLs the package builds: a scheme, a host
    and a path that needs no escaping. *)
Record URL : Type := mkURL {
  Scheme : string;
  Host : string;
  Path : string
}.

(** [url.Parse] of a relative path such as [collectors/12/sources/34]. *)
Definition url_Parse (ref : string) : URL := mkURL EmptyString EmptyString ref.

Definition slash : ascii := "/".

Fixpoint split_slash (s : string) : list string :=
  match s with
  | EmptyString => [EmptyString]
  | String c r =>
    if Ascii.eqb c slash then EmptyString :: split_slash r
    else match split_slash r with
         | e :: es => String c e :: es
         | [] => [String c EmptyString]
         end
  end.

(** [strings.LastIndex s "/"]: the index of the last slash, if any. *)
Fixpoint LastIndexSlash (s : string) : option nat :=
  match s with
  | EmptyString => None
  | String c r =>
    match LastIndexSlash r with
    | Some i => Some (S i)
    | None => if Ascii.eqb c slash then Some O else None
    end
  end.

(** The loop of [resolvePath] that removes dot segments: [dst] is what was
    written after the leading slash. *)
Fixpoint removeDots (elems : list string) (dst : string) (first : bool) : string :=
  match elems with
  | [] => dst
  | elem :: rest =>
    let last := match rest with [] => true | _ => false end in
    if String.eqb elem "." then
      removeDots rest (if last then dst ++ "/" else dst) false
    else if String.eqb elem ".." then
      let '(dst', first') :=
        match LastIndexSlash dst with
        | None => (EmptyString, true)
        | Some i => (take i dst, first)
        end in
      removeDots rest (if last then dst' ++ "/" else dst') first'
    else
      removeDots rest ((if first then dst else dst ++ "/") ++ elem) false
  end.

Definition resolvePath (base ref : string) : string :=
  let full :=
    match ref with
    | EmptyString => base
    | String c _ =>
      if Ascii.eqb c slash then ref
      else match LastIndexSlash base with
           | Some i => take (S i) base ++ ref
           | None => ref
           end
    end in
  match full with
  | EmptyString => EmptyString
  | _ =>
    let r := String slash (removeDots (split_slash full) EmptyString true) in
    match r with
    | String _ (String c1 _ as r') => if Ascii.eqb c1 slash then r' else r
    | _ => r
    end
  end.

(** [ResolveReference] of a URL, for a reference that is a relative path. *)
Definition ResolveReference (u ref : URL) : URL :=
  mkURL (Scheme u) (Host u) (resolvePath (Path u) (Path ref)).

Definition URL_String (u : URL) : string :=
  (match Scheme u with EmptyString => EmptyString | sch => sch ++ ":" end)
  ++ (match Host u with EmptyString => EmptyString | h => "//" ++ h end)
  ++ Path u.

(** ** Package [net/http] *)

Definition StatusOK : Z := 200.
Definition StatusCreated : Z := 201.
Definition StatusBadRequest : Z := 400.
Definition StatusUnauthorized : Z := 401.
Definition StatusNotFound : Z := 404.

(** A header is Go's map from canonical keys to the values added under
    them, in the order they were added. *)
Definition Header : Type := list (string * list string).

Definition isTokenByte (c : ascii) : bool :=
  byte_in 48 57 c || byte_in 65 90 c || byte_in 97 122 c
  || verb_in c "!#$%&'*+-.^_`|~".

Fixpoint allToken (s : string) : bool :=
  match s with
  | EmptyString => true
  | String c r => isTokenByte c && allToken r
  end.

Fixpoint canonical (s : string) (up : bool) : string :=
  match s with
  | EmptyString => EmptyString
  | String c r =>
    String (if up then upper c else lower c) (canonical r (Ascii.eqb c "-"))
  end.

(** [textproto.CanonicalMIMEHeaderKey]: [ETag] is stored and looked up
    as [Etag]. *)
Definition CanonicalMIMEHeaderKey (s : string) : string :=
  if allToken s then canonical s true else s.

Fixpoint Header_values (h : Header) (key : string) : list string :=
  match h with
  | [] => []
  | (k, vs) :: rest => if String.eqb k key then vs else Header_values rest key
  end.

Fixpoint Header_append (h : Header) (key value : string) : Header :=
  match h with
  | [] => [(key, [value])]
  | (k, vs) :: rest =>
    if String.eqb k key then (k, (vs ++ [value])%list) :: rest
    else (k, vs) :: Header_append rest key value
  end.

Definition Header_Add (h : Header) (key value : string) : Header :=
  Header_append h (CanonicalMIMEHeaderKey key) value.

Definition Header_Get (h : Header) (key : string) : string :=
  match Header_values h (CanonicalMIMEHeaderKey key) with
  | [] => EmptyString
  | v :: _ => v
  end.

(** A request body is what [json.Marshal] wrote, given as the document it
    denotes; [None] is the nil body. *)
Record Request : Type := mkRequest {
  Method : string;
  Request_URL : string;
  Request_Header : Header;
  Request_Body : option json
}.

(** [http.NewRequest].  Its error is dropped by every caller; the URL it is
    given is the text of a URL the package has just resolved, and the
    request is taken to be made. *)
Definition NewRequest (method url : string) (body : option json) : Request :=
  mkRequest method url [] body.

Definition Request_Header_Add (req : Request) (key value : string) : Request :=
  mkRequest (Method req) (Request_URL req)
            (Header_Add (Request_Header req) key value) (Request_Body req).

(** [Response_Body] is what [ioutil.ReadAll] got from the body. *)
Record Response : Type := mkResponse {
  StatusCode : Z;
  Response_Header : Header;
  Response_Body : Body
}.

(** What [http.Client.Do] returns. *)
Inductive DoResult : Type :=
| DoError (msg : string)
| DoResponse (resp : Response).

Definition RoundTripper : Type := Request -> DoResult.

(** The server that answers every request with [resp]. *)
Definition serve (resp : Response) : RoundTripper := fun _ => DoResponse resp.

(** ** The client *)

(** [Client] communicates with the Sumo Logic API. *)
Record Client : Type := mkClient {
  AuthToken : string;
  EndpointURL : URL
}.

(** The methods have a pointer receiver: they run on the [Client] the
    pointer leads to and could write to it.  A method is a function from
    that state to the state it leaves and its results. *)
Definition M (A : Type) : Type := Client -> Client * A.

Definition ret {A : Type} (a : A) : M A := fun s => (s, a).

Definition bind {A B : Type} (m : M A) (k : A -> M B) : M B :=
  fun s => let '(s', a) := m s in k a s'.

Definition read {A : Type} (f : Client -> A) : M A := fun s => (s, f s).

Notation "x <- m ;; k" := (bind m (fun x => k))
  (at level 61, m at next level, right associativity).

(** A call returns its results or panics (a nil pointer is dereferenced). *)
Inductive Outcome (A : Type) : Type :=
| Returns (a : A)
| Panics.

Arguments Returns {A} a.
Arguments Panics {A}.

(** ** Hosted collectors ([hosted_collector.go])

    Every method is given in three parts: the request it builds, what it
    makes of the answer of [http.Client.Do], and the method itself, which
    sends the one to get the other.  The unknown-status message of this file
    formats the status code, an int, with the verb [s], and the bad-request
    message has a percent sign followed by a back quote: [Sprintf] reports
    both as Go does. *)

(** [GetHostedCollector] gets the collector with the specified ID. *)
Definition GetHostedCollector_req (id : Z) : M Request :=
  endpointURL <- read EndpointURL ;;
  let relativeURL :=
    url_Parse (Sprintf "collectors/%d" [ArgInt id]) in
  let url := ResolveReference endpointURL relativeURL in
  let req := NewRequest "GET" (URL_String url) None in
  authToken <- read AuthToken ;;
  ret (Request_Header_Add req "Authorization" ("Basic " ++ authToken)).

Definition GetHostedCollector_resp (res : DoResult)
    : Outcome (option Collector * string * option error) :=
  match res with
  | DoError msg => Returns (None, EmptyString, Some (TransportError msg))
  | DoResponse resp =>
    let responseBody := Response_Body resp in
    if StatusCode resp =? StatusOK then
      match Unmarshal decode_CollectorRequest CollectorRequest_zero responseBody
              (new CollectorRequest_zero) with
      | (_, Some err) => Returns (None, EmptyString, Some (JsonError err))
      | (Some r, None) =>
        Returns (Some (CollectorRequest_Collector r), Header_Get (Response_Header resp) "ETag", None)
      | (None, None) => Panics
      end
    else if StatusCode resp =? StatusUnauthorized then
      Returns (None, EmptyString, Some ErrClientAuthenticationError)
    else if StatusCode resp =? StatusNotFound then
      Returns (None, EmptyString, Some ErrCollectorNotFound)
    else
      Returns (None, EmptyString,
               Some (Errorf "Unknown Response with Sumo Logic: `%s`" [ArgInt (StatusCode resp)]))
  end.

Definition GetHostedCollector (Do : RoundTripper) (id : Z)
    : M (Outcome (option Collector * string * option error)) :=
  req <- GetHostedCollector_req id ;;
  ret (GetHostedCollector_resp (Do req)).

(** [CreateHostedCollector] creates a new hosted collector. *)
Definition CreateHostedCollector_req (collector : Collector)
    : M Request :=
  let request := mkCollectorRequest collector in
  let body := encode_CollectorRequest request in
  endpointURL <- read EndpointURL ;;
  let relativeURL :=
    url_Parse "collectors" in
  let url := ResolveReference endpointURL relativeURL in
  let req := NewRequest "POST" (URL_String url) (Some body) in
  let req := Request_Header_Add req "Content-Type" "application/json" in
  authToken <- read AuthToken ;;
  let req := Request_Header_Add req "Authorization" ("Basic " ++ authToken) in
  ret req.

Definition CreateHostedCollector_resp (collector : Collector) (res : DoResult)
    : Outcome (option Collector * option error) :=
  match res with
  | DoError msg => Returns (None, Some (TransportError msg))
  | DoResponse resp =>
    let responseBody := Response_Body resp in
    if StatusCode resp =? StatusCreated then
      match Unmarshal decode_CollectorRequest CollectorRequest_zero responseBody
              (new CollectorRequest_zero) with
      | (_, Some err) => Returns (None, Some (JsonError err))
      | (Some r, None) => Returns (Some (CollectorRequest_Collector r), None)
      | (None, None) => Panics
      end
    else if StatusCode resp =? StatusUnauthorized then
      Returns (None, Some ErrClientAuthenticationError)
    else if StatusCode resp =? StatusBadRequest then
      Returns (None,
               Some (Errorf "Bad Request. Please check if a collector with this name `%` already exists"
                       [ArgString (Collector_Name collector)]))
    else
      Returns (None,
               Some (Errorf "Unknown Response with Sumo Logic: `%s`" [ArgInt (StatusCode resp)]))
  end.

Definition CreateHostedCollector (Do : RoundTripper) (collector : Collector)
    : M (Outcome (option Collector * option error)) :=
  req <- CreateHostedCollector_req collector ;;
  ret (CreateHostedCollector_resp collector (Do req)).

(** [UpdateHostedCollector] updates an existing hosted collector. *)
Definition UpdateHostedCollector_req (collector : Collector) (etag : string)
    : M Request :=
  let request := mkCollectorRequest collector in
  let body := encode_CollectorRequest request in
  endpointURL <- read EndpointURL ;;
  let relativeURL :=
    url_Parse (Sprintf "collectors/%d" [ArgInt (Collector_ID collector)]) in
  let url := ResolveReference endpointURL relativeURL in
  let req := NewRequest "PUT" (URL_String url) (Some body) in
  let req := Request_Header_Add req "Content-Type" "application/json" in
  authToken <- read AuthToken ;;
  let req := Request_Header_Add req "Authorization" ("Basic " ++ authToken) in
  let req := Request_Header_Add req "If-Match" etag in
  ret req.

Definition UpdateHostedCollector_resp (collector : Collector) (res : DoResult)
    : Outcome (option Collector * option error) :=
  match res with
  | DoError msg => Returns (None, Some (TransportError msg))
  | DoResponse resp =>
    let responseBody := Response_Body resp in
    if StatusCode resp =? StatusOK then
      match Unmarshal decode_CollectorRequest CollectorRequest_zero responseBody
              (new CollectorRequest_zero) with
      | (_, Some err) => Returns (None, Some (JsonError err))
      | (Some r, None) => Returns (Some (CollectorRequest_Collector r), None)
      | (None, None) => Panics
      end
    else if StatusCode resp =? StatusUnauthorized then
      Returns (None, Some ErrClientAuthenticationError)
    else if StatusCode resp =? StatusBadRequest then
      Returns (None,
               Some (Errorf "Bad Request. Please check if a collector with this name `%` already exists"
                       [ArgString (Collector_Name collector)]))
    else
      Returns (None,
               Some (Errorf "Unknown Response with Sumo Logic: `%s`" [ArgInt (StatusCode resp)]))
  end.

Definition UpdateHostedCollector (Do : RoundTripper) (collector : Collector) (etag : string)
    : M (Outcome (option Collector * option error)) :=
  req <- UpdateHostedCollector_req collector etag ;;
  ret (UpdateHostedCollector_resp collector (Do req)).

(** [DeleteHostedCollector] deletes the collector with the specified ID. *)
Definition DeleteHostedCollector_req (id : Z) : M Request :=
  endpointURL <- read EndpointURL ;;
  let c :=
    url_Parse (Sprintf "collectors/%d" [ArgInt id]) in
  let req := NewRequest "DELETE" (URL_String (ResolveReference endpointURL c)) None in
  authToken <- read AuthToken ;;
  ret (Request_Header_Add req "Authorization" ("Basic " ++ authToken)).

Definition DeleteHostedCollector_resp (res : DoResult) : Outcome (option error) :=
  match res with
  | DoError msg => Returns (Some (TransportError msg))
  | DoResponse resp =>
    if StatusCode resp =? StatusOK then Returns None
    else if StatusCode resp =? StatusNotFound then Returns (Some ErrCollectorNotFound)
    else if StatusCode resp =? StatusUnauthorized then Returns (Some ErrClientAuthenticationError)
    else
      Returns (Some (Errorf "Unknown Response with Sumo Logic: `%s`" [ArgInt (StatusCode resp)]))
  end.

Definition DeleteHostedCollector (Do : RoundTripper) (id : Z) : M (Outcome (option error)) :=
  req <- DeleteHostedCollector_req id ;;
  ret (DeleteHostedCollector_resp (Do req)).

(** ** HTTP sources

    [CreateHTTPSource] also logs the request with [log.Printf]; the log is
    not part of the model.  On a 400 it allocates an [Error], decodes
    nothing into it and formats its message. *)

(** [GetHTTPSource] gets the source with the specified ID. *)
Definition GetHTTPSource_req (collectorID id : Z) : M Request :=
  endpointURL <- read EndpointURL ;;
  let relativeURL :=
    url_Parse (Sprintf "collectors/%d/sources/%d" [ArgInt collectorID; ArgInt id]) in
  let url := ResolveReference endpointURL relativeURL in
  let req := NewRequest "GET" (URL_String url) None in
  authToken <- read AuthToken ;;
  ret (Request_Header_Add req "Authorization" ("Basic " ++ authToken)).

Definition GetHTTPSource_resp (res : DoResult)
    : Outcome (option HTTPSource * string * option error) :=
  match res with
  | DoError msg => Returns (None, EmptyString, Some (TransportError msg))
  | DoResponse resp =>
    let responseBody := Response_Body resp in
    if StatusCode resp =? StatusOK then
      match Unmarshal decode_HTTPSourceRequest HTTPSourceRequest_zero responseBody
              (new HTTPSourceRequest_zero) with
      | (_, Some err) => Returns (None, EmptyString, Some (JsonError err))
      | (Some r, None) =>
        Returns (Some (HTTPSourceRequest_Source r), Header_Get (Response_Header resp) "ETag", None)
      | (None, None) => Panics
      end
    else if StatusCode resp =? StatusUnauthorized then
      Returns (None, EmptyString, Some ErrClientAuthenticationError)
    else if StatusCode resp =? StatusNotFound then
      Returns (None, EmptyString, Some ErrSourceNotFound)
    else
      Returns (None, EmptyString,
               Some (Errorf "Unknown Response with Sumo Logic: `%d`" [ArgInt (StatusCode resp)]))
  end.

Definition GetHTTPSource (Do : RoundTripper) (collectorID id : Z)
    : M (Outcome (option HTTPSource * string * option error)) :=
  req <- GetHTTPSource_req collectorID id ;;
  ret (GetHTTPSource_resp (Do req)).

(** [CreateHTTPSource] creates a new source. *)
Definition CreateHTTPSource_req (collectorID : Z) (source : HTTPSource)
    : M Request :=
  let request := mkHTTPSourceRequest source in
  let body := encode_HTTPSourceRequest request in
  endpointURL <- read EndpointURL ;;
  let relativeURL :=
    url_Parse (Sprintf "collectors/%d/sources" [ArgInt collectorID]) in
  let url := ResolveReference endpointURL relativeURL in
  let req := NewRequest "POST" (URL_String url) (Some body) in
  let req := Request_Header_Add req "Content-Type" "application/json" in
  authToken <- read AuthToken ;;
  let req := Request_Header_Add req "Authorization" ("Basic " ++ authToken) in
  ret req.

Definition CreateHTTPSource_resp (source : HTTPSource) (res : DoResult)
    : Outcome (option HTTPSource * option error) :=
  match res with
  | DoError msg => Returns (None, Some (TransportError msg))
  | DoResponse resp =>
    let responseBody := Response_Body resp in
    if StatusCode resp =? StatusCreated then
      match Unmarshal decode_HTTPSourceRequest HTTPSourceRequest_zero responseBody
              (new HTTPSourceRequest_zero) with
      | (_, Some err) => Returns (None, Some (JsonError err))
      | (Some r, None) => Returns (Some (HTTPSourceRequest_Source r), None)
      | (None, None) => Panics
      end
    else if StatusCode resp =? StatusUnauthorized then
      Returns (None, Some ErrClientAuthenticationError)
    else if StatusCode resp =? StatusBadRequest then
      match new Error_zero with
      | Some e => Returns (None, Some (Errorf "Bad Request. %s" [ArgString (Error_Message e)]))
      | None => Panics
      end
    else
      Returns (None,
               Some (Errorf "Unknown Response with Sumo Logic: `%d`" [ArgInt (StatusCode resp)]))
  end.

Definition CreateHTTPSource (Do : RoundTripper) (collectorID : Z) (source : HTTPSource)
    : M (Outcome (option HTTPSource * option error)) :=
  req <- CreateHTTPSource_req collectorID source ;;
  ret (CreateHTTPSource_resp source (Do req)).

(** [UpdateHTTPSource] updates an existing source. *)
Definition UpdateHTTPSource_req (collectorID : Z) (source : HTTPSource) (etag : string)
    : M Request :=
  let request := mkHTTPSourceRequest source in
  let body := encode_HTTPSourceRequest request in
  endpointURL <- read EndpointURL ;;
  let relativeURL :=
    url_Parse (Sprintf "collectors/%d/sources/%d" [ArgInt collectorID; ArgInt (HTTPSource_ID source)]) in
  let url := ResolveReference endpointURL relativeURL in
  let req := NewRequest "PUT" (URL_String url) (Some body) in
  let req := Request_Header_Add req "Content-Type" "application/json" in
  authToken <- read AuthToken ;;
  let req := Request_Header_Add req "Authorization" ("Basic " ++ authToken) in
  let req := Request_Header_Add req "If-Match" etag in
  ret req.

Definition UpdateHTTPSource_resp (source : HTTPSource) (res : DoResult)
    : Outcome (option HTTPSource * option error) :=
  match res with
  | DoError msg => Returns (None, Some (TransportError msg))
  | DoResponse resp =>
    let responseBody := Response_Body resp in
    if StatusCode resp =? StatusOK then
      match Unmarshal decode_HTTPSourceRequest HTTPSourceRequest_zero responseBody
              (new HTTPSourceRequest_zero) with
      | (_, Some err) => Returns (None, Some (JsonError err))
      | (Some r, None) => Returns (Some (HTTPSourceRequest_Source r), None)
      | (None, None) => Panics
      end
    else if StatusCode resp =? StatusUnauthorized then
      Returns (None, Some ErrClientAuthenticationError)
    else if StatusCode resp =? StatusBadRequest then
      Returns (None, Some (Errorf "Bad Request. Please check if a source with this name `%s` already exists"
                   [ArgString (HTTPSource_Name source)]))
    else
      Returns (None,
               Some (Errorf "Unknown Response with Sumo Logic: `%d`" [ArgInt (StatusCode resp)]))
  end.

Definition UpdateHTTPSource (Do : RoundTripper) (collectorID : Z) (source : HTTPSource) (etag : string)
    : M (Outcome (option HTTPSource * option error)) :=
  req <- UpdateHTTPSource_req collectorID source etag ;;
  ret (UpdateHTTPSource_resp source (Do req)).

(** [DeleteHTTPSource] deletes the source with the specified ID. *)
Definition DeleteHTTPSource_req (collectorID id : Z) : M Request :=
  endpointURL <- read EndpointURL ;;
  let c :=
    url_Parse (Sprintf "collectors/%d/sources/%d" [ArgInt collectorID; ArgInt id]) in
  let req := NewRequest "DELETE" (URL_String (ResolveReference endpointURL c)) None in
  authToken <- read AuthToken ;;
  ret (Request_Header_Add req "Authorization" ("Basic " ++ authToken)).

Definition DeleteHTTPSource_resp (res : DoResult) : Outcome (option error) :=
  match res with
  | DoError msg => Returns (Some (TransportError msg))
  | DoResponse resp =>
    if StatusCode resp =? StatusOK then Returns None
    else if StatusCode resp =? StatusNotFound then Returns (Some ErrSourceNotFound)
    else if StatusCode resp =? StatusUnauthorized then Returns (Some ErrClientAuthenticationError)
    else
      Returns (Some (Errorf "Unknown Response with Sumo Logic: `%d`" [ArgInt (StatusCode resp)]))
  end.

Definition DeleteHTTPSource (Do : RoundTripper) (collectorID id : Z) : M (Outcome (option error)) :=
  req <- DeleteHTTPSource_req collectorID id ;;
  ret (DeleteHTTPSource_resp (Do req)).

(** ** AWS CloudTrail sources ([aws_cloudtrail_source.go])

    On a 400 Create decodes the body as an [Error] and looks at what
    [json.Unmarshal] returned; Update decodes it too, assigns the error and
    never reads it.  Both then read the message through the pointer that
    [json.Unmarshal] was given the address of. *)

(** [GetAWSCloudTrailSource] gets the source with the specified ID. *)
Definition GetAWSCloudTrailSource_req (collectorID id : Z) : M Request :=
  endpointURL <- read EndpointURL ;;
  let relativeURL :=
    url_Parse (Sprintf "collectors/%d/sources/%d" [ArgInt collectorID; ArgInt id]) in
  let url := ResolveReference endpointURL relativeURL in
  let req := NewRequest "GET" (URL_String url) None in
  authToken <- read AuthToken ;;
  ret (Request_Header_Add req "Authorization" ("Basic " ++ authToken)).

Definition GetAWSCloudTrailSource_resp (res : DoResult)
    : Outcome (option AWSCloudTrailSource * string * option error) :=
  match res with
  | DoError msg => Returns (None, EmptyString, Some (TransportError msg))
  | DoResponse resp =>
    let responseBody := Response_Body resp in
    if StatusCode resp =? StatusOK then
      match Unmarshal decode_AWSCloudTrailSourceRequest AWSCloudTrailSourceRequest_zero responseBody
              (new AWSCloudTrailSourceRequest_zero) with
      | (_, Some err) => Returns (None, EmptyString, Some (JsonError err))
      | (Some r, None) =>
        Returns (Some (AWSCloudTrailSourceRequest_Source r), Header_Get (Response_Header resp) "ETag", None)
      | (None, None) => Panics
      end
    else if StatusCode resp =? StatusUnauthorized then
      Returns (None, EmptyString, Some ErrClientAuthenticationError)
    else if StatusCode resp =? StatusNotFound then
      Returns (None, EmptyString, Some ErrSourceNotFound)
    else
      Returns (None, EmptyString,
               Some (Errorf "Unknown Response with Sumo Logic: `%d`" [ArgInt (StatusCode resp)]))
  end.

Definition GetAWSCloudTrailSource (Do : RoundTripper) (collectorID id : Z)
    : M (Outcome (option AWSCloudTrailSource * string * option error)) :=
  req <- GetAWSCloudTrailSource_req collectorID id ;;
  ret (GetAWSCloudTrailSource_resp (Do req)).

(** [CreateAWSCloudTrailSource] creates a new source. *)
Definition CreateAWSCloudTrailSource_req (collectorID : Z) (source : AWSCloudTrailSource)
    : M Request :=
  let request := mkAWSCloudTrailSourceRequest source in
  let body := encode_AWSCloudTrailSourceRequest request in
  endpointURL <- read EndpointURL ;;
  let relativeURL :=
    url_Parse (Sprintf "collectors/%d/sources" [ArgInt collectorID]) in
  let url := ResolveReference endpointURL relativeURL in
  let req := NewRequest "POST" (URL_String url) (Some body) in
  let req := Request_Header_Add req "Content-Type" "application/json" in
  authToken <- read AuthToken ;;
  let req := Request_Header_Add req "Authorization" ("Basic " ++ authToken) in
  ret req.

Definition CreateAWSCloudTrailSource_resp (source : AWSCloudTrailSource) (res : DoResult)
    : Outcome (option AWSCloudTrailSource * option error) :=
  match res with
  | DoError msg => Returns (None, Some (TransportError msg))
  | DoResponse resp =>
    let responseBody := Response_Body resp in
    if StatusCode resp =? StatusCreated then
      match Unmarshal decode_AWSCloudTrailSourceRequest AWSCloudTrailSourceRequest_zero responseBody
              (new AWSCloudTrailSourceRequest_zero) with
      | (_, Some err) => Returns (None, Some (JsonError err))
      | (Some r, None) => Returns (Some (AWSCloudTrailSourceRequest_Source r), None)
      | (None, None) => Panics
      end
    else if StatusCode resp =? StatusUnauthorized then
      Returns (None, Some ErrClientAuthenticationError)
    else if StatusCode resp =? StatusBadRequest then
      match Unmarshal decode_Error Error_zero responseBody (new Error_zero) with
      | (_, Some err) =>
        Returns (None, Some (Errorf "Bad Request. Please check if a source with this name `%s` already exists"
                   [ArgString (AWSCloudTrailSource_Name source)]))
      | (Some e, None) =>
        if String.eqb (Error_Message e) "Cannot authenticate with AWS."
           || String.eqb (Error_Message e) "Invalid IAM role: 'errorCode=AccessDenied'."
        then Returns (None, Some ErrAwsAuthenticationError)
        else Returns (None, Some (Errorf "Bad Request. %s" [ArgString (Error_Message e)]))
      | (None, None) => Panics
      end
    else
      Returns (None,
               Some (Errorf "Unknown Response with Sumo Logic: `%d`" [ArgInt (StatusCode resp)]))
  end.

Definition CreateAWSCloudTrailSource (Do : RoundTripper) (collectorID : Z) (source : AWSCloudTrailSource)
    : M (Outcome (option AWSCloudTrailSource * option error)) :=
  req <- CreateAWSCloudTrailSource_req collectorID source ;;
  ret (CreateAWSCloudTrailSource_resp source (Do req)).

(** [UpdateAWSCloudTrailSource] updates an existing source. *)
Definition UpdateAWSCloudTrailSource_req (collectorID : Z) (source : AWSCloudTrailSource) (etag : string)
    : M Request :=
  let request := mkAWSCloudTrailSourceRequest source in
  let body := encode_AWSCloudTrailSourceRequest request in
  endpointURL <- read EndpointURL ;;
  let relativeURL :=
    url_Parse (Sprintf "collectors/%d/sources/%d" [ArgInt collectorID; ArgInt (AWSCloudTrailSource_ID source)]) in
  let url := ResolveReference endpointURL relativeURL in
  let req := NewRequest "PUT" (URL_String url) (Some body) in
  let req := Request_Header_Add req "Content-Type" "application/json" in
  authToken <- read AuthToken ;;
  let req := Request_Header_Add req "Authorization" ("Basic " ++ authToken) in
  let req := Request_Header_Add req "If-Match" etag in
  ret req.

Definition UpdateAWSCloudTrailSource_resp (source : AWSCloudTrailSource) (res : DoResult)
    : Outcome (option AWSCloudTrailSource * option error) :=
  match res with
  | DoError msg => Returns (None, Some (TransportError msg))
  | DoResponse resp =>
    let responseBody := Response_Body resp in
    if StatusCode resp =? StatusOK then
      match Unmarshal decode_AWSCloudTrailSourceRequest AWSCloudTrailSourceRequest_zero responseBody
              (new AWSCloudTrailSourceRequest_zero) with
      | (_, Some err) => Returns (None, Some (JsonError err))
      | (Some r, None) => Returns (Some (AWSCloudTrailSourceRequest_Source r), None)
      | (None, None) => Panics
      end
    else if StatusCode resp =? StatusUnauthorized then
      Returns (None, Some ErrClientAuthenticationError)
    else if StatusCode resp =? StatusBadRequest then
      match fst (Unmarshal decode_Error Error_zero responseBody (new Error_zero)) with
      | Some e =>
        if String.eqb (Error_Message e) "Cannot authenticate with AWS."
           || String.eqb (Error_Message e) "Invalid IAM role: 'errorCode=AccessDenied'."
        then Returns (None, Some ErrAwsAuthenticationError)
        else Returns (None, Some (Errorf "Bad Request. Please check if a source with this name `%s` already exists"
                   [ArgString (AWSCloudTrailSource_Name source)]))
      | None => Panics
      end
    else
      Returns (None,
               Some (Errorf "Unknown Response with Sumo Logic: `%d`" [ArgInt (StatusCode resp)]))
  end.

Definition UpdateAWSCloudTrailSource (Do : RoundTripper) (collectorID : Z) (source : AWSCloudTrailSource) (etag : string)
    : M (Outcome (option AWSCloudTrailSource * option error)) :=
  req <- UpdateAWSCloudTrailSource_req collectorID source etag ;;
  ret (UpdateAWSCloudTrailSource_resp source (Do req)).

(** [DeleteAWSCloudTrailSource] deletes the source with the specified ID. *)
Definition DeleteAWSCloudTrailSource_req (collectorID id : Z) : M Request :=
  endpointURL <- read EndpointURL ;;
  let c :=
    url_Parse (Sprintf "collectors/%d/sources/%d" [ArgInt collectorID; ArgInt id]) in
  let req := NewRequest "DELETE" (URL_String (ResolveReference endpointURL c)) None in
  authToken <- read AuthToken ;;
  ret (Request_Header_Add req "Authorization" ("Basic " ++ authToken)).

Definition DeleteAWSCloudTrailSource_resp (res : DoResult) : Outcome (option error) :=
  match res with
  | DoError msg => Returns (Some (TransportError msg))
  | DoResponse resp =>
    if StatusCode resp =? StatusOK then Returns None
    else if StatusCode resp =? StatusNotFound then Returns (Some ErrSourceNotFound)
    else if StatusCode resp =? StatusUnauthorized then Returns (Some ErrClientAuthenticationError)
    else
      Returns (Some (Errorf "Unknown Response with Sumo Logic: `%d`" [ArgInt (StatusCode resp)]))
  end.

Definition DeleteAWSCloudTrailSource (Do : RoundTripper) (collectorID id : Z) : M (Outcome (option error)) :=
  req <- DeleteAWSCloudTrailSource_req collectorID id ;;
  ret (DeleteAWSCloudTrailSource_resp (Do req)).

(** ** AWS log sources ([aws_log_source.go])

    On a 400 Create decodes the body as an [Error] and looks at what
    [json.Unmarshal] returned; Update decodes it too, assigns the error and
    never reads it.  Both then read the message through the pointer that
    [json.Unmarshal] was given the address of. *)

(** [GetAWSLogSource] gets the source with the specified ID. *)
Definition GetAWSLogSource_req (collectorID id : Z) : M Request :=
  endpointURL <- read EndpointURL ;;
  let relativeURL :=
    url_Parse (Sprintf "collectors/%d/sources/%d" [ArgInt collectorID; ArgInt id]) in
  let url := ResolveReference endpointURL relativeURL in
  let req := NewRequest "GET" (URL_String url) None in
  authToken <- read AuthToken ;;
  ret (Request_Header_Add req "Authorization" ("Basic " ++ authToken)).

Definition GetAWSLogSource_resp (res : DoResult)
    : Outcome (option AWSLogSource * string * option error) :=
  match res with
  | DoError msg => Returns (None, EmptyString, Some (TransportError msg))
  | DoResponse resp =>
    let responseBody := Response_Body resp in
    if StatusCode resp =? StatusOK then
      match Unmarshal decode_AWSLogSourceRequest AWSLogSourceRequest_zero responseBody
              (new AWSLogSourceRequest_zero) with
      | (_, Some err) => Returns (None, EmptyString, Some (JsonError err))
      | (Some r, None) =>
        Returns (Some (AWSLogSourceRequest_Source r), Header_Get (Response_Header resp) "ETag", None)
      | (None, None) => Panics
      end
    else if StatusCode resp =? StatusUnauthorized then
      Returns (None, EmptyString, Some ErrClientAuthenticationError)
    else if StatusCode resp =? StatusNotFound then
      Returns (None, EmptyString, Some ErrSourceNotFound)
    else
      Returns (None, EmptyString,
               Some (Errorf "Unknown Response with Sumo Logic: `%d`" [ArgInt (StatusCode resp)]))
  end.

Definition GetAWSLogSource (Do : RoundTripper) (collectorID id : Z)
    : M (Outcome (option AWSLogSource * string * option error)) :=
  req <- GetAWSLogSource_req collectorID id ;;
  ret (GetAWSLogSource_resp (Do req)).

(** [CreateAWSLogSource] creates a new source. *)
Definition CreateAWSLogSource_req (collectorID : Z) (source : AWSLogSource)
    : M Request :=
  let request := mkAWSLogSourceRequest source in
  let body := encode_AWSLogSourceRequest request in
  endpointURL <- read EndpointURL ;;
  let relativeURL :=
    url_Parse (Sprintf "collectors/%d/sources" [ArgInt collectorID]) in
  let url := ResolveReference endpointURL relativeURL in
  let req := NewRequest "POST" (URL_String url) (Some body) in
  let req := Request_Header_Add req "Content-Type" "application/json" in
  authToken <- read AuthToken ;;
  let req := Request_Header_Add req "Authorization" ("Basic " ++ authToken) in
  ret req.

Definition CreateAWSLogSource_resp (source : AWSLogSource) (res : DoResult)
    : Outcome (option AWSLogSource * option error) :=
  match res with
  | DoError msg => Returns (None, Some (TransportError msg))
  | DoResponse resp =>
    let responseBody := Response_Body resp in
    if StatusCode resp =? StatusCreated then
      match Unmarshal decode_AWSLogSourceRequest AWSLogSourceRequest_zero responseBody
              (new AWSLogSourceRequest_zero) with
      | (_, Some err) => Returns (None, Some (JsonError err))
      | (Some r, None) => Returns (Some (AWSLogSourceRequest_Source r), None)
      | (None, None) => Panics
      end
    else if StatusCode resp =? StatusUnauthorized then
      Returns (None, Some ErrClientAuthenticationError)
    else if StatusCode resp =? StatusBadRequest then
      match Unmarshal decode_Error Error_zero responseBody (new Error_zero) with
      | (_, Some err) =>
        Returns (None, Some (Errorf "Bad Request. Please check if a source with this name `%s` already exists"
                   [ArgString (AWSLogSource_Name source)]))
      | (Some e, None) =>
        if String.eqb (Error_Message e) "Cannot authenticate with AWS."
           || String.eqb (Error_Message e) "Invalid IAM role: 'errorCode=AccessDenied'."
        then Returns (None, Some ErrAwsAuthenticationError)
        else if MatchString "The S3 bucket 'bucketName=.*' is not readable." (Error_Message e)
        then Returns (None, Some ErrAwsAuthenticationError)
        else Returns (None, Some (Errorf "Bad Request. %s" [ArgString (Error_Message e)]))
      | (None, None) => Panics
      end
    else
      Returns (None,
               Some (Errorf "Unknown Response with Sumo Logic: `%d`" [ArgInt (StatusCode resp)]))
  end.

Definition CreateAWSLogSource (Do : RoundTripper) (collectorID : Z) (source : AWSLogSource)
    : M (Outcome (option AWSLogSource * option error)) :=
  req <- CreateAWSLogSource_req collectorID source ;;
  ret (CreateAWSLogSource_resp source (Do req)).

(** [UpdateAWSLogSource] updates an existing source. *)
Definition UpdateAWSLogSource_req (collectorID : Z) (source : AWSLogSource) (etag : string)
    : M Request :=
  let request := mkAWSLogSourceRequest source in
  let body := encode_AWSLogSourceRequest request in
  endpointURL <- read EndpointURL ;;
  let relativeURL :=
    url_Parse (Sprintf "collectors/%d/sources/%d" [ArgInt collectorID; ArgInt (AWSLogSource_ID source)]) in
  let url := ResolveReference endpointURL relativeURL in
  let req := NewRequest "PUT" (URL_String url) (Some body) in
  let req := Request_Header_Add req "Content-Type" "application/json" in
  authToken <- read AuthToken ;;
  let req := Request_Header_Add req "Authorization" ("Basic " ++ authToken) in
  let req := Request_Header_Add req "If-Match" etag in
  ret req.

Definition UpdateAWSLogSource_resp (source : AWSLogSource) (res : DoResult)
    : Outcome (option AWSLogSource * option error) :=
  match res with
  | DoError msg => Returns (None, Some (TransportError msg))
  | DoResponse resp =>
    let responseBody := Response_Body resp in
    if StatusCode resp =? StatusOK then
      match Unmarshal decode_AWSLogSourceRequest AWSLogSourceRequest_zero responseBody
              (new AWSLogSourceRequest_zero) with
      | (_, Some err) => Returns (None, Some (JsonError err))
      | (Some r, None) => Returns (Some (AWSLogSourceRequest_Source r), None)
      | (None, None) => Panics
      end
    else if StatusCode resp =? StatusUnauthorized then
      Returns (None, Some ErrClientAuthenticationError)
    else if StatusCode resp =? StatusBadRequest then
      match fst (Unmarshal decode_Error Error_zero responseBody (new Error_zero)) with
      | Some e =>
        if String.eqb (Error_Message e) "Cannot authenticate with AWS."
           || String.eqb (Error_Message e) "Invalid IAM role: 'errorCode=AccessDenied'."
        then Returns (None, Some ErrAwsAuthenticationError)
        else Returns (None, Some (Errorf "Bad Request. Please check if a source with this name `%s` already exists"
                   [ArgString (AWSLogSource_Name source)]))
      | None => Panics
      end
    else
      Returns (None,
               Some (Errorf "Unknown Response with Sumo Logic: `%d`" [ArgInt (StatusCode resp)]))
  end.

Definition UpdateAWSLogSource (Do : RoundTripper) (collectorID : Z) (source : AWSLogSource) (etag : string)
    : M (Outcome (option AWSLogSource * option error)) :=
  req <- UpdateAWSLogSource_req collectorID source etag ;;
  ret (UpdateAWSLogSource_resp source (Do req)).

(** [DeleteAWSLogSource] deletes the source with the specified ID. *)
Definition DeleteAWSLogSource_req (collectorID id : Z) : M Request :=
  endpointURL <- read EndpointURL ;;
  let c :=
    url_Parse (Sprintf "collectors/%d/sources/%d" [ArgInt collectorID; ArgInt id]) in
  let req := NewRequest "DELETE" (URL_String (ResolveReference endpointURL c)) None in
  authToken <- read AuthToken ;;
  ret (Request_Header_Add req "Authorization" ("Basic " ++ authToken)).

Definition DeleteAWSLogSource_resp (res : DoResult) : Outcome (option error) :=
  match res with
  | DoError msg => Returns (Some (TransportError msg))
  | DoResponse resp =>
    if StatusCode resp =? StatusOK then Returns None
    else if StatusCode resp =? StatusNotFound then Returns (Some ErrSourceNotFound)
    else if StatusCode resp =? StatusUnauthorized then Returns (Some ErrClientAuthenticationError)
    else
      Returns (Some (Errorf "Unknown Response with Sumo Logic: `%d`" [ArgInt (StatusCode resp)]))
  end.

Definition DeleteAWSLogSource (Do : RoundTripper) (collectorID id : Z) : M (Outcome (option error)) :=
  req <- DeleteAWSLogSource_req collectorID id ;;
  ret (DeleteAWSLogSource_resp (Do req)).

(** ** Reading results *)

(** The error a call returned, with the other results dropped. *)
Definition err3 {A B : Type} (o : Outcome (A * B * option error)) : Outcome (option error) :=
  match o with
  | Returns (_, _, e) => Returns e
  | Panics => Panics
  end.

Definition err2 {A : Type} (o : Outcome (A * option error)) : Outcome (option error) :=
  match o with
  | Returns (_, e) => Returns e
  | Panics => Panics
  end.

(** The call returned an error made by [fmt.Errorf] whose text has [s] in it. *)
Definition mentions (s : string) (o : Outcome (option error)) : Prop :=
  exists pre suf, o = Returns (Some (errorString (pre ++ s ++ suf))).

(** The call returned an error, whichever. *)
Definition returns_error (o : Outcome (option error)) : Prop :=
  exists e, o = Returns (Some e).

(** The call did not return what [json.Unmarshal] reported. *)
Definition never_decode_error (o : Outcome (option error)) : Prop :=
  forall je, o <> Returns (Some (JsonError je)).

(** The call returned [ErrAwsAuthenticationError] or a bad-request error. *)
Definition aws_or_bad_request (o : Outcome (option error)) : Prop :=
  o = Returns (Some ErrAwsAuthenticationError)
  \/ exists msg, o = Returns (Some (errorString ("Bad Request. " ++ msg))).

(** [json.Unmarshal] reports an error on the body of a 400. *)
Definition decode_fails (b : Body) : Prop :=
  snd (Unmarshal decode_Error Error_zero b (new Error_zero)) <> None.

(** What Create and Update make of a 400 with the body [b]: no error of
    the decoder comes out, and when the body does not decode the error is
    [ErrAwsAuthenticationError] or a bad-request error. *)
Definition bad_request_spec (b : Body) (o : Outcome (option error)) : Prop :=
  never_decode_error o /\ (decode_fails b -> aws_or_bad_request o).

(** What Get makes of the status code. *)
Definition get_status_spec (notFound : error) (status : Z) (o : Outcome (option error)) : Prop :=
  (o = Returns (Some notFound) <-> status = StatusNotFound)
  /\ (o = Returns (Some ErrClientAuthenticationError) <-> status = StatusUnauthorized)
  /\ (status <> StatusOK -> status <> StatusUnauthorized -> status <> StatusNotFound ->
      mentions (itoa status) o).

(** What Delete makes of the status code. *)
Definition delete_status_spec (notFound : error) (status : Z) (o : Outcome (option error)) : Prop :=
  (o = Returns None <-> status = StatusOK)
  /\ (status = StatusNotFound -> o = Returns (Some notFound))
  /\ (status = StatusUnauthorized -> o = Returns (Some ErrClientAuthenticationError))
  /\ (status <> StatusOK -> status <> StatusNotFound -> status <> StatusUnauthorized ->
      mentions (itoa status) o).

(** The resource in the body of a request, decoded as its envelope. *)
Definition sent {R : Type} (dec : Decoder R) (zero : R) (req : Request) : option R :=
  match Request_Body req with
  | Some j => fst (Unmarshal dec zero (Document j) (new zero))
  | None => None
  end.

(** A 200 and a 201 whose body is the document [j]. *)
Definition okResponse (h : Header) (j : json) : Response :=
  mkResponse StatusOK h (Document j).


(** ** Values of the tests *)

Definition testClient : Client :=
  mkClient "accessToken" (mkURL "http" "127.0.0.1:8080" EmptyString).

Definition defaultCollector : Collector :=
  set_Collector_ID 1234567890
    (set_Collector_Name "test" (set_Collector_CollectorType "Hosted" Collector_zero)).

Definition defaultHTTPSource : HTTPSource :=
  set_HTTPSource_ID 1234567890
    (set_HTTPSource_Name "test" (set_HTTPSource_CollectorID 1234567890 HTTPSource_zero)).

Definition defaultAWSCloudTrailSource : AWSCloudTrailSource :=
  set_AWSCloudTrailSource_ID 1234567890
    (set_AWSCloudTrailSource_Name "test"
       (set_AWSCloudTrailSource_CollectorID 1234567890 AWSCloudTrailSource_zero)).

Definition defaultAWSLogSource : AWSLogSource :=
  set_AWSLogSource_ID 1234567890
    (set_AWSLogSource_Name "test"
       (set_AWSLogSource_CollectorID 1234567890 AWSLogSource_zero)).

(** ** Further sample values *)

(** The letter e with an acute accent, two bytes in UTF-8. *)
Definition eAcute : string :=
  String (ascii_of_N 195) (String (ascii_of_N 169) EmptyString).

Definition sampleCollector : Collector :=
  set_Collector_Links [mkCollectorLinks "sources" "/v1/collectors/1234567890/sources"]
    (set_Collector_Description ("caf" ++ eAcute)
       (set_Collector_Alive true defaultCollector)).

Definition sampleHTTPSource : HTTPSource :=
  set_HTTPSource_Filters [mkFilter "Exclude" "noise" "DEBUG.*"]
    (set_HTTPSource_MessagePerRequest true defaultHTTPSource).

Definition sampleResource : AWSBucketResource :=
  mkAWSBucketResource "AwsS3Bucket"
    (mkAWSBucketPath "S3BucketPathExpression" "my-bucket" "logs/*")
    (mkAWSBucketAuthentication "AWSRoleBasedAuthentication"
       "arn:aws:iam::123456789012:role/sumo").

Definition sampleAWSCloudTrailSource : AWSCloudTrailSource :=
  set_AWSCloudTrailSource_ThirdPartyRef (mkAWSBucketThirdPartyRef [sampleResource])
    (set_AWSCloudTrailSource_ScanInterval 300000 defaultAWSCloudTrailSource).

Definition sampleAWSLogSource : AWSLogSource :=
  set_AWSLogSource_ThirdPartyRef (mkAWSBucketThirdPartyRef [sampleResource])
    (set_AWSLogSource_Paused true defaultAWSLogSource).


(** The body the API sends when it cannot read the bucket of a source. *)
Definition s3NotReadable : Body :=
  Document (JObject [("status", JInt 400);
                     ("id", JString "E1");
                     ("code", JString "collectors.validation.fields.invalid");
                     ("message", JString "The S3 bucket 'bucketName=my-bucket' is not readable.")]).

(** The name of the resource in the body of a request. *)
Definition sentName {R T : Type} (dec : Decoder R) (zero : R)
    (resource : R -> T) (name : T -> string) (req : Request) : option string :=
  option_map (fun env => name (resource env)) (sent dec zero req).

(** A server answer with a status code and nothing else. *)
Definition statusOnly (status : Z) : Response := mkResponse status [] Malformed.

(** ** Further notions for the properties *)

(** The transport that fails with [msg] whatever the request. *)
Definition refuse (msg : string) : RoundTripper := fun _ => DoError msg.

(** What Create and Update make of the status code, [ok] being the code
    they take for success: [ErrClientAuthenticationError] exactly on 401, an
    unknown-response error with the code in it on every code other than
    [ok], 401 and 400, and never one of the not-found errors. *)
Definition write_status_spec (ok status : Z) (o : Outcome (option error)) : Prop :=
  (o = Returns (Some ErrClientAuthenticationError) <-> status = StatusUnauthorized)
  /\ (status <> ok -> status <> StatusUnauthorized -> status <> StatusBadRequest ->
      mentions (itoa status) o)
  /\ o <> Returns (Some ErrCollectorNotFound)
  /\ o <> Returns (Some ErrSourceNotFound).

(** The two messages every AWS branch compares with. *)
Definition awsFixedMessage (msg : string) : Prop :=
  msg = "Cannot authenticate with AWS."
  \/ msg = "Invalid IAM role: 'errorCode=AccessDenied'.".

(** The first member of an object with the key [key]. *)
Fixpoint lookupMember (key : string) (m : Members) : option json :=
  match m with
  | [] => None
  | (k, v) :: rest => if String.eqb k key then Some v else lookupMember key rest
  end.

(** The body [b] decodes, without error, to the struct [r]. *)
Definition decodes_to {R : Type} (dec : Decoder R) (zero : R) (b : Body) (r : R) : Prop :=
  Unmarshal dec zero b (new zero) = (Some r, None).

(** Decoding the body [b] reports the error [je]. *)
Definition decode_error {R : Type} (dec : Decoder R) (zero : R) (b : Body)
    (je : json_error) : Prop :=
  snd (Unmarshal dec zero b (new zero)) = Some je.

(** An error body the decoder complains about and still fills in: the
    status is a string, the message is there. *)
Definition halfDecodedError : Body :=
  Document (JObject [("status", JString "400");
                     ("message", JString "Cannot authenticate with AWS.")]).

(** ** Paths *)

(** A dot segment. *)
Definition isDot (e : string) : bool := String.eqb e "." || String.eqb e "..".

(** No segment of the path is a dot segment. *)
Definition dotFree (p : string) : bool :=
  forallb (fun e => negb (isDot e)) (split_slash p).

Definition startsWithSlash (p : string) : bool :=
  match p with
  | String c _ => Ascii.eqb c slash
  | EmptyString => false
  end.

(** The path up to and with its last slash. *)
Definition dirOf (p : string) : string :=
  match LastIndexSlash p with
  | Some i => take (S i) p
  | None => EmptyString
  end.

(** The directory a relative reference is resolved in: the root for the
    empty path of a bare host. *)
Definition baseDir (p : string) : string :=
  match p with
  | EmptyString => "/"
  | _ => dirOf p
  end.

(** Segments put together again, each after a slash. *)
Fixpoint slashed (elems : list string) : string :=
  match elems with
  | [] => EmptyString
  | e :: rest => String slash e ++ slashed rest
  end.

Definition joinSlash (elems : list string) : string :=
  match elems with
  | [] => EmptyString
  | e :: rest => e ++ slashed rest
  end.

(** A byte that is neither a slash nor a dot. *)
Definition plainChar (c : ascii) : bool :=
  negb (Ascii.eqb c slash) && negb (Ascii.eqb c ".").

Fixpoint allPlain (s : string) : bool :=
  match s with
  | EmptyString => true
  | String c r => plainChar c && allPlain r
  end.

(** The relative paths of the API. *)
Definition collectorsPath : string := "collectors".

Definition collectorPath (id : Z) : string := "collectors/" ++ itoa id.

Definition sourcesPath (collectorID : Z) : string :=
  "collectors/" ++ itoa collectorID ++ "/sources".

Definition sourcePath (collectorID id : Z) : string :=
  "collectors/" ++ itoa collectorID ++ "/sources/" ++ itoa id.

(** The text of the URL for the relative path [rel]: the scheme and the host
    of the endpoint, the directory of its path, the relative path. *)
Definition endpointFor (s : Client) (rel : string) : string :=
  URL_String (mkURL (Scheme (EndpointURL s)) (Host (EndpointURL s))
                    (baseDir (Path (EndpointURL s)) ++ rel)).

(** The path of the endpoint is empty or absolute and has no dot
    segments. *)
Definition plainBase (s : Client) : Prop :=
  dotFree (Path (EndpointURL s)) = true
  /\ (Path (EndpointURL s) = EmptyString \/ startsWithSlash (Path (EndpointURL s)) = true).


(** An endpoint with a path, as the API has it, and one whose path lacks
    the slash at its end. *)
Definition apiClient : Client :=
  mkClient "accessToken" (mkURL "https" "api.sumologic.com" "/api/v1/").

Definition slashlessClient : Client :=
  mkClient "accessToken" (mkURL "https" "api.sumologic.com" "/api/v1").


(** The members of the resource a request carries in the envelope [key] of
    its body; none when the request has no such body. *)
Definition sentResource (key : string) (req : Request) : Members :=
  match Request_Body req with
  | Some (JObject m) =>
    match lookupMember key m with
    | Some (JObject r) => r
    | _ => []
    end
  | _ => []
  end.

(** What [omitempty] makes of an integer field. *)
Definition unlessZero (n : Z) : option json :=
  if n =? 0 then None else Some (JInt n).

(** The members of an object; none for another value. *)
Definition members_of (j : json) : Members :=
  match j with
  | JObject m => m
  | _ => []
  end.

(** ** What a pattern matches

    [Matches r s]: the whole of [s] is a match of [r]. *)
Inductive Matches : regex -> string -> Prop :=
| MEmp : Matches Emp EmptyString
| MLit (c : ascii) : Matches (Lit c) (String c EmptyString)
| MAnyCharNotNL (c : ascii) : c <> newline -> Matches AnyCharNotNL (String c EmptyString)
| MAnyChar (c : ascii) : Matches AnyChar (String c EmptyString)
| MCat (r1 r2 : regex) (s1 s2 : string) :
    Matches r1 s1 -> Matches r2 s2 -> Matches (Cat r1 r2) (s1 ++ s2)
| MAltL (r1 r2 : regex) (s : string) : Matches r1 s -> Matches (Alt r1 r2) s
| MAltR (r1 r2 : regex) (s : string) : Matches r2 s -> Matches (Alt r1 r2) s
| MStar0 (r : regex) : Matches (Star r) EmptyString
| MStarS (r : regex) (s1 s2 : string) :
    Matches r s1 -> Matches (Star r) s2 -> Matches (Star r) (s1 ++ s2).

(** The literal bytes of [p], then [r]. *)
Fixpoint lits (p : string) (r : regex) : regex :=
  match p with
  | EmptyString => r
  | String c p' => Cat (Lit c) (lits p' r)
  end.

Fixpoint noNewline (s : string) : bool :=
  match s with
  | EmptyString => true
  | String c r => negb (Ascii.eqb c newline) && noNewline r
  end.

(** The messages the pattern of [CreateAWSLogSource] is written for:
    somewhere in [msg], on one line, a bucket is said not to be readable,
    and one more character that is not a line feed follows. *)
Definition bucketNotReadable (msg : string) : Prop :=
  exists (pre b : string) (c : ascii) (post : string),
    msg = pre ++ "The S3 bucket 'bucketName=" ++ b ++ "' is not readable" ++ String c post
    /\ noNewline b = true
    /\ c <> newline.

(** ** The texts of the errors made by [fmt.Errorf]

    The formats of the source kinds are well formed.  The two formats of
    hosted collectors are not: [%s] is given the status code, an int, and
    the [%] before the back quote has the back quote for its verb; [fmt]
    then writes the verb, the type and the value of the operand. *)
Definition unknownResponse (status : Z) : error :=
  errorString ("Unknown Response with Sumo Logic: `" ++ itoa status ++ "`").

Definition unknownResponseBadVerb (status : Z) : error :=
  errorString ("Unknown Response with Sumo Logic: `%!s(int=" ++ itoa status ++ ")`").

Definition sourceNameTaken (name : string) : error :=
  errorString ("Bad Request. Please check if a source with this name `" ++ name
               ++ "` already exists").

Definition collectorNameTakenBadVerb (name : string) : error :=
  errorString ("Bad Request. Please check if a collector with this name `%!`(string="
               ++ name ++ ") already exists").

Definition badRequest (message : string) : error :=
  errorString ("Bad Request. " ++ message).

(** The statuses an operation has a branch for. *)
Definition handledByRead (status : Z) : Prop :=
  status = StatusOK \/ status = StatusUnauthorized \/ status = StatusNotFound.

Definition handledByWrite (ok status : Z) : Prop :=
  status = ok \/ status = StatusUnauthorized \/ status = StatusBadRequest.
(** * Properties *)

Ltac by_status resp :=
  destruct (Z.eqb_spec (StatusCode resp) StatusOK);
  destruct (Z.eqb_spec (StatusCode resp) StatusCreated);
  destruct (Z.eqb_spec (StatusCode resp) StatusUnauthorized);
  destruct (Z.eqb_spec (StatusCode resp) StatusNotFound);
  destruct (Z.eqb_spec (StatusCode resp) StatusBadRequest);
  unfold StatusOK, StatusCreated, StatusUnauthorized, StatusNotFound,
         StatusBadRequest in *;
  try lia.

Ltac by_unmarshal :=
  match goal with
  | |- context [Unmarshal ?d ?z ?b ?p] =>
    destruct (Unmarshal d z b p) as [[?r|] [?e|]]
  end.

Lemma append_assoc (a b c : string) : (a ++ b) ++ c = a ++ (b ++ c).
Proof.
  induction a as [|x a IH]; simpl; [reflexivity | now rewrite IH].
Qed.

Lemma Sprintf_unknown_d (n : Z) :
  Sprintf "Unknown Response with Sumo Logic: `%d`" [ArgInt n]
  = "Unknown Response with Sumo Logic: `" ++ itoa n ++ "`".
Proof. reflexivity. Qed.

Lemma Sprintf_unknown_s (n : Z) :
  Sprintf "Unknown Response with Sumo Logic: `%s`" [ArgInt n]
  = "Unknown Response with Sumo Logic: `%!s(int=" ++ itoa n ++ ")`".
Proof.
  cbn. unfold badVerb. cbn. now rewrite append_assoc.
Qed.

(** ** Encoding and decoding *)

Lemma is_intb_true (n : Z) : is_int n -> is_intb n = true.
Proof.
  unfold is_int, is_intb. intros [Hlo Hhi].
  apply andb_true_intro. split; [apply Z.leb_le | apply Z.ltb_lt]; assumption.
Qed.

Section Store.
Context {T : Type} (F : list (Field T)).

(** Members decoded without error, one run after the other. *)
Lemma decodeFields_app (m1 m2 : Members) (t t1 t2 : T) :
  decodeFields F m1 t = (t1, None) ->
  decodeFields F m2 t1 = (t2, None) ->
  decodeFields F (m1 ++ m2)%list t = (t2, None).
Proof.
  revert t. induction m1 as [|[key v] m1 IH]; intros t H1 H2; simpl in *.
  - injection H1 as ->. exact H2.
  - destruct (match findField F key with
              | Some dec => dec v t
              | None => (t, None)
              end) as [t' e1].
    destruct (decodeFields F m1 t') as [t'' e2] eqn:E.
    destruct e1; [discriminate|]. simpl in H1. injection H1 as -> ->.
    rewrite (IH t' E H2). reflexivity.
Qed.

Context {A : Type} (key : string) (d : Decoder A) (get : T -> A) (set : A -> T -> T).
Hypothesis Hfind : findField F key = Some (snd (field key d get set)).

Lemma store_member (j : json) (t : T) (v : A) :
  d j (get t) = (v, None) ->
  decodeFields F (member key j) t = (set v t, None).
Proof.
  intros Hd. unfold member. simpl. rewrite Hfind. simpl. rewrite Hd. reflexivity.
Qed.

(** A member left out leaves the field as it was. *)
Lemma store_nothing (t : T) (v : A) :
  get t = v -> set (get t) t = t ->
  decodeFields F [] t = (set v t, None).
Proof. intros <- ->. reflexivity. Qed.
End Store.

Section StoreKinds.
Context {T : Type} (F : list (Field T)) (key : string).

Lemma store_string (get : T -> string) (set : string -> T -> T) (s : string) (t : T) :
  findField F key = Some (snd (field key decode_string get set)) ->
  decodeFields F (member_string key s) t = (set (toValidUTF8 s) t, None).
Proof. intros Hf. apply (store_member F key _ get set Hf). reflexivity. Qed.

Lemma store_omitempty_string (get : T -> string) (set : string -> T -> T) (s : string) (t : T) :
  findField F key = Some (snd (field key decode_string get set)) ->
  get t = EmptyString -> set (get t) t = t ->
  decodeFields F (omitempty_string key s) t = (set (toValidUTF8 s) t, None).
Proof.
  intros Hf Hz Hs. destruct s as [|c s].
  - apply (store_nothing F get set); assumption.
  - apply (store_string get set (String c s) t Hf).
Qed.

Lemma store_bool (get : T -> bool) (set : bool -> T -> T) (b : bool) (t : T) :
  findField F key = Some (snd (field key decode_bool get set)) ->
  decodeFields F (member_bool key b) t = (set b t, None).
Proof. intros Hf. apply (store_member F key _ get set Hf). reflexivity. Qed.

Lemma store_omitempty_bool (get : T -> bool) (set : bool -> T -> T) (b : bool) (t : T) :
  findField F key = Some (snd (field key decode_bool get set)) ->
  get t = false -> set (get t) t = t ->
  decodeFields F (omitempty_bool key b) t = (set b t, None).
Proof.
  intros Hf Hz Hs. destruct b.
  - apply (store_bool get set true t Hf).
  - apply (store_nothing F get set); assumption.
Qed.

Lemma store_omitempty_int (get : T -> Z) (set : Z -> T -> T) (n : Z) (t : T) :
  findField F key = Some (snd (field key decode_int get set)) ->
  is_int n -> get t = 0 -> set (get t) t = t ->
  decodeFields F (omitempty_int key n) t = (set n t, None).
Proof.
  intros Hf Hn Hz Hs. unfold omitempty_int. destruct (Z.eqb_spec n 0) as [->|_].
  - apply (store_nothing F get set); assumption.
  - apply (store_member F key _ get set Hf). simpl.
    rewrite (is_intb_true n Hn). reflexivity.
Qed.

Lemma decodeArray_map {E : Type} (dec : Decoder E) (zero : E)
    (enc : E -> json) (co : E -> E) (l : list E) :
  Forall (fun x => dec (enc x) zero = (co x, None)) l ->
  decodeArray dec zero (map enc l) [] = (map co l, None).
Proof.
  induction 1 as [|x l Hx _ IH]; simpl; [reflexivity|].
  rewrite Hx. simpl in IH. rewrite IH. reflexivity.
Qed.

Lemma store_omitempty_slice {E : Type} (dec : Decoder E) (zero : E)
    (enc : E -> json) (co : E -> E)
    (get : T -> list E) (set : list E -> T -> T) (l : list E) (t : T) :
  findField F key = Some (snd (field key (decode_slice dec zero) get set)) ->
  get t = [] -> set (get t) t = t ->
  Forall (fun x => dec (enc x) zero = (co x, None)) l ->
  decodeFields F (omitempty_slice key enc l) t = (set (map co l) t, None).
Proof.
  intros Hf Hz Hs Hl. destruct l as [|x l].
  - apply (store_nothing F get set); assumption.
  - apply (store_member F key _ get set Hf). simpl decode_slice.
    rewrite Hz. exact (decodeArray_map dec zero enc co (x :: l) Hl).
Qed.
End StoreKinds.

(** Normal forms of the stores into each struct. *)
Ltac norm_CollectorLinks :=
  cbv beta iota delta [CollectorLinks_zero set_CollectorLinks_Rel set_CollectorLinks_Href
       CollectorLinks_Rel CollectorLinks_Href].

Ltac norm_Collector :=
  cbv beta iota delta [Collector_zero set_Collector_ID set_Collector_Name set_Collector_Description set_Collector_Category set_Collector_TimeZone set_Collector_Links set_Collector_CollectorType set_Collector_CollectorVersion set_Collector_LastSeenAlive set_Collector_Alive
       Collector_ID Collector_Name Collector_Description Collector_Category Collector_TimeZone Collector_Links Collector_CollectorType Collector_CollectorVersion Collector_LastSeenAlive Collector_Alive].

Ltac norm_CollectorRequest :=
  cbv beta iota delta [CollectorRequest_zero set_CollectorRequest_Collector
       CollectorRequest_Collector].

Ltac norm_Filter :=
  cbv beta iota delta [Filter_zero set_Filter_FilterType set_Filter_Name set_Filter_Regexp
       Filter_FilterType Filter_Name Filter_Regexp].

Ltac norm_HTTPSource :=
  cbv beta iota delta [HTTPSource_zero set_HTTPSource_ID set_HTTPSource_Name set_HTTPSource_CollectorID set_HTTPSource_Description set_HTTPSource_Category set_HTTPSource_TimeZone set_HTTPSource_SourceType set_HTTPSource_MessagePerRequest set_HTTPSource_MultilineProcessingEnabled set_HTTPSource_UseAutolineMatching set_HTTPSource_ManualPrefixRegexp set_HTTPSource_Url set_HTTPSource_Filters
       HTTPSource_ID HTTPSource_Name HTTPSource_CollectorID HTTPSource_Description HTTPSource_Category HTTPSource_TimeZone HTTPSource_SourceType HTTPSource_MessagePerRequest HTTPSource_MultilineProcessingEnabled HTTPSource_UseAutolineMatching HTTPSource_ManualPrefixRegexp HTTPSource_Url HTTPSource_Filters].

Ltac norm_HTTPSourceRequest :=
  cbv beta iota delta [HTTPSourceRequest_zero set_HTTPSourceRequest_Source
       HTTPSourceRequest_Source].

Ltac norm_AWSBucketPath :=
  cbv beta iota delta [AWSBucketPath_zero set_AWSBucketPath_Type set_AWSBucketPath_BucketName set_AWSBucketPath_PathExpression
       AWSBucketPath_Type AWSBucketPath_BucketName AWSBucketPath_PathExpression].

Ltac norm_AWSBucketAuthentication :=
  cbv beta iota delta [AWSBucketAuthentication_zero set_AWSBucketAuthentication_Type set_AWSBucketAuthentication_RoleARN
       AWSBucketAuthentication_Type AWSBucketAuthentication_RoleARN].

Ltac norm_AWSBucketResource :=
  cbv beta iota delta [AWSBucketResource_zero set_AWSBucketResource_ServiceType set_AWSBucketResource_Path set_AWSBucketResource_Authentication
       AWSBucketResource_ServiceType AWSBucketResource_Path AWSBucketResource_Authentication].

Ltac norm_AWSBucketThirdPartyRef :=
  cbv beta iota delta [AWSBucketThirdPartyRef_zero set_AWSBucketThirdPartyRef_Resources
       AWSBucketThirdPartyRef_Resources].

Ltac norm_AWSCloudTrailSource :=
  cbv beta iota delta [AWSCloudTrailSource_zero set_AWSCloudTrailSource_ID set_AWSCloudTrailSource_Name set_AWSCloudTrailSource_CollectorID set_AWSCloudTrailSource_Description set_AWSCloudTrailSource_Category set_AWSCloudTrailSource_TimeZone set_AWSCloudTrailSource_SourceType set_AWSCloudTrailSource_ContentType set_AWSCloudTrailSource_ScanInterval set_AWSCloudTrailSource_Paused set_AWSCloudTrailSource_CutoffRelativeTime set_AWSCloudTrailSource_ThirdPartyRef
       AWSCloudTrailSource_ID AWSCloudTrailSource_Name AWSCloudTrailSource_CollectorID AWSCloudTrailSource_Description AWSCloudTrailSource_Category AWSCloudTrailSource_TimeZone AWSCloudTrailSource_SourceType AWSCloudTrailSource_ContentType AWSCloudTrailSource_ScanInterval AWSCloudTrailSource_Paused AWSCloudTrailSource_CutoffRelativeTime AWSCloudTrailSource_ThirdPartyRef].

Ltac norm_AWSCloudTrailSourceRequest :=
  cbv beta iota delta [AWSCloudTrailSourceRequest_zero set_AWSCloudTrailSourceRequest_Source
       AWSCloudTrailSourceRequest_Source].

Ltac norm_AWSLogSource :=
  cbv beta iota delta [AWSLogSource_zero set_AWSLogSource_ID set_AWSLogSource_Name set_AWSLogSource_CollectorID set_AWSLogSource_Description set_AWSLogSource_Category set_AWSLogSource_TimeZone set_AWSLogSource_SourceType set_AWSLogSource_ContentType set_AWSLogSource_ScanInterval set_AWSLogSource_Paused set_AWSLogSource_CutoffRelativeTime set_AWSLogSource_MultilineProcessingEnabled set_AWSLogSource_UseAutolineMatching set_AWSLogSource_ManualPrefixRegexp set_AWSLogSource_Url set_AWSLogSource_ThirdPartyRef
       AWSLogSource_ID AWSLogSource_Name AWSLogSource_CollectorID AWSLogSource_Description AWSLogSource_Category AWSLogSource_TimeZone AWSLogSource_SourceType AWSLogSource_ContentType AWSLogSource_ScanInterval AWSLogSource_Paused AWSLogSource_CutoffRelativeTime AWSLogSource_MultilineProcessingEnabled AWSLogSource_UseAutolineMatching AWSLogSource_ManualPrefixRegexp AWSLogSource_Url AWSLogSource_ThirdPartyRef].

Ltac norm_AWSLogSourceRequest :=
  cbv beta iota delta [AWSLogSourceRequest_zero set_AWSLogSourceRequest_Source
       AWSLogSourceRequest_Source].

Lemma decode_encode_CollectorLinks (x : CollectorLinks) :
  inrange_CollectorLinks x ->
  decode_CollectorLinks (encode_CollectorLinks x) CollectorLinks_zero = (coerce_CollectorLinks x, None).
Proof.
  destruct x as [rel_ href_]. unfold inrange_CollectorLinks, decode_CollectorLinks, encode_CollectorLinks, coerce_CollectorLinks, decode_struct.
  cbn [CollectorLinks_Rel CollectorLinks_Href]. intros H.
  eapply decodeFields_app.
  { apply (store_string _ _ CollectorLinks_Rel set_CollectorLinks_Rel); reflexivity. }
  norm_CollectorLinks.
  apply (store_string _ _ CollectorLinks_Href set_CollectorLinks_Href); reflexivity.
Qed.

Lemma decode_encode_Collector (x : Collector) :
  inrange_Collector x ->
  decode_Collector (encode_Collector x) Collector_zero = (coerce_Collector x, None).
Proof.
  destruct x as [id_ name_ description_ category_ timezone_ links_ collectortype_ collectorversion_ lastseenalive_ alive_]. unfold inrange_Collector, decode_Collector, encode_Collector, coerce_Collector, decode_struct.
  cbn [Collector_ID Collector_Name Collector_Description Collector_Category Collector_TimeZone Collector_Links Collector_CollectorType Collector_CollectorVersion Collector_LastSeenAlive Collector_Alive]. intros H.
  repeat match goal with Hc : _ /\ _ |- _ => destruct Hc end.
  eapply decodeFields_app.
  { apply (store_omitempty_int _ _ Collector_ID set_Collector_ID); [reflexivity | assumption | reflexivity | norm_Collector; reflexivity]. }
  norm_Collector.
  eapply decodeFields_app.
  { apply (store_string _ _ Collector_Name set_Collector_Name); reflexivity. }
  norm_Collector.
  eapply decodeFields_app.
  { apply (store_omitempty_string _ _ Collector_Description set_Collector_Description); [reflexivity | reflexivity | norm_Collector; reflexivity]. }
  norm_Collector.
  eapply decodeFields_app.
  { apply (store_omitempty_string _ _ Collector_Category set_Collector_Category); [reflexivity | reflexivity | norm_Collector; reflexivity]. }
  norm_Collector.
  eapply decodeFields_app.
  { apply (store_omitempty_string _ _ Collector_TimeZone set_Collector_TimeZone); [reflexivity | reflexivity | norm_Collector; reflexivity]. }
  norm_Collector.
  eapply decodeFields_app.
  { apply (store_omitempty_slice _ _ decode_CollectorLinks CollectorLinks_zero encode_CollectorLinks coerce_CollectorLinks Collector_Links set_Collector_Links);
    [reflexivity | reflexivity | norm_Collector; reflexivity |].
    eapply Forall_impl; [|eassumption]. intros e He. apply decode_encode_CollectorLinks. exact He. }
  norm_Collector.
  eapply decodeFields_app.
  { apply (store_omitempty_string _ _ Collector_CollectorType set_Collector_CollectorType); [reflexivity | reflexivity | norm_Collector; reflexivity]. }
  norm_Collector.
  eapply decodeFields_app.
  { apply (store_omitempty_string _ _ Collector_CollectorVersion set_Collector_CollectorVersion); [reflexivity | reflexivity | norm_Collector; reflexivity]. }
  norm_Collector.
  eapply decodeFields_app.
  { apply (store_omitempty_int _ _ Collector_LastSeenAlive set_Collector_LastSeenAlive); [reflexivity | assumption | reflexivity | norm_Collector; reflexivity]. }
  norm_Collector.
  apply (store_omitempty_bool _ _ Collector_Alive set_Collector_Alive); [reflexivity | reflexivity | norm_Collector; reflexivity].
Qed.

Lemma decode_encode_CollectorRequest (x : CollectorRequest) :
  inrange_CollectorRequest x ->
  decode_CollectorRequest (encode_CollectorRequest x) CollectorRequest_zero = (coerce_CollectorRequest x, None).
Proof.
  destruct x as [collector_]. unfold inrange_CollectorRequest, decode_CollectorRequest, encode_CollectorRequest, coerce_CollectorRequest, decode_struct.
  cbn [CollectorRequest_Collector]. intros H.
  repeat match goal with Hc : _ /\ _ |- _ => destruct Hc end.
  apply (store_member _ "collector" decode_Collector CollectorRequest_Collector set_CollectorRequest_Collector); [reflexivity | apply decode_encode_Collector; assumption].
Qed.

Lemma decode_encode_Filter (x : Filter) :
  inrange_Filter x ->
  decode_Filter (encode_Filter x) Filter_zero = (coerce_Filter x, None).
Proof.
  destruct x as [filtertype_ name_ regexp_]. unfold inrange_Filter, decode_Filter, encode_Filter, coerce_Filter, decode_struct.
  cbn [Filter_FilterType Filter_Name Filter_Regexp]. intros H.
  eapply decodeFields_app.
  { apply (store_string _ _ Filter_FilterType set_Filter_FilterType); reflexivity. }
  norm_Filter.
  eapply decodeFields_app.
  { apply (store_string _ _ Filter_Name set_Filter_Name); reflexivity. }
  norm_Filter.
  apply (store_string _ _ Filter_Regexp set_Filter_Regexp); reflexivity.
Qed.

Lemma decode_encode_HTTPSource (x : HTTPSource) :
  inrange_HTTPSource x ->
  decode_HTTPSource (encode_HTTPSource x) HTTPSource_zero = (coerce_HTTPSource x, None).
Proof.
  destruct x as [id_ name_ collectorid_ description_ category_ timezone_ sourcetype_ messageperrequest_ multilineprocessingenabled_ useautolinematching_ manualprefixregexp_ url_ filters_]. unfold inrange_HTTPSource, decode_HTTPSource, encode_HTTPSource, coerce_HTTPSource, decode_struct.
  cbn [HTTPSource_ID HTTPSource_Name HTTPSource_CollectorID HTTPSource_Description HTTPSource_Category HTTPSource_TimeZone HTTPSource_SourceType HTTPSource_MessagePerRequest HTTPSource_MultilineProcessingEnabled HTTPSource_UseAutolineMatching HTTPSource_ManualPrefixRegexp HTTPSource_Url HTTPSource_Filters]. intros H.
  repeat match goal with Hc : _ /\ _ |- _ => destruct Hc end.
  eapply decodeFields_app.
  { apply (store_omitempty_int _ _ HTTPSource_ID set_HTTPSource_ID); [reflexivity | assumption | reflexivity | norm_HTTPSource; reflexivity]. }
  norm_HTTPSource.
  eapply decodeFields_app.
  { apply (store_string _ _ HTTPSource_Name set_HTTPSource_Name); reflexivity. }
  norm_HTTPSource.
  eapply decodeFields_app.
  { apply (store_omitempty_int _ _ HTTPSource_CollectorID set_HTTPSource_CollectorID); [reflexivity | assumption | reflexivity | norm_HTTPSource; reflexivity]. }
  norm_HTTPSource.
  eapply decodeFields_app.
  { apply (store_omitempty_string _ _ HTTPSource_Description set_HTTPSource_Description); [reflexivity | reflexivity | norm_HTTPSource; reflexivity]. }
  norm_HTTPSource.
  eapply decodeFields_app.
  { apply (store_omitempty_string _ _ HTTPSource_Category set_HTTPSource_Category); [reflexivity | reflexivity | norm_HTTPSource; reflexivity]. }
  norm_HTTPSource.
  eapply decodeFields_app.
  { apply (store_omitempty_string _ _ HTTPSource_TimeZone set_HTTPSource_TimeZone); [reflexivity | reflexivity | norm_HTTPSource; reflexivity]. }
  norm_HTTPSource.
  eapply decodeFields_app.
  { apply (store_omitempty_string _ _ HTTPSource_SourceType set_HTTPSource_SourceType); [reflexivity | reflexivity | norm_HTTPSource; reflexivity]. }
  norm_HTTPSource.
  eapply decodeFields_app.
  { apply (store_bool _ _ HTTPSource_MessagePerRequest set_HTTPSource_MessagePerRequest); reflexivity. }
  norm_HTTPSource.
  eapply decodeFields_app.
  { apply (store_bool _ _ HTTPSource_MultilineProcessingEnabled set_HTTPSource_MultilineProcessingEnabled); reflexivity. }
  norm_HTTPSource.
  eapply decodeFields_app.
  { apply (store_bool _ _ HTTPSource_UseAutolineMatching set_HTTPSource_UseAutolineMatching); reflexivity. }
  norm_HTTPSource.
  eapply decodeFields_app.
  { apply (store_omitempty_string _ _ HTTPSource_ManualPrefixRegexp set_HTTPSource_ManualPrefixRegexp); [reflexivity | reflexivity | norm_HTTPSource; reflexivity]. }
  norm_HTTPSource.
  eapply decodeFields_app.
  { apply (store_omitempty_string _ _ HTTPSource_Url set_HTTPSource_Url); [reflexivity | reflexivity | norm_HTTPSource; reflexivity]. }
  norm_HTTPSource.
  apply (store_omitempty_slice _ _ decode_Filter Filter_zero encode_Filter coerce_Filter HTTPSource_Filters set_HTTPSource_Filters);
    [reflexivity | reflexivity | norm_HTTPSource; reflexivity |].
    eapply Forall_impl; [|eassumption]. intros e He. apply decode_encode_Filter. exact He.
Qed.

Lemma decode_encode_HTTPSourceRequest (x : HTTPSourceRequest) :
  inrange_HTTPSourceRequest x ->
  decode_HTTPSourceRequest (encode_HTTPSourceRequest x) HTTPSourceRequest_zero = (coerce_HTTPSourceRequest x, None).
Proof.
  destruct x as [source_]. unfold inrange_HTTPSourceRequest, decode_HTTPSourceRequest, encode_HTTPSourceRequest, coerce_HTTPSourceRequest, decode_struct.
  cbn [HTTPSourceRequest_Source]. intros H.
  repeat match goal with Hc : _ /\ _ |- _ => destruct Hc end.
  apply (store_member _ "source" decode_HTTPSource HTTPSourceRequest_Source set_HTTPSourceRequest_Source); [reflexivity | apply decode_encode_HTTPSource; assumption].
Qed.

Lemma decode_encode_AWSBucketPath (x : AWSBucketPath) :
  inrange_AWSBucketPath x ->
  decode_AWSBucketPath (encode_AWSBucketPath x) AWSBucketPath_zero = (coerce_AWSBucketPath x, None).
Proof.
  destruct x as [type_ bucketname_ pathexpression_]. unfold inrange_AWSBucketPath, decode_AWSBucketPath, encode_AWSBucketPath, coerce_AWSBucketPath, decode_struct.
  cbn [AWSBucketPath_Type AWSBucketPath_BucketName AWSBucketPath_PathExpression]. intros H.
  eapply decodeFields_app.
  { apply (store_string _ _ AWSBucketPath_Type set_AWSBucketPath_Type); reflexivity. }
  norm_AWSBucketPath.
  eapply decodeFields_app.
  { apply (store_string _ _ AWSBucketPath_BucketName set_AWSBucketPath_BucketName); reflexivity. }
  norm_AWSBucketPath.
  apply (store_string _ _ AWSBucketPath_PathExpression set_AWSBucketPath_PathExpression); reflexivity.
Qed.

Lemma decode_encode_AWSBucketAuthentication (x : AWSBucketAuthentication) :
  inrange_AWSBucketAuthentication x ->
  decode_AWSBucketAuthentication (encode_AWSBucketAuthentication x) AWSBucketAuthentication_zero = (coerce_AWSBucketAuthentication x, None).
Proof.
  destruct x as [type_ rolearn_]. unfold inrange_AWSBucketAuthentication, decode_AWSBucketAuthentication, encode_AWSBucketAuthentication, coerce_AWSBucketAuthentication, decode_struct.
  cbn [AWSBucketAuthentication_Type AWSBucketAuthentication_RoleARN]. intros H.
  eapply decodeFields_app.
  { apply (store_string _ _ AWSBucketAuthentication_Type set_AWSBucketAuthentication_Type); reflexivity. }
  norm_AWSBucketAuthentication.
  apply (store_string _ _ AWSBucketAuthentication_RoleARN set_AWSBucketAuthentication_RoleARN); reflexivity.
Qed.

Lemma decode_encode_AWSBucketResource (x : AWSBucketResource) :
  inrange_AWSBucketResource x ->
  decode_AWSBucketResource (encode_AWSBucketResource x) AWSBucketResource_zero = (coerce_AWSBucketResource x, None).
Proof.
  destruct x as [servicetype_ path_ authentication_]. unfold inrange_AWSBucketResource, decode_AWSBucketResource, encode_AWSBucketResource, coerce_AWSBucketResource, decode_struct.
  cbn [AWSBucketResource_ServiceType AWSBucketResource_Path AWSBucketResource_Authentication]. intros H.
  repeat match goal with Hc : _ /\ _ |- _ => destruct Hc end.
  eapply decodeFields_app.
  { apply (store_string _ _ AWSBucketResource_ServiceType set_AWSBucketResource_ServiceType); reflexivity. }
  norm_AWSBucketResource.
  eapply decodeFields_app.
  { apply (store_member _ "path" decode_AWSBucketPath AWSBucketResource_Path set_AWSBucketResource_Path); [reflexivity | apply decode_encode_AWSBucketPath; assumption]. }
  norm_AWSBucketResource.
  apply (store_member _ "authentication" decode_AWSBucketAuthentication AWSBucketResource_Authentication set_AWSBucketResource_Authentication); [reflexivity | apply decode_encode_AWSBucketAuthentication; assumption].
Qed.

Lemma decode_encode_AWSBucketThirdPartyRef (x : AWSBucketThirdPartyRef) :
  inrange_AWSBucketThirdPartyRef x ->
  decode_AWSBucketThirdPartyRef (encode_AWSBucketThirdPartyRef x) AWSBucketThirdPartyRef_zero = (coerce_AWSBucketThirdPartyRef x, None).
Proof.
  destruct x as [resources_]. unfold inrange_AWSBucketThirdPartyRef, decode_AWSBucketThirdPartyRef, encode_AWSBucketThirdPartyRef, coerce_AWSBucketThirdPartyRef, decode_struct.
  cbn [AWSBucketThirdPartyRef_Resources]. intros H.
  repeat match goal with Hc : _ /\ _ |- _ => destruct Hc end.
  apply (store_omitempty_slice _ _ decode_AWSBucketResource AWSBucketResource_zero encode_AWSBucketResource coerce_AWSBucketResource AWSBucketThirdPartyRef_Resources set_AWSBucketThirdPartyRef_Resources);
    [reflexivity | reflexivity | norm_AWSBucketThirdPartyRef; reflexivity |].
    eapply Forall_impl; [|eassumption]. intros e He. apply decode_encode_AWSBucketResource. exact He.
Qed.

Lemma decode_encode_AWSCloudTrailSource (x : AWSCloudTrailSource) :
  inrange_AWSCloudTrailSource x ->
  decode_AWSCloudTrailSource (encode_AWSCloudTrailSource x) AWSCloudTrailSource_zero = (coerce_AWSCloudTrailSource x, None).
Proof.
  destruct x as [id_ name_ collectorid_ description_ category_ timezone_ sourcetype_ contenttype_ scaninterval_ paused_ cutoffrelativetime_ thirdpartyref_]. unfold inrange_AWSCloudTrailSource, decode_AWSCloudTrailSource, encode_AWSCloudTrailSource, coerce_AWSCloudTrailSource, decode_struct.
  cbn [AWSCloudTrailSource_ID AWSCloudTrailSource_Name AWSCloudTrailSource_CollectorID AWSCloudTrailSource_Description AWSCloudTrailSource_Category AWSCloudTrailSource_TimeZone AWSCloudTrailSource_SourceType AWSCloudTrailSource_ContentType AWSCloudTrailSource_ScanInterval AWSCloudTrailSource_Paused AWSCloudTrailSource_CutoffRelativeTime AWSCloudTrailSource_ThirdPartyRef]. intros H.
  repeat match goal with Hc : _ /\ _ |- _ => destruct Hc end.
  eapply decodeFields_app.
  { apply (store_omitempty_int _ _ AWSCloudTrailSource_ID set_AWSCloudTrailSource_ID); [reflexivity | assumption | reflexivity | norm_AWSCloudTrailSource; reflexivity]. }
  norm_AWSCloudTrailSource.
  eapply decodeFields_app.
  { apply (store_string _ _ AWSCloudTrailSource_Name set_AWSCloudTrailSource_Name); reflexivity. }
  norm_AWSCloudTrailSource.
  eapply decodeFields_app.
  { apply (store_omitempty_int _ _ AWSCloudTrailSource_CollectorID set_AWSCloudTrailSource_CollectorID); [reflexivity | assumption | reflexivity | norm_AWSCloudTrailSource; reflexivity]. }
  norm_AWSCloudTrailSource.
  eapply decodeFields_app.
  { apply (store_omitempty_string _ _ AWSCloudTrailSource_Description set_AWSCloudTrailSource_Description); [reflexivity | reflexivity | norm_AWSCloudTrailSource; reflexivity]. }
  norm_AWSCloudTrailSource.
  eapply decodeFields_app.
  { apply (store_omitempty_string _ _ AWSCloudTrailSource_Category set_AWSCloudTrailSource_Category); [reflexivity | reflexivity | norm_AWSCloudTrailSource; reflexivity]. }
  norm_AWSCloudTrailSource.
  eapply decodeFields_app.
  { apply (store_omitempty_string _ _ AWSCloudTrailSource_TimeZone set_AWSCloudTrailSource_TimeZone); [reflexivity | reflexivity | norm_AWSCloudTrailSource; reflexivity]. }
  norm_AWSCloudTrailSource.
  eapply decodeFields_app.
  { apply (store_omitempty_string _ _ AWSCloudTrailSource_SourceType set_AWSCloudTrailSource_SourceType); [reflexivity | reflexivity | norm_AWSCloudTrailSource; reflexivity]. }
  norm_AWSCloudTrailSource.
  eapply decodeFields_app.
  { apply (store_omitempty_string _ _ AWSCloudTrailSource_ContentType set_AWSCloudTrailSource_ContentType); [reflexivity | reflexivity | norm_AWSCloudTrailSource; reflexivity]. }
  norm_AWSCloudTrailSource.
  eapply decodeFields_app.
  { apply (store_omitempty_int _ _ AWSCloudTrailSource_ScanInterval set_AWSCloudTrailSource_ScanInterval); [reflexivity | assumption | reflexivity | norm_AWSCloudTrailSource; reflexivity]. }
  norm_AWSCloudTrailSource.
  eapply decodeFields_app.
  { apply (store_bool _ _ AWSCloudTrailSource_Paused set_AWSCloudTrailSource_Paused); reflexivity. }
  norm_AWSCloudTrailSource.
  eapply decodeFields_app.
  { apply (store_string _ _ AWSCloudTrailSource_CutoffRelativeTime set_AWSCloudTrailSource_CutoffRelativeTime); reflexivity. }
  norm_AWSCloudTrailSource.
  apply (store_member _ "thirdPartyRef" decode_AWSBucketThirdPartyRef AWSCloudTrailSource_ThirdPartyRef set_AWSCloudTrailSource_ThirdPartyRef); [reflexivity | apply decode_encode_AWSBucketThirdPartyRef; assumption].
Qed.

Lemma decode_encode_AWSCloudTrailSourceRequest (x : AWSCloudTrailSourceRequest) :
  inrange_AWSCloudTrailSourceRequest x ->
  decode_AWSCloudTrailSourceRequest (encode_AWSCloudTrailSourceRequest x) AWSCloudTrailSourceRequest_zero = (coerce_AWSCloudTrailSourceRequest x, None).
Proof.
  destruct x as [source_]. unfold inrange_AWSCloudTrailSourceRequest, decode_AWSCloudTrailSourceRequest, encode_AWSCloudTrailSourceRequest, coerce_AWSCloudTrailSourceRequest, decode_struct.
  cbn [AWSCloudTrailSourceRequest_Source]. intros H.
  repeat match goal with Hc : _ /\ _ |- _ => destruct Hc end.
  apply (store_member _ "source" decode_AWSCloudTrailSource AWSCloudTrailSourceRequest_Source set_AWSCloudTrailSourceRequest_Source); [reflexivity | apply decode_encode_AWSCloudTrailSource; assumption].
Qed.

Lemma decode_encode_AWSLogSource (x : AWSLogSource) :
  inrange_AWSLogSource x ->
  decode_AWSLogSource (encode_AWSLogSource x) AWSLogSource_zero = (coerce_AWSLogSource x, None).
Proof.
  destruct x as [id_ name_ collectorid_ description_ category_ timezone_ sourcetype_ contenttype_ scaninterval_ paused_ cutoffrelativetime_ multilineprocessingenabled_ useautolinematching_ manualprefixregexp_ url_ thirdpartyref_]. unfold inrange_AWSLogSource, decode_AWSLogSource, encode_AWSLogSource, coerce_AWSLogSource, decode_struct.
  cbn [AWSLogSource_ID AWSLogSource_Name AWSLogSource_CollectorID AWSLogSource_Description AWSLogSource_Category AWSLogSource_TimeZone AWSLogSource_SourceType AWSLogSource_ContentType AWSLogSource_ScanInterval AWSLogSource_Paused AWSLogSource_CutoffRelativeTime AWSLogSource_MultilineProcessingEnabled AWSLogSource_UseAutolineMatching AWSLogSource_ManualPrefixRegexp AWSLogSource_Url AWSLogSource_ThirdPartyRef]. intros H.
  repeat match goal with Hc : _ /\ _ |- _ => destruct Hc end.
  eapply decodeFields_app.
  { apply (store_omitempty_int _ _ AWSLogSource_ID set_AWSLogSource_ID); [reflexivity | assumption | reflexivity | norm_AWSLogSource; reflexivity]. }
  norm_AWSLogSource.
  eapply decodeFields_app.
  { apply (store_string _ _ AWSLogSource_Name set_AWSLogSource_Name); reflexivity. }
  norm_AWSLogSource.
  eapply decodeFields_app.
  { apply (store_omitempty_int _ _ AWSLogSource_CollectorID set_AWSLogSource_CollectorID); [reflexivity | assumption | reflexivity | norm_AWSLogSource; reflexivity]. }
  norm_AWSLogSource.
  eapply decodeFields_app.
  { apply (store_omitempty_string _ _ AWSLogSource_Description set_AWSLogSource_Description); [reflexivity | reflexivity | norm_AWSLogSource; reflexivity]. }
  norm_AWSLogSource.
  eapply decodeFields_app.
  { apply (store_omitempty_string _ _ AWSLogSource_Category set_AWSLogSource_Category); [reflexivity | reflexivity | norm_AWSLogSource; reflexivity]. }
  norm_AWSLogSource.
  eapply decodeFields_app.
  { apply (store_omitempty_string _ _ AWSLogSource_TimeZone set_AWSLogSource_TimeZone); [reflexivity | reflexivity | norm_AWSLogSource; reflexivity]. }
  norm_AWSLogSource.
  eapply decodeFields_app.
  { apply (store_omitempty_string _ _ AWSLogSource_SourceType set_AWSLogSource_SourceType); [reflexivity | reflexivity | norm_AWSLogSource; reflexivity]. }
  norm_AWSLogSource.
  eapply decodeFields_app.
  { apply (store_omitempty_string _ _ AWSLogSource_ContentType set_AWSLogSource_ContentType); [reflexivity | reflexivity | norm_AWSLogSource; reflexivity]. }
  norm_AWSLogSource.
  eapply decodeFields_app.
  { apply (store_omitempty_int _ _ AWSLogSource_ScanInterval set_AWSLogSource_ScanInterval); [reflexivity | assumption | reflexivity | norm_AWSLogSource; reflexivity]. }
  norm_AWSLogSource.
  eapply decodeFields_app.
  { apply (store_bool _ _ AWSLogSource_Paused set_AWSLogSource_Paused); reflexivity. }
  norm_AWSLogSource.
  eapply decodeFields_app.
  { apply (store_omitempty_string _ _ AWSLogSource_CutoffRelativeTime set_AWSLogSource_CutoffRelativeTime); [reflexivity | reflexivity | norm_AWSLogSource; reflexivity]. }
  norm_AWSLogSource.
  eapply decodeFields_app.
  { apply (store_omitempty_bool _ _ AWSLogSource_MultilineProcessingEnabled set_AWSLogSource_MultilineProcessingEnabled); [reflexivity | reflexivity | norm_AWSLogSource; reflexivity]. }
  norm_AWSLogSource.
  eapply decodeFields_app.
  { apply (store_omitempty_bool _ _ AWSLogSource_UseAutolineMatching set_AWSLogSource_UseAutolineMatching); [reflexivity | reflexivity | norm_AWSLogSource; reflexivity]. }
  norm_AWSLogSource.
  eapply decodeFields_app.
  { apply (store_omitempty_string _ _ AWSLogSource_ManualPrefixRegexp set_AWSLogSource_ManualPrefixRegexp); [reflexivity | reflexivity | norm_AWSLogSource; reflexivity]. }
  norm_AWSLogSource.
  eapply decodeFields_app.
  { apply (store_omitempty_string _ _ AWSLogSource_Url set_AWSLogSource_Url); [reflexivity | reflexivity | norm_AWSLogSource; reflexivity]. }
  norm_AWSLogSource.
  apply (store_member _ "thirdPartyRef" decode_AWSBucketThirdPartyRef AWSLogSource_ThirdPartyRef set_AWSLogSource_ThirdPartyRef); [reflexivity | apply decode_encode_AWSBucketThirdPartyRef; assumption].
Qed.

Lemma decode_encode_AWSLogSourceRequest (x : AWSLogSourceRequest) :
  inrange_AWSLogSourceRequest x ->
  decode_AWSLogSourceRequest (encode_AWSLogSourceRequest x) AWSLogSourceRequest_zero = (coerce_AWSLogSourceRequest x, None).
Proof.
  destruct x as [source_]. unfold inrange_AWSLogSourceRequest, decode_AWSLogSourceRequest, encode_AWSLogSourceRequest, coerce_AWSLogSourceRequest, decode_struct.
  cbn [AWSLogSourceRequest_Source]. intros H.
  repeat match goal with Hc : _ /\ _ |- _ => destruct Hc end.
  apply (store_member _ "source" decode_AWSLogSource AWSLogSourceRequest_Source set_AWSLogSourceRequest_Source); [reflexivity | apply decode_encode_AWSLogSource; assumption].
Qed.

(** A body that is the encoding of an envelope decodes, without error, to
    the envelope of the coerced resource. *)
Lemma Unmarshal_encode_CollectorRequest (x : Collector) :
  inrange_Collector x ->
  Unmarshal decode_CollectorRequest CollectorRequest_zero (Document (encode_CollectorRequest (mkCollectorRequest x))) (new CollectorRequest_zero)
  = (Some (mkCollectorRequest (coerce_Collector x)), None).
Proof.
  intros H. pose proof (decode_encode_CollectorRequest (mkCollectorRequest x) H) as E.
  unfold Unmarshal, new, encode_CollectorRequest in *. rewrite E. reflexivity.
Qed.

(** A body that is the encoding of an envelope decodes, without error, to
    the envelope of the coerced resource. *)
Lemma Unmarshal_encode_HTTPSourceRequest (x : HTTPSource) :
  inrange_HTTPSource x ->
  Unmarshal decode_HTTPSourceRequest HTTPSourceRequest_zero (Document (encode_HTTPSourceRequest (mkHTTPSourceRequest x))) (new HTTPSourceRequest_zero)
  = (Some (mkHTTPSourceRequest (coerce_HTTPSource x)), None).
Proof.
  intros H. pose proof (decode_encode_HTTPSourceRequest (mkHTTPSourceRequest x) H) as E.
  unfold Unmarshal, new, encode_HTTPSourceRequest in *. rewrite E. reflexivity.
Qed.

(** A body that is the encoding of an envelope decodes, without error, to
    the envelope of the coerced resource. *)
Lemma Unmarshal_encode_AWSCloudTrailSourceRequest (x : AWSCloudTrailSource) :
  inrange_AWSCloudTrailSource x ->
  Unmarshal decode_AWSCloudTrailSourceRequest AWSCloudTrailSourceRequest_zero (Document (encode_AWSCloudTrailSourceRequest (mkAWSCloudTrailSourceRequest x))) (new AWSCloudTrailSourceRequest_zero)
  = (Some (mkAWSCloudTrailSourceRequest (coerce_AWSCloudTrailSource x)), None).
Proof.
  intros H. pose proof (decode_encode_AWSCloudTrailSourceRequest (mkAWSCloudTrailSourceRequest x) H) as E.
  unfold Unmarshal, new, encode_AWSCloudTrailSourceRequest in *. rewrite E. reflexivity.
Qed.

(** A body that is the encoding of an envelope decodes, without error, to
    the envelope of the coerced resource. *)
Lemma Unmarshal_encode_AWSLogSourceRequest (x : AWSLogSource) :
  inrange_AWSLogSource x ->
  Unmarshal decode_AWSLogSourceRequest AWSLogSourceRequest_zero (Document (encode_AWSLogSourceRequest (mkAWSLogSourceRequest x))) (new AWSLogSourceRequest_zero)
  = (Some (mkAWSLogSourceRequest (coerce_AWSLogSource x)), None).
Proof.
  intros H. pose proof (decode_encode_AWSLogSourceRequest (mkAWSLogSourceRequest x) H) as E.
  unfold Unmarshal, new, encode_AWSLogSourceRequest in *. rewrite E. reflexivity.
Qed.
(** ** What a call does with the answer of the transport *)

Lemma GetHostedCollector_run (Do : RoundTripper) (id : Z) (s : Client) :
  GetHostedCollector Do id s
  = (s, GetHostedCollector_resp (Do (snd (GetHostedCollector_req id s)))).
Proof. reflexivity. Qed.

Lemma CreateHostedCollector_run (Do : RoundTripper) (collector : Collector) (s : Client) :
  CreateHostedCollector Do collector s
  = (s, CreateHostedCollector_resp collector (Do (snd (CreateHostedCollector_req collector s)))).
Proof. reflexivity. Qed.

Lemma UpdateHostedCollector_run (Do : RoundTripper) (collector : Collector) (etag : string) (s : Client) :
  UpdateHostedCollector Do collector etag s
  = (s, UpdateHostedCollector_resp collector (Do (snd (UpdateHostedCollector_req collector etag s)))).
Proof. reflexivity. Qed.

Lemma DeleteHostedCollector_run (Do : RoundTripper) (id : Z) (s : Client) :
  DeleteHostedCollector Do id s
  = (s, DeleteHostedCollector_resp (Do (snd (DeleteHostedCollector_req id s)))).
Proof. reflexivity. Qed.

Lemma GetHTTPSource_run (Do : RoundTripper) (collectorID id : Z) (s : Client) :
  GetHTTPSource Do collectorID id s
  = (s, GetHTTPSource_resp (Do (snd (GetHTTPSource_req collectorID id s)))).
Proof. reflexivity. Qed.

Lemma CreateHTTPSource_run (Do : RoundTripper) (collectorID : Z) (source : HTTPSource) (s : Client) :
  CreateHTTPSource Do collectorID source s
  = (s, CreateHTTPSource_resp source (Do (snd (CreateHTTPSource_req collectorID source s)))).
Proof. reflexivity. Qed.

Lemma UpdateHTTPSource_run (Do : RoundTripper) (collectorID : Z) (source : HTTPSource) (etag : string) (s : Client) :
  UpdateHTTPSource Do collectorID source etag s
  = (s, UpdateHTTPSource_resp source (Do (snd (UpdateHTTPSource_req collectorID source etag s)))).
Proof. reflexivity. Qed.

Lemma DeleteHTTPSource_run (Do : RoundTripper) (collectorID id : Z) (s : Client) :
  DeleteHTTPSource Do collectorID id s
  = (s, DeleteHTTPSource_resp (Do (snd (DeleteHTTPSource_req collectorID id s)))).
Proof. reflexivity. Qed.

Lemma GetAWSCloudTrailSource_run (Do : RoundTripper) (collectorID id : Z) (s : Client) :
  GetAWSCloudTrailSource Do collectorID id s
  = (s, GetAWSCloudTrailSource_resp (Do (snd (GetAWSCloudTrailSource_req collectorID id s)))).
Proof. reflexivity. Qed.

Lemma CreateAWSCloudTrailSource_run (Do : RoundTripper) (collectorID : Z) (source : AWSCloudTrailSource) (s : Client) :
  CreateAWSCloudTrailSource Do collectorID source s
  = (s, CreateAWSCloudTrailSource_resp source (Do (snd (CreateAWSCloudTrailSource_req collectorID source s)))).
Proof. reflexivity. Qed.

Lemma UpdateAWSCloudTrailSource_run (Do : RoundTripper) (collectorID : Z) (source : AWSCloudTrailSource) (etag : string) (s : Client) :
  UpdateAWSCloudTrailSource Do collectorID source etag s
  = (s, UpdateAWSCloudTrailSource_resp source (Do (snd (UpdateAWSCloudTrailSource_req collectorID source etag s)))).
Proof. reflexivity. Qed.

Lemma DeleteAWSCloudTrailSource_run (Do : RoundTripper) (collectorID id : Z) (s : Client) :
  DeleteAWSCloudTrailSource Do collectorID id s
  = (s, DeleteAWSCloudTrailSource_resp (Do (snd (DeleteAWSCloudTrailSource_req collectorID id s)))).
Proof. reflexivity. Qed.

Lemma GetAWSLogSource_run (Do : RoundTripper) (collectorID id : Z) (s : Client) :
  GetAWSLogSource Do collectorID id s
  = (s, GetAWSLogSource_resp (Do (snd (GetAWSLogSource_req collectorID id s)))).
Proof. reflexivity. Qed.

Lemma CreateAWSLogSource_run (Do : RoundTripper) (collectorID : Z) (source : AWSLogSource) (s : Client) :
  CreateAWSLogSource Do collectorID source s
  = (s, CreateAWSLogSource_resp source (Do (snd (CreateAWSLogSource_req collectorID source s)))).
Proof. reflexivity. Qed.

Lemma UpdateAWSLogSource_run (Do : RoundTripper) (collectorID : Z) (source : AWSLogSource) (etag : string) (s : Client) :
  UpdateAWSLogSource Do collectorID source etag s
  = (s, UpdateAWSLogSource_resp source (Do (snd (UpdateAWSLogSource_req collectorID source etag s)))).
Proof. reflexivity. Qed.

Lemma DeleteAWSLogSource_run (Do : RoundTripper) (collectorID id : Z) (s : Client) :
  DeleteAWSLogSource Do collectorID id s
  = (s, DeleteAWSLogSource_resp (Do (snd (DeleteAWSLogSource_req collectorID id s)))).
Proof. reflexivity. Qed.

(** ** Get and Delete by status code *)

Lemma mentions_unknown_d (n : Z) :
  mentions (itoa n)
    (Returns (Some (Errorf "Unknown Response with Sumo Logic: `%d`" [ArgInt n]))).
Proof.
  exists "Unknown Response with Sumo Logic: `", "`".
  unfold Errorf. now rewrite Sprintf_unknown_d.
Qed.

Lemma mentions_unknown_s (n : Z) :
  mentions (itoa n)
    (Returns (Some (Errorf "Unknown Response with Sumo Logic: `%s`" [ArgInt n]))).
Proof.
  exists "Unknown Response with Sumo Logic: `%!s(int=", ")`".
  unfold Errorf. now rewrite Sprintf_unknown_s.
Qed.

Ltac status_cases resp lem :=
  by_status resp; try by_unmarshal; cbn [err3 err2];
  repeat split; intros;
  try lia;
  first
    [ reflexivity
    | apply lem
    | match goal with
      | H : Returns (Some (Errorf _ _)) = _ |- _ => unfold Errorf in H; discriminate H
      | H : Returns _ = Returns _ |- _ => discriminate H
      | H : Panics = Returns _ |- _ => discriminate H
      end ].

Lemma GetHostedCollector_status (resp : Response) :
  get_status_spec ErrCollectorNotFound (StatusCode resp) (err3 (GetHostedCollector_resp (DoResponse resp))).
Proof.
  unfold get_status_spec, GetHostedCollector_resp. status_cases resp mentions_unknown_s.
Qed.

Lemma DeleteHostedCollector_status (resp : Response) :
  delete_status_spec ErrCollectorNotFound (StatusCode resp) (DeleteHostedCollector_resp (DoResponse resp)).
Proof.
  unfold delete_status_spec, DeleteHostedCollector_resp. status_cases resp mentions_unknown_s.
Qed.

Lemma GetHTTPSource_status (resp : Response) :
  get_status_spec ErrSourceNotFound (StatusCode resp) (err3 (GetHTTPSource_resp (DoResponse resp))).
Proof.
  unfold get_status_spec, GetHTTPSource_resp. status_cases resp mentions_unknown_d.
Qed.

Lemma DeleteHTTPSource_status (resp : Response) :
  delete_status_spec ErrSourceNotFound (StatusCode resp) (DeleteHTTPSource_resp (DoResponse resp)).
Proof.
  unfold delete_status_spec, DeleteHTTPSource_resp. status_cases resp mentions_unknown_d.
Qed.

Lemma GetAWSCloudTrailSource_status (resp : Response) :
  get_status_spec ErrSourceNotFound (StatusCode resp) (err3 (GetAWSCloudTrailSource_resp (DoResponse resp))).
Proof.
  unfold get_status_spec, GetAWSCloudTrailSource_resp. status_cases resp mentions_unknown_d.
Qed.

Lemma DeleteAWSCloudTrailSource_status (resp : Response) :
  delete_status_spec ErrSourceNotFound (StatusCode resp) (DeleteAWSCloudTrailSource_resp (DoResponse resp)).
Proof.
  unfold delete_status_spec, DeleteAWSCloudTrailSource_resp. status_cases resp mentions_unknown_d.
Qed.

Lemma GetAWSLogSource_status (resp : Response) :
  get_status_spec ErrSourceNotFound (StatusCode resp) (err3 (GetAWSLogSource_resp (DoResponse resp))).
Proof.
  unfold get_status_spec, GetAWSLogSource_resp. status_cases resp mentions_unknown_d.
Qed.

Lemma DeleteAWSLogSource_status (resp : Response) :
  delete_status_spec ErrSourceNotFound (StatusCode resp) (DeleteAWSLogSource_resp (DoResponse resp)).
Proof.
  unfold delete_status_spec, DeleteAWSLogSource_resp. status_cases resp mentions_unknown_d.
Qed.

(** C3.  Get, when the server answers: the not-found error of the kind
    ([ErrCollectorNotFound] for a collector, [ErrSourceNotFound] for a
    source) is returned exactly on status 404,
    [ErrClientAuthenticationError] exactly on 401, and on any status other
    than 200, 401 and 404 the error is an unknown-response error whose text
    has the decimal status code in it. *)
Theorem Get_status_errors (resp : Response) (s : Client) (collectorID id : Z) :
  get_status_spec ErrCollectorNotFound (StatusCode resp)
    (err3 (snd (GetHostedCollector (serve resp) id s)))
  /\ get_status_spec ErrSourceNotFound (StatusCode resp)
       (err3 (snd (GetHTTPSource (serve resp) collectorID id s)))
  /\ get_status_spec ErrSourceNotFound (StatusCode resp)
       (err3 (snd (GetAWSCloudTrailSource (serve resp) collectorID id s)))
  /\ get_status_spec ErrSourceNotFound (StatusCode resp)
       (err3 (snd (GetAWSLogSource (serve resp) collectorID id s))).
Proof.
  rewrite GetHostedCollector_run, GetHTTPSource_run,
    GetAWSCloudTrailSource_run, GetAWSLogSource_run.
  cbn [snd]. unfold serve.
  split; [apply GetHostedCollector_status|].
  split; [apply GetHTTPSource_status|].
  split; [apply GetAWSCloudTrailSource_status | apply GetAWSLogSource_status].
Qed.

Lemma Get_status_errors_witness :
  mentions (itoa 500) (err3 (snd (GetHostedCollector (serve (statusOnly 500)) 7 testClient)))
  /\ mentions (itoa 500) (err3 (snd (GetAWSLogSource (serve (statusOnly 500)) 7 8 testClient))).
Proof.
  destruct (Get_status_errors (statusOnly 500) testClient 7 8)
    as ((_ & _ & Hc) & _ & _ & (_ & _ & Hl)).
  split; [apply Hc | apply Hl]; intro H; discriminate H.
Defined.

(** C7.  Delete, when the server answers: the error is nil exactly on
    status 200; on 404 it is the not-found error of the kind, not nil; on
    401 it is [ErrClientAuthenticationError]; on any other status it is an
    unknown-response error whose text has the status code in it. *)
Theorem Delete_status_errors (resp : Response) (s : Client) (collectorID id : Z) :
  delete_status_spec ErrCollectorNotFound (StatusCode resp)
    (snd (DeleteHostedCollector (serve resp) id s))
  /\ delete_status_spec ErrSourceNotFound (StatusCode resp)
       (snd (DeleteHTTPSource (serve resp) collectorID id s))
  /\ delete_status_spec ErrSourceNotFound (StatusCode resp)
       (snd (DeleteAWSCloudTrailSource (serve resp) collectorID id s))
  /\ delete_status_spec ErrSourceNotFound (StatusCode resp)
       (snd (DeleteAWSLogSource (serve resp) collectorID id s)).
Proof.
  rewrite DeleteHostedCollector_run, DeleteHTTPSource_run,
    DeleteAWSCloudTrailSource_run, DeleteAWSLogSource_run.
  cbn [snd]. unfold serve.
  split; [apply DeleteHostedCollector_status|].
  split; [apply DeleteHTTPSource_status|].
  split; [apply DeleteAWSCloudTrailSource_status | apply DeleteAWSLogSource_status].
Qed.

Lemma Delete_status_errors_witness :
  snd (DeleteHostedCollector (serve (statusOnly 404)) 7 testClient)
    = Returns (Some ErrCollectorNotFound)
  /\ snd (DeleteHTTPSource (serve (statusOnly 401)) 7 8 testClient)
     = Returns (Some ErrClientAuthenticationError)
  /\ mentions (itoa 500) (snd (DeleteAWSLogSource (serve (statusOnly 500)) 7 8 testClient)).
Proof.
  destruct (Delete_status_errors (statusOnly 404) testClient 7 8) as ((_ & Hnf & _) & _).
  destruct (Delete_status_errors (statusOnly 401) testClient 7 8) as (_ & (_ & _ & Hau & _) & _).
  destruct (Delete_status_errors (statusOnly 500) testClient 7 8) as (_ & _ & _ & (_ & _ & _ & Hun)).
  split; [apply Hnf; reflexivity|].
  split; [apply Hau; reflexivity|].
  apply Hun; intro H; discriminate H.
Defined.

(** C9.  No method writes to the [Client]: whatever the transport answers,
    the client a call leaves is the client it was given, with its
    [AuthToken] and its [EndpointURL]. *)
Theorem Client_unchanged (Do : RoundTripper) (s : Client) (collectorID id : Z)
    (etag : string) (collector : Collector) (h : HTTPSource)
    (c : AWSCloudTrailSource) (l : AWSLogSource) :
  (fst (GetHostedCollector Do id s) = s
   /\ fst (CreateHostedCollector Do collector s) = s
   /\ fst (UpdateHostedCollector Do collector etag s) = s
   /\ fst (DeleteHostedCollector Do id s) = s)
  /\ (fst (GetHTTPSource Do collectorID id s) = s
      /\ fst (CreateHTTPSource Do collectorID h s) = s
      /\ fst (UpdateHTTPSource Do collectorID h etag s) = s
      /\ fst (DeleteHTTPSource Do collectorID id s) = s)
  /\ (fst (GetAWSCloudTrailSource Do collectorID id s) = s
      /\ fst (CreateAWSCloudTrailSource Do collectorID c s) = s
      /\ fst (UpdateAWSCloudTrailSource Do collectorID c etag s) = s
      /\ fst (DeleteAWSCloudTrailSource Do collectorID id s) = s)
  /\ (fst (GetAWSLogSource Do collectorID id s) = s
      /\ fst (CreateAWSLogSource Do collectorID l s) = s
      /\ fst (UpdateAWSLogSource Do collectorID l etag s) = s
      /\ fst (DeleteAWSLogSource Do collectorID id s) = s).
Proof.
  rewrite GetHostedCollector_run, CreateHostedCollector_run,
    UpdateHostedCollector_run, DeleteHostedCollector_run,
    GetHTTPSource_run, CreateHTTPSource_run, UpdateHTTPSource_run,
    DeleteHTTPSource_run, GetAWSCloudTrailSource_run,
    CreateAWSCloudTrailSource_run, UpdateAWSCloudTrailSource_run,
    DeleteAWSCloudTrailSource_run, GetAWSLogSource_run,
    CreateAWSLogSource_run, UpdateAWSLogSource_run, DeleteAWSLogSource_run.
  cbn [fst]. repeat split.
Qed.

(** ** Envelopes in answers and requests *)



Lemma UpdateHostedCollector_ok (s : Client) (collector x : Collector) (etag : string) (h : Header) :
  inrange_Collector x ->
  snd (UpdateHostedCollector (serve (okResponse h (encode_CollectorRequest (mkCollectorRequest x)))) collector etag s)
  = Returns (Some (coerce_Collector x), None).
Proof.
  intros Hx. rewrite UpdateHostedCollector_run. cbn [snd]. unfold serve, UpdateHostedCollector_resp, okResponse.
  cbn [StatusCode Response_Body Response_Header].
  change (StatusOK =? StatusOK) with true. cbv iota.
  rewrite (Unmarshal_encode_CollectorRequest x Hx). reflexivity.
Qed.

Lemma CreateHostedCollector_sent (s : Client) (collector : Collector) :
  inrange_Collector collector ->
  sent decode_CollectorRequest CollectorRequest_zero (snd (CreateHostedCollector_req collector s))
  = Some (mkCollectorRequest (coerce_Collector collector)).
Proof.
  intros Hx. unfold sent.
  change (Request_Body (snd (CreateHostedCollector_req collector s)))
    with (Some (encode_CollectorRequest (mkCollectorRequest collector))).
  cbv iota. rewrite (Unmarshal_encode_CollectorRequest collector Hx). reflexivity.
Qed.

Lemma UpdateHostedCollector_If_Match (s : Client) (collector : Collector) (etag : string) :
  Header_Get (Request_Header (snd (UpdateHostedCollector_req collector etag s))) "If-Match" = etag.
Proof. reflexivity. Qed.



Lemma UpdateHTTPSource_ok (s : Client) (collectorID : Z) (source x : HTTPSource) (etag : string) (h : Header) :
  inrange_HTTPSource x ->
  snd (UpdateHTTPSource (serve (okResponse h (encode_HTTPSourceRequest (mkHTTPSourceRequest x)))) collectorID source etag s)
  = Returns (Some (coerce_HTTPSource x), None).
Proof.
  intros Hx. rewrite UpdateHTTPSource_run. cbn [snd]. unfold serve, UpdateHTTPSource_resp, okResponse.
  cbn [StatusCode Response_Body Response_Header].
  change (StatusOK =? StatusOK) with true. cbv iota.
  rewrite (Unmarshal_encode_HTTPSourceRequest x Hx). reflexivity.
Qed.

Lemma CreateHTTPSource_sent (s : Client) (collectorID : Z) (source : HTTPSource) :
  inrange_HTTPSource source ->
  sent decode_HTTPSourceRequest HTTPSourceRequest_zero (snd (CreateHTTPSource_req collectorID source s))
  = Some (mkHTTPSourceRequest (coerce_HTTPSource source)).
Proof.
  intros Hx. unfold sent.
  change (Request_Body (snd (CreateHTTPSource_req collectorID source s)))
    with (Some (encode_HTTPSourceRequest (mkHTTPSourceRequest source))).
  cbv iota. rewrite (Unmarshal_encode_HTTPSourceRequest source Hx). reflexivity.
Qed.

Lemma UpdateHTTPSource_If_Match (s : Client) (collectorID : Z) (source : HTTPSource) (etag : string) :
  Header_Get (Request_Header (snd (UpdateHTTPSource_req collectorID source etag s))) "If-Match" = etag.
Proof. reflexivity. Qed.



Lemma UpdateAWSCloudTrailSource_ok (s : Client) (collectorID : Z) (source x : AWSCloudTrailSource) (etag : string) (h : Header) :
  inrange_AWSCloudTrailSource x ->
  snd (UpdateAWSCloudTrailSource (serve (okResponse h (encode_AWSCloudTrailSourceRequest (mkAWSCloudTrailSourceRequest x)))) collectorID source etag s)
  = Returns (Some (coerce_AWSCloudTrailSource x), None).
Proof.
  intros Hx. rewrite UpdateAWSCloudTrailSource_run. cbn [snd]. unfold serve, UpdateAWSCloudTrailSource_resp, okResponse.
  cbn [StatusCode Response_Body Response_Header].
  change (StatusOK =? StatusOK) with true. cbv iota.
  rewrite (Unmarshal_encode_AWSCloudTrailSourceRequest x Hx). reflexivity.
Qed.

Lemma CreateAWSCloudTrailSource_sent (s : Client) (collectorID : Z) (source : AWSCloudTrailSource) :
  inrange_AWSCloudTrailSource source ->
  sent decode_AWSCloudTrailSourceRequest AWSCloudTrailSourceRequest_zero (snd (CreateAWSCloudTrailSource_req collectorID source s))
  = Some (mkAWSCloudTrailSourceRequest (coerce_AWSCloudTrailSource source)).
Proof.
  intros Hx. unfold sent.
  change (Request_Body (snd (CreateAWSCloudTrailSource_req collectorID source s)))
    with (Some (encode_AWSCloudTrailSourceRequest (mkAWSCloudTrailSourceRequest source))).
  cbv iota. rewrite (Unmarshal_encode_AWSCloudTrailSourceRequest source Hx). reflexivity.
Qed.

Lemma UpdateAWSCloudTrailSource_If_Match (s : Client) (collectorID : Z) (source : AWSCloudTrailSource) (etag : string) :
  Header_Get (Request_Header (snd (UpdateAWSCloudTrailSource_req collectorID source etag s))) "If-Match" = etag.
Proof. reflexivity. Qed.



Lemma UpdateAWSLogSource_ok (s : Client) (collectorID : Z) (source x : AWSLogSource) (etag : string) (h : Header) :
  inrange_AWSLogSource x ->
  snd (UpdateAWSLogSource (serve (okResponse h (encode_AWSLogSourceRequest (mkAWSLogSourceRequest x)))) collectorID source etag s)
  = Returns (Some (coerce_AWSLogSource x), None).
Proof.
  intros Hx. rewrite UpdateAWSLogSource_run. cbn [snd]. unfold serve, UpdateAWSLogSource_resp, okResponse.
  cbn [StatusCode Response_Body Response_Header].
  change (StatusOK =? StatusOK) with true. cbv iota.
  rewrite (Unmarshal_encode_AWSLogSourceRequest x Hx). reflexivity.
Qed.

Lemma CreateAWSLogSource_sent (s : Client) (collectorID : Z) (source : AWSLogSource) :
  inrange_AWSLogSource source ->
  sent decode_AWSLogSourceRequest AWSLogSourceRequest_zero (snd (CreateAWSLogSource_req collectorID source s))
  = Some (mkAWSLogSourceRequest (coerce_AWSLogSource source)).
Proof.
  intros Hx. unfold sent.
  change (Request_Body (snd (CreateAWSLogSource_req collectorID source s)))
    with (Some (encode_AWSLogSourceRequest (mkAWSLogSourceRequest source))).
  cbv iota. rewrite (Unmarshal_encode_AWSLogSourceRequest source Hx). reflexivity.
Qed.

Lemma UpdateAWSLogSource_If_Match (s : Client) (collectorID : Z) (source : AWSLogSource) (etag : string) :
  Header_Get (Request_Header (snd (UpdateAWSLogSource_req collectorID source etag s))) "If-Match" = etag.
Proof. reflexivity. Qed.

(** ** Bad requests *)

Lemma Unmarshal_Error_cases (b : Body) :
  Unmarshal decode_Error Error_zero b (new Error_zero) = (None, None)
  \/ exists e je, Unmarshal decode_Error Error_zero b (new Error_zero) = (Some e, je).
Proof.
  destruct b as [|j]; [right; eexists; eexists; reflexivity|].
  destruct j; try (left; reflexivity);
    right; unfold Unmarshal; cbv iota; unfold new;
    match goal with
    | |- context [decode_Error ?j ?z] => destruct (decode_Error j z) as [v e]
    end; eexists; eexists; reflexivity.
Qed.

Ltac bad_request_cases resp :=
  by_status resp;
  try match goal with
      | |- context [Unmarshal decode_Error Error_zero ?b ?p] =>
        unfold decode_fails;
        destruct (Unmarshal_Error_cases b) as [E|(?v & je & E)];
        unfold new in *; rewrite E; cbn [fst snd]; [|destruct je]
      end;
  repeat match goal with
         | |- context [if ?c then _ else _] => destruct c
         end;
  cbn [err2 err3]; unfold Errorf;
  (split; [intros je' H'; discriminate H' | intros ?Hf]).

Ltac aws_or_bad :=
  first
    [ left; reflexivity
    | right; cbn; unfold badVerb; cbn; eexists; reflexivity
    | exfalso; match goal with H : _ <> _ |- _ => apply H; reflexivity end ].

Lemma CreateHostedCollector_bad_request (resp : Response) (collector : Collector) :
  StatusCode resp = StatusBadRequest ->
  bad_request_spec (Response_Body resp) (err2 (CreateHostedCollector_resp collector (DoResponse resp))).
Proof.
  intros Hs. unfold bad_request_spec, CreateHostedCollector_resp, aws_or_bad_request. cbv zeta.
  bad_request_cases resp; aws_or_bad.
Qed.

Lemma UpdateHostedCollector_bad_request (resp : Response) (collector : Collector) :
  StatusCode resp = StatusBadRequest ->
  bad_request_spec (Response_Body resp) (err2 (UpdateHostedCollector_resp collector (DoResponse resp))).
Proof.
  intros Hs. unfold bad_request_spec, UpdateHostedCollector_resp, aws_or_bad_request. cbv zeta.
  bad_request_cases resp; aws_or_bad.
Qed.

Lemma GetHostedCollector_bad_request (resp : Response) :
  StatusCode resp = StatusBadRequest ->
  never_decode_error (err3 (GetHostedCollector_resp (DoResponse resp))).
Proof.
  intros Hs. unfold GetHostedCollector_resp. by_status resp.
  cbn [err3]. unfold Errorf. intros je' H'. discriminate H'.
Qed.

Lemma DeleteHostedCollector_bad_request (resp : Response) :
  StatusCode resp = StatusBadRequest ->
  never_decode_error (DeleteHostedCollector_resp (DoResponse resp)).
Proof.
  intros Hs. unfold DeleteHostedCollector_resp. by_status resp.
  cbn [err3]. unfold Errorf. intros je' H'. discriminate H'.
Qed.

Lemma CreateHTTPSource_bad_request (resp : Response) (source : HTTPSource) :
  StatusCode resp = StatusBadRequest ->
  bad_request_spec (Response_Body resp) (err2 (CreateHTTPSource_resp source (DoResponse resp))).
Proof.
  intros Hs. unfold bad_request_spec, CreateHTTPSource_resp, aws_or_bad_request. cbv zeta.
  bad_request_cases resp; aws_or_bad.
Qed.

Lemma UpdateHTTPSource_bad_request (resp : Response) (source : HTTPSource) :
  StatusCode resp = StatusBadRequest ->
  bad_request_spec (Response_Body resp) (err2 (UpdateHTTPSource_resp source (DoResponse resp))).
Proof.
  intros Hs. unfold bad_request_spec, UpdateHTTPSource_resp, aws_or_bad_request. cbv zeta.
  bad_request_cases resp; aws_or_bad.
Qed.

Lemma GetHTTPSource_bad_request (resp : Response) :
  StatusCode resp = StatusBadRequest ->
  never_decode_error (err3 (GetHTTPSource_resp (DoResponse resp))).
Proof.
  intros Hs. unfold GetHTTPSource_resp. by_status resp.
  cbn [err3]. unfold Errorf. intros je' H'. discriminate H'.
Qed.

Lemma DeleteHTTPSource_bad_request (resp : Response) :
  StatusCode resp = StatusBadRequest ->
  never_decode_error (DeleteHTTPSource_resp (DoResponse resp)).
Proof.
  intros Hs. unfold DeleteHTTPSource_resp. by_status resp.
  cbn [err3]. unfold Errorf. intros je' H'. discriminate H'.
Qed.

Lemma CreateAWSCloudTrailSource_bad_request (resp : Response) (source : AWSCloudTrailSource) :
  StatusCode resp = StatusBadRequest ->
  bad_request_spec (Response_Body resp) (err2 (CreateAWSCloudTrailSource_resp source (DoResponse resp))).
Proof.
  intros Hs. unfold bad_request_spec, CreateAWSCloudTrailSource_resp, aws_or_bad_request. cbv zeta.
  bad_request_cases resp; aws_or_bad.
Qed.

Lemma UpdateAWSCloudTrailSource_bad_request (resp : Response) (source : AWSCloudTrailSource) :
  StatusCode resp = StatusBadRequest ->
  bad_request_spec (Response_Body resp) (err2 (UpdateAWSCloudTrailSource_resp source (DoResponse resp))).
Proof.
  intros Hs. unfold bad_request_spec, UpdateAWSCloudTrailSource_resp, aws_or_bad_request. cbv zeta.
  bad_request_cases resp; aws_or_bad.
Qed.

Lemma GetAWSCloudTrailSource_bad_request (resp : Response) :
  StatusCode resp = StatusBadRequest ->
  never_decode_error (err3 (GetAWSCloudTrailSource_resp (DoResponse resp))).
Proof.
  intros Hs. unfold GetAWSCloudTrailSource_resp. by_status resp.
  cbn [err3]. unfold Errorf. intros je' H'. discriminate H'.
Qed.

Lemma DeleteAWSCloudTrailSource_bad_request (resp : Response) :
  StatusCode resp = StatusBadRequest ->
  never_decode_error (DeleteAWSCloudTrailSource_resp (DoResponse resp)).
Proof.
  intros Hs. unfold DeleteAWSCloudTrailSource_resp. by_status resp.
  cbn [err3]. unfold Errorf. intros je' H'. discriminate H'.
Qed.

Lemma CreateAWSLogSource_bad_request (resp : Response) (source : AWSLogSource) :
  StatusCode resp = StatusBadRequest ->
  bad_request_spec (Response_Body resp) (err2 (CreateAWSLogSource_resp source (DoResponse resp))).
Proof.
  intros Hs. unfold bad_request_spec, CreateAWSLogSource_resp, aws_or_bad_request. cbv zeta.
  bad_request_cases resp; aws_or_bad.
Qed.

Lemma UpdateAWSLogSource_bad_request (resp : Response) (source : AWSLogSource) :
  StatusCode resp = StatusBadRequest ->
  bad_request_spec (Response_Body resp) (err2 (UpdateAWSLogSource_resp source (DoResponse resp))).
Proof.
  intros Hs. unfold bad_request_spec, UpdateAWSLogSource_resp, aws_or_bad_request. cbv zeta.
  bad_request_cases resp; aws_or_bad.
Qed.

Lemma GetAWSLogSource_bad_request (resp : Response) :
  StatusCode resp = StatusBadRequest ->
  never_decode_error (err3 (GetAWSLogSource_resp (DoResponse resp))).
Proof.
  intros Hs. unfold GetAWSLogSource_resp. by_status resp.
  cbn [err3]. unfold Errorf. intros je' H'. discriminate H'.
Qed.

Lemma DeleteAWSLogSource_bad_request (resp : Response) :
  StatusCode resp = StatusBadRequest ->
  never_decode_error (DeleteAWSLogSource_resp (DoResponse resp)).
Proof.
  intros Hs. unfold DeleteAWSLogSource_resp. by_status resp.
  cbn [err3]. unfold Errorf. intros je' H'. discriminate H'.
Qed.

(** ** Resources that went through an envelope *)








(** The scenario of the tests: a 200 whose body is
    [{"source":{"id":1234567890,"name":"test","CollectorId":1234567890}}]
    gives a source named [test] and no error. *)
Example GetHTTPSource_scenario :
  snd (GetHTTPSource
         (serve (okResponse []
            (JObject [("source",
               JObject [("id", JInt 1234567890);
                        ("name", JString "test");
                        ("CollectorId", JInt 1234567890)])])))
         1234567890 1234567890 testClient)
  = Returns (Some defaultHTTPSource, EmptyString, None).
Proof. vm_compute. reflexivity. Qed.




(** When the name is valid UTF-8, the name in the body is the name. *)
Lemma Create_request_name_valid (s : Client) (collectorID : Z) (c : Collector)
    (hs : HTTPSource) (ct : AWSCloudTrailSource) (ls : AWSLogSource) :
  inrange_Collector c -> inrange_HTTPSource hs ->
  inrange_AWSCloudTrailSource ct -> inrange_AWSLogSource ls ->
  ValidString (Collector_Name c) -> ValidString (HTTPSource_Name hs) ->
  ValidString (AWSCloudTrailSource_Name ct) -> ValidString (AWSLogSource_Name ls) ->
  sentName decode_CollectorRequest CollectorRequest_zero
    CollectorRequest_Collector Collector_Name (snd (CreateHostedCollector_req c s))
  = Some (Collector_Name c)
  /\ sentName decode_HTTPSourceRequest HTTPSourceRequest_zero
       HTTPSourceRequest_Source HTTPSource_Name
       (snd (CreateHTTPSource_req collectorID hs s))
     = Some (HTTPSource_Name hs)
  /\ sentName decode_AWSCloudTrailSourceRequest AWSCloudTrailSourceRequest_zero
       AWSCloudTrailSourceRequest_Source AWSCloudTrailSource_Name
       (snd (CreateAWSCloudTrailSource_req collectorID ct s))
     = Some (AWSCloudTrailSource_Name ct)
  /\ sentName decode_AWSLogSourceRequest AWSLogSourceRequest_zero
       AWSLogSourceRequest_Source AWSLogSource_Name
       (snd (CreateAWSLogSource_req collectorID ls s))
     = Some (AWSLogSource_Name ls).
Proof.
  unfold ValidString, sentName. intros Hc Hh Ht Hl Vc Vh Vt Vl.
  rewrite (CreateHostedCollector_sent s c Hc), (CreateHTTPSource_sent s collectorID hs Hh),
    (CreateAWSCloudTrailSource_sent s collectorID ct Ht),
    (CreateAWSLogSource_sent s collectorID ls Hl).
  cbn. rewrite Vc, Vh, Vt, Vl. repeat split.
Qed.






(** C10.  On a 400 no operation on any kind returns an error of the JSON
    decoder, whatever the body is.  Where Create and Update decode the body
    of a 400 and the decoding fails, the failure becomes
    [ErrAwsAuthenticationError] or a bad-request error. *)
Theorem bad_request_never_decode_error (resp : Response) (s : Client)
    (collectorID id : Z) (etag : string) (c : Collector) (hs : HTTPSource)
    (ct : AWSCloudTrailSource) (ls : AWSLogSource) :
  StatusCode resp = StatusBadRequest ->
  (never_decode_error (err3 (snd (GetHostedCollector (serve resp) id s)))
   /\ bad_request_spec (Response_Body resp)
        (err2 (snd (CreateHostedCollector (serve resp) c s)))
   /\ bad_request_spec (Response_Body resp)
        (err2 (snd (UpdateHostedCollector (serve resp) c etag s)))
   /\ never_decode_error (snd (DeleteHostedCollector (serve resp) id s)))
  /\ (never_decode_error (err3 (snd (GetHTTPSource (serve resp) collectorID id s)))
   /\ bad_request_spec (Response_Body resp)
        (err2 (snd (CreateHTTPSource (serve resp) collectorID hs s)))
   /\ bad_request_spec (Response_Body resp)
        (err2 (snd (UpdateHTTPSource (serve resp) collectorID hs etag s)))
   /\ never_decode_error (snd (DeleteHTTPSource (serve resp) collectorID id s)))
  /\ (never_decode_error (err3 (snd (GetAWSCloudTrailSource (serve resp) collectorID id s)))
   /\ bad_request_spec (Response_Body resp)
        (err2 (snd (CreateAWSCloudTrailSource (serve resp) collectorID ct s)))
   /\ bad_request_spec (Response_Body resp)
        (err2 (snd (UpdateAWSCloudTrailSource (serve resp) collectorID ct etag s)))
   /\ never_decode_error (snd (DeleteAWSCloudTrailSource (serve resp) collectorID id s)))
  /\ (never_decode_error (err3 (snd (GetAWSLogSource (serve resp) collectorID id s)))
   /\ bad_request_spec (Response_Body resp)
        (err2 (snd (CreateAWSLogSource (serve resp) collectorID ls s)))
   /\ bad_request_spec (Response_Body resp)
        (err2 (snd (UpdateAWSLogSource (serve resp) collectorID ls etag s)))
   /\ never_decode_error (snd (DeleteAWSLogSource (serve resp) collectorID id s))).
Proof.
  intros Hs.
  rewrite GetHostedCollector_run, CreateHostedCollector_run, UpdateHostedCollector_run, DeleteHostedCollector_run,
    GetHTTPSource_run, CreateHTTPSource_run, UpdateHTTPSource_run, DeleteHTTPSource_run,
    GetAWSCloudTrailSource_run, CreateAWSCloudTrailSource_run, UpdateAWSCloudTrailSource_run, DeleteAWSCloudTrailSource_run,
    GetAWSLogSource_run, CreateAWSLogSource_run, UpdateAWSLogSource_run, DeleteAWSLogSource_run.
  cbn [snd]. unfold serve.
  split; [|split; [|split]].
  - split; [apply GetHostedCollector_bad_request, Hs|].
    split; [apply CreateHostedCollector_bad_request, Hs|].
    split; [apply UpdateHostedCollector_bad_request, Hs | apply DeleteHostedCollector_bad_request, Hs].
  - split; [apply GetHTTPSource_bad_request, Hs|].
    split; [apply CreateHTTPSource_bad_request, Hs|].
    split; [apply UpdateHTTPSource_bad_request, Hs | apply DeleteHTTPSource_bad_request, Hs].
  - split; [apply GetAWSCloudTrailSource_bad_request, Hs|].
    split; [apply CreateAWSCloudTrailSource_bad_request, Hs|].
    split; [apply UpdateAWSCloudTrailSource_bad_request, Hs | apply DeleteAWSCloudTrailSource_bad_request, Hs].
  - split; [apply GetAWSLogSource_bad_request, Hs|].
    split; [apply CreateAWSLogSource_bad_request, Hs|].
    split; [apply UpdateAWSLogSource_bad_request, Hs | apply DeleteAWSLogSource_bad_request, Hs].
Qed.


Lemma bad_request_never_decode_error_witness :
  never_decode_error
    (err3 (snd (GetHTTPSource (serve (statusOnly StatusBadRequest)) 7 8 testClient)))
  /\ aws_or_bad_request
       (err2 (snd (CreateAWSLogSource (serve (statusOnly StatusBadRequest))
                     7 defaultAWSLogSource testClient)))
  /\ aws_or_bad_request
       (err2 (snd (UpdateAWSCloudTrailSource (serve (statusOnly StatusBadRequest))
                     7 defaultAWSCloudTrailSource "etag" testClient))).
Proof.
  destruct (bad_request_never_decode_error (statusOnly StatusBadRequest) testClient
              7 8 "etag" defaultCollector defaultHTTPSource
              defaultAWSCloudTrailSource defaultAWSLogSource eq_refl)
    as (_ & (Hg & _) & (_ & _ & (_ & Hu) & _) & (_ & (_ & Hc) & _)).
  split; [exact Hg|].
  split; [apply Hc | apply Hu]; intro H; discriminate H.
Defined.

(** ** Where Create and Update leave the protocol *)

(** What the two AWS kinds do recognise on Create. *)
Lemma CreateAWSLogSource_aws_authentication (resp : Response) (source : AWSLogSource)
    (e : Error) :
  StatusCode resp = StatusBadRequest ->
  Unmarshal decode_Error Error_zero (Response_Body resp) (new Error_zero) = (Some e, None) ->
  Error_Message e = "Cannot authenticate with AWS."
  \/ Error_Message e = "Invalid IAM role: 'errorCode=AccessDenied'."
  \/ MatchString "The S3 bucket 'bucketName=.*' is not readable." (Error_Message e) = true ->
  err2 (CreateAWSLogSource_resp source (DoResponse resp))
  = Returns (Some ErrAwsAuthenticationError).
Proof.
  intros Hs He Hm. unfold CreateAWSLogSource_resp. cbv zeta. by_status resp.
  rewrite He. cbv iota.
  destruct Hm as [-> | [-> | Hm]]; [reflexivity | reflexivity |].
  rewrite Hm.
  destruct (String.eqb _ _ || String.eqb _ _)%bool; reflexivity.
Qed.

Lemma CreateAWSCloudTrailSource_aws_authentication (resp : Response)
    (source : AWSCloudTrailSource) (e : Error) :
  StatusCode resp = StatusBadRequest ->
  Unmarshal decode_Error Error_zero (Response_Body resp) (new Error_zero) = (Some e, None) ->
  Error_Message e = "Cannot authenticate with AWS."
  \/ Error_Message e = "Invalid IAM role: 'errorCode=AccessDenied'." ->
  err2 (CreateAWSCloudTrailSource_resp source (DoResponse resp))
  = Returns (Some ErrAwsAuthenticationError).
Proof.
  intros Hs He Hm. unfold CreateAWSCloudTrailSource_resp. cbv zeta. by_status resp.
  rewrite He. cbv iota.
  destruct Hm as [-> | ->]; reflexivity.
Qed.

(** C1 (the code departs from it).  On a 400 whose error body has the
    message [The S3 bucket 'bucketName=my-bucket' is not readable.],
    [CreateAWSCloudTrailSource] returns a plain bad-request error, not
    [ErrAwsAuthenticationError]; [CreateAWSLogSource], on the same answer,
    returns [ErrAwsAuthenticationError]. *)
Theorem CreateAWSCloudTrailSource_S3_bucket_not_readable :
  snd (CreateAWSCloudTrailSource (serve (mkResponse StatusBadRequest [] s3NotReadable))
         1234567890 defaultAWSCloudTrailSource testClient)
  = Returns (None,
             Some (errorString
                     "Bad Request. The S3 bucket 'bucketName=my-bucket' is not readable."))
  /\ snd (CreateAWSLogSource (serve (mkResponse StatusBadRequest [] s3NotReadable))
            1234567890 defaultAWSLogSource testClient)
     = Returns (None, Some ErrAwsAuthenticationError).
Proof. split; vm_compute; reflexivity. Qed.

(** The kinds whose Create does name the resource on a 400 that has no
    structured error body. *)
Lemma Create_bad_request_mentions_name (resp : Response)
    (c : Collector) (ct : AWSCloudTrailSource) (ls : AWSLogSource) :
  StatusCode resp = StatusBadRequest ->
  decode_fails (Response_Body resp) ->
  mentions (Collector_Name c) (err2 (CreateHostedCollector_resp c (DoResponse resp)))
  /\ mentions (AWSCloudTrailSource_Name ct)
       (err2 (CreateAWSCloudTrailSource_resp ct (DoResponse resp)))
  /\ mentions (AWSLogSource_Name ls)
       (err2 (CreateAWSLogSource_resp ls (DoResponse resp))).
Proof.
  intros Hs Hf. unfold decode_fails in Hf.
  unfold CreateHostedCollector_resp, CreateAWSCloudTrailSource_resp,
    CreateAWSLogSource_resp. cbv zeta. by_status resp.
  destruct (Unmarshal decode_Error Error_zero (Response_Body resp) (new Error_zero))
    as [o [je|]]; [|exfalso; apply Hf; reflexivity].
  cbn [err2]. unfold Errorf, mentions. split; [|split].
  - exists "Bad Request. Please check if a collector with this name `%!`(string=",
      ") already exists".
    cbn. unfold badVerb. cbn. now rewrite append_assoc.
  - exists "Bad Request. Please check if a source with this name `", "` already exists".
    destruct o; reflexivity.
  - exists "Bad Request. Please check if a source with this name `", "` already exists".
    destruct o; reflexivity.
Qed.

(** C2 (the code departs from it).  On a 400 without a body,
    [CreateHTTPSource], called for a source named [test], returns the error
    [Bad Request. ], which does not have the name in it. *)
Theorem CreateHTTPSource_bad_request_without_name :
  snd (CreateHTTPSource (serve (statusOnly StatusBadRequest))
         1234567890 (set_HTTPSource_Name "test" HTTPSource_zero) testClient)
  = Returns (None, Some (errorString "Bad Request. "))
  /\ Contains "Bad Request. " "test" = false.
Proof. split; vm_compute; reflexivity. Qed.

(** The pointer [json.Unmarshal] was given is nil afterwards only when the
    body is the document [null]. *)
Lemma Unmarshal_Error_nil (b : Body) :
  fst (Unmarshal decode_Error Error_zero b (new Error_zero)) = None ->
  b = Document JNull.
Proof.
  destruct b as [|j]; [discriminate|].
  destruct j; try reflexivity; unfold Unmarshal; cbv iota;
    match goal with
    | |- context [decode_Error ?j ?z] => destruct (decode_Error j z)
    end; discriminate.
Qed.

(** Update on a 400 returns an error, unless the body is the document
    [null] and the source is one of the AWS kinds. *)
Lemma Update_bad_request_returns_error (resp : Response) (c : Collector)
    (hs : HTTPSource) (ct : AWSCloudTrailSource) (ls : AWSLogSource) :
  StatusCode resp = StatusBadRequest ->
  returns_error (err2 (UpdateHostedCollector_resp c (DoResponse resp)))
  /\ returns_error (err2 (UpdateHTTPSource_resp hs (DoResponse resp)))
  /\ (Response_Body resp <> Document JNull ->
      returns_error (err2 (UpdateAWSCloudTrailSource_resp ct (DoResponse resp)))
      /\ returns_error (err2 (UpdateAWSLogSource_resp ls (DoResponse resp)))).
Proof.
  intros Hs.
  unfold UpdateHostedCollector_resp, UpdateHTTPSource_resp,
    UpdateAWSCloudTrailSource_resp, UpdateAWSLogSource_resp, returns_error.
  cbv zeta. by_status resp.
  split; [eexists; reflexivity|]. split; [eexists; reflexivity|].
  intros Hb.
  destruct (fst (Unmarshal decode_Error Error_zero (Response_Body resp) (new Error_zero)))
    as [e'|] eqn:E; [|exfalso; apply Hb, Unmarshal_Error_nil, E].
  destruct (String.eqb _ _ || String.eqb _ _)%bool; split; eexists; reflexivity.
Qed.

(** C6 (the code departs from it).  On a 400 whose body is the JSON
    document [null], Update of an AWS log source and of an AWS CloudTrail
    source returns no error: [json.Unmarshal] has set the pointer to the
    error body to nil, and reading its message panics. *)
Theorem UpdateAWS_null_body_panics :
  snd (UpdateAWSLogSource (serve (mkResponse StatusBadRequest [] (Document JNull)))
         1234567890 defaultAWSLogSource "etag" testClient)
  = Panics
  /\ snd (UpdateAWSCloudTrailSource (serve (mkResponse StatusBadRequest [] (Document JNull)))
            1234567890 defaultAWSCloudTrailSource "etag" testClient)
     = Panics.
Proof. split; vm_compute; reflexivity. Qed.

(** Create of the two AWS kinds reads the message through the same
    pointer: on a 400 whose body is [null] it panics as well. *)
Lemma CreateAWS_null_body_panics :
  snd (CreateAWSLogSource (serve (mkResponse StatusBadRequest [] (Document JNull)))
         1234567890 defaultAWSLogSource testClient)
  = Panics
  /\ snd (CreateAWSCloudTrailSource (serve (mkResponse StatusBadRequest [] (Document JNull)))
            1234567890 defaultAWSCloudTrailSource testClient)
     = Panics.
Proof. split; vm_compute; reflexivity. Qed.

(** The pattern is not anchored and its last dot is any character; the
    text [bucketName=] has to be there. *)
Example MatchString_anywhere :
  MatchString "The S3 bucket 'bucketName=.*' is not readable."
    "400: The S3 bucket 'bucketName=a/b' is not readable! Retry." = true.
Proof. vm_compute. reflexivity. Qed.

Example MatchString_needs_bucketName :
  MatchString "The S3 bucket 'bucketName=.*' is not readable."
    "The S3 bucket 'my-bucket' is not readable." = false.
Proof. vm_compute. reflexivity. Qed.

(** ** More on what the operations make of an answer *)

Ltac all_cases resp :=
  by_status resp;
  repeat (cbn [err2 err3 fst snd new];
          match goal with
          | |- context [Unmarshal ?d ?z ?b ?p] =>
            destruct (Unmarshal d z b p) as [[?r|] [?je|]] eqn:?E
          | |- context [if ?c then _ else _] => destruct c eqn:?C
          end);
  cbn [err2 err3 fst snd new].

Ltac close_error lem :=
  repeat split; intros; try lia;
  first
    [ reflexivity
    | apply lem
    | match goal with
      | H : Returns _ = Returns _ |- _ => unfold Errorf in H; discriminate H
      | H : Panics = Returns _ |- _ => discriminate H
      | |- _ <> _ => let H := fresh in intro H; unfold Errorf in H; discriminate H
      end ].

Lemma CreateHostedCollector_write_status (resp : Response) (collector : Collector) :
  write_status_spec StatusCreated (StatusCode resp)
    (err2 (CreateHostedCollector_resp collector (DoResponse resp))).
Proof.
  unfold write_status_spec, CreateHostedCollector_resp. cbv zeta.
  all_cases resp; close_error mentions_unknown_s.
Qed.

Lemma UpdateHostedCollector_write_status (resp : Response) (collector : Collector) :
  write_status_spec StatusOK (StatusCode resp)
    (err2 (UpdateHostedCollector_resp collector (DoResponse resp))).
Proof.
  unfold write_status_spec, UpdateHostedCollector_resp. cbv zeta.
  all_cases resp; close_error mentions_unknown_s.
Qed.

Lemma GetHostedCollector_success (resp : Response) (x : Collector) (etag : string) :
  GetHostedCollector_resp (DoResponse resp) = Returns (Some x, etag, None)
  <-> StatusCode resp = StatusOK
      /\ Unmarshal decode_CollectorRequest CollectorRequest_zero (Response_Body resp) (new CollectorRequest_zero)
         = (Some (mkCollectorRequest x), None)
      /\ etag = Header_Get (Response_Header resp) "ETag".
Proof.
  unfold GetHostedCollector_resp. cbv zeta. all_cases resp;
    (split; [intros H | intros (Hs & Hu & He)]); try lia;
    try (unfold Errorf in H; discriminate H); try discriminate Hu.
  - injection H as <- <-. destruct r. auto.
  - injection Hu as ->. subst etag. reflexivity.
Qed.

Lemma CreateHostedCollector_success (resp : Response) (collector x : Collector) :
  CreateHostedCollector_resp collector (DoResponse resp) = Returns (Some x, None)
  <-> StatusCode resp = StatusCreated
      /\ Unmarshal decode_CollectorRequest CollectorRequest_zero (Response_Body resp) (new CollectorRequest_zero)
         = (Some (mkCollectorRequest x), None).
Proof.
  unfold CreateHostedCollector_resp. cbv zeta. all_cases resp;
    (split; [intros H | intros (Hs & Hu)]); try lia;
    try (unfold Errorf in H; discriminate H); try discriminate Hu.
  - injection H as <-. destruct r. auto.
  - injection Hu as ->. reflexivity.
Qed.

Lemma UpdateHostedCollector_success (resp : Response) (collector x : Collector) :
  UpdateHostedCollector_resp collector (DoResponse resp) = Returns (Some x, None)
  <-> StatusCode resp = StatusOK
      /\ Unmarshal decode_CollectorRequest CollectorRequest_zero (Response_Body resp) (new CollectorRequest_zero)
         = (Some (mkCollectorRequest x), None).
Proof.
  unfold UpdateHostedCollector_resp. cbv zeta. all_cases resp;
    (split; [intros H | intros (Hs & Hu)]); try lia;
    try (unfold Errorf in H; discriminate H); try discriminate Hu.
  - injection H as <-. destruct r. auto.
  - injection Hu as ->. reflexivity.
Qed.

Lemma GetHostedCollector_decode_error (resp : Response) (p : option CollectorRequest) (je : json_error) :
  StatusCode resp = StatusOK ->
  Unmarshal decode_CollectorRequest CollectorRequest_zero (Response_Body resp) (new CollectorRequest_zero) = (p, Some je) ->
  GetHostedCollector_resp (DoResponse resp) = Returns (None, EmptyString, Some (JsonError je)).
Proof.
  intros Hs E. unfold GetHostedCollector_resp. cbv zeta. by_status resp.
  rewrite E. destruct p; reflexivity.
Qed.

Lemma CreateHostedCollector_decode_error (resp : Response) (collector : Collector) (p : option CollectorRequest)
    (je : json_error) :
  StatusCode resp = StatusCreated ->
  Unmarshal decode_CollectorRequest CollectorRequest_zero (Response_Body resp) (new CollectorRequest_zero) = (p, Some je) ->
  CreateHostedCollector_resp collector (DoResponse resp) = Returns (None, Some (JsonError je)).
Proof.
  intros Hs E. unfold CreateHostedCollector_resp. cbv zeta. by_status resp.
  rewrite E. destruct p; reflexivity.
Qed.

Lemma UpdateHostedCollector_decode_error (resp : Response) (collector : Collector) (p : option CollectorRequest)
    (je : json_error) :
  StatusCode resp = StatusOK ->
  Unmarshal decode_CollectorRequest CollectorRequest_zero (Response_Body resp) (new CollectorRequest_zero) = (p, Some je) ->
  UpdateHostedCollector_resp collector (DoResponse resp) = Returns (None, Some (JsonError je)).
Proof.
  intros Hs E. unfold UpdateHostedCollector_resp. cbv zeta. by_status resp.
  rewrite E. destruct p; reflexivity.
Qed.

Lemma GetHostedCollector_never_aws (resp : Response) :
  err3 (GetHostedCollector_resp (DoResponse resp)) <> Returns (Some ErrAwsAuthenticationError).
Proof.
  unfold GetHostedCollector_resp. cbv zeta. all_cases resp; intro H;
    unfold Errorf in H; discriminate H.
Qed.

Lemma DeleteHostedCollector_never_aws (resp : Response) :
  DeleteHostedCollector_resp (DoResponse resp) <> Returns (Some ErrAwsAuthenticationError).
Proof.
  unfold DeleteHostedCollector_resp. cbv zeta. all_cases resp; intro H;
    unfold Errorf in H; discriminate H.
Qed.

Lemma CreateHostedCollector_never_aws (resp : Response) (collector : Collector) :
  err2 (CreateHostedCollector_resp collector (DoResponse resp)) <> Returns (Some ErrAwsAuthenticationError).
Proof.
  unfold CreateHostedCollector_resp. cbv zeta. all_cases resp; intro H;
    unfold Errorf in H; discriminate H.
Qed.

Lemma UpdateHostedCollector_never_aws (resp : Response) (collector : Collector) :
  err2 (UpdateHostedCollector_resp collector (DoResponse resp)) <> Returns (Some ErrAwsAuthenticationError).
Proof.
  unfold UpdateHostedCollector_resp. cbv zeta. all_cases resp; intro H;
    unfold Errorf in H; discriminate H.
Qed.

Lemma CreateHTTPSource_write_status (resp : Response) (source : HTTPSource) :
  write_status_spec StatusCreated (StatusCode resp)
    (err2 (CreateHTTPSource_resp source (DoResponse resp))).
Proof.
  unfold write_status_spec, CreateHTTPSource_resp. cbv zeta.
  all_cases resp; close_error mentions_unknown_d.
Qed.

Lemma UpdateHTTPSource_write_status (resp : Response) (source : HTTPSource) :
  write_status_spec StatusOK (StatusCode resp)
    (err2 (UpdateHTTPSource_resp source (DoResponse resp))).
Proof.
  unfold write_status_spec, UpdateHTTPSource_resp. cbv zeta.
  all_cases resp; close_error mentions_unknown_d.
Qed.

Lemma GetHTTPSource_success (resp : Response) (x : HTTPSource) (etag : string) :
  GetHTTPSource_resp (DoResponse resp) = Returns (Some x, etag, None)
  <-> StatusCode resp = StatusOK
      /\ Unmarshal decode_HTTPSourceRequest HTTPSourceRequest_zero (Response_Body resp) (new HTTPSourceRequest_zero)
         = (Some (mkHTTPSourceRequest x), None)
      /\ etag = Header_Get (Response_Header resp) "ETag".
Proof.
  unfold GetHTTPSource_resp. cbv zeta. all_cases resp;
    (split; [intros H | intros (Hs & Hu & He)]); try lia;
    try (unfold Errorf in H; discriminate H); try discriminate Hu.
  - injection H as <- <-. destruct r. auto.
  - injection Hu as ->. subst etag. reflexivity.
Qed.

Lemma CreateHTTPSource_success (resp : Response) (source x : HTTPSource) :
  CreateHTTPSource_resp source (DoResponse resp) = Returns (Some x, None)
  <-> StatusCode resp = StatusCreated
      /\ Unmarshal decode_HTTPSourceRequest HTTPSourceRequest_zero (Response_Body resp) (new HTTPSourceRequest_zero)
         = (Some (mkHTTPSourceRequest x), None).
Proof.
  unfold CreateHTTPSource_resp. cbv zeta. all_cases resp;
    (split; [intros H | intros (Hs & Hu)]); try lia;
    try (unfold Errorf in H; discriminate H); try discriminate Hu.
  - injection H as <-. destruct r. auto.
  - injection Hu as ->. reflexivity.
Qed.

Lemma UpdateHTTPSource_success (resp : Response) (source x : HTTPSource) :
  UpdateHTTPSource_resp source (DoResponse resp) = Returns (Some x, None)
  <-> StatusCode resp = StatusOK
      /\ Unmarshal decode_HTTPSourceRequest HTTPSourceRequest_zero (Response_Body resp) (new HTTPSourceRequest_zero)
         = (Some (mkHTTPSourceRequest x), None).
Proof.
  unfold UpdateHTTPSource_resp. cbv zeta. all_cases resp;
    (split; [intros H | intros (Hs & Hu)]); try lia;
    try (unfold Errorf in H; discriminate H); try discriminate Hu.
  - injection H as <-. destruct r. auto.
  - injection Hu as ->. reflexivity.
Qed.

Lemma GetHTTPSource_decode_error (resp : Response) (p : option HTTPSourceRequest) (je : json_error) :
  StatusCode resp = StatusOK ->
  Unmarshal decode_HTTPSourceRequest HTTPSourceRequest_zero (Response_Body resp) (new HTTPSourceRequest_zero) = (p, Some je) ->
  GetHTTPSource_resp (DoResponse resp) = Returns (None, EmptyString, Some (JsonError je)).
Proof.
  intros Hs E. unfold GetHTTPSource_resp. cbv zeta. by_status resp.
  rewrite E. destruct p; reflexivity.
Qed.

Lemma CreateHTTPSource_decode_error (resp : Response) (source : HTTPSource) (p : option HTTPSourceRequest)
    (je : json_error) :
  StatusCode resp = StatusCreated ->
  Unmarshal decode_HTTPSourceRequest HTTPSourceRequest_zero (Response_Body resp) (new HTTPSourceRequest_zero) = (p, Some je) ->
  CreateHTTPSource_resp source (DoResponse resp) = Returns (None, Some (JsonError je)).
Proof.
  intros Hs E. unfold CreateHTTPSource_resp. cbv zeta. by_status resp.
  rewrite E. destruct p; reflexivity.
Qed.

Lemma UpdateHTTPSource_decode_error (resp : Response) (source : HTTPSource) (p : option HTTPSourceRequest)
    (je : json_error) :
  StatusCode resp = StatusOK ->
  Unmarshal decode_HTTPSourceRequest HTTPSourceRequest_zero (Response_Body resp) (new HTTPSourceRequest_zero) = (p, Some je) ->
  UpdateHTTPSource_resp source (DoResponse resp) = Returns (None, Some (JsonError je)).
Proof.
  intros Hs E. unfold UpdateHTTPSource_resp. cbv zeta. by_status resp.
  rewrite E. destruct p; reflexivity.
Qed.

Lemma GetHTTPSource_never_aws (resp : Response) :
  err3 (GetHTTPSource_resp (DoResponse resp)) <> Returns (Some ErrAwsAuthenticationError).
Proof.
  unfold GetHTTPSource_resp. cbv zeta. all_cases resp; intro H;
    unfold Errorf in H; discriminate H.
Qed.

Lemma DeleteHTTPSource_never_aws (resp : Response) :
  DeleteHTTPSource_resp (DoResponse resp) <> Returns (Some ErrAwsAuthenticationError).
Proof.
  unfold DeleteHTTPSource_resp. cbv zeta. all_cases resp; intro H;
    unfold Errorf in H; discriminate H.
Qed.

Lemma CreateHTTPSource_never_aws (resp : Response) (source : HTTPSource) :
  err2 (CreateHTTPSource_resp source (DoResponse resp)) <> Returns (Some ErrAwsAuthenticationError).
Proof.
  unfold CreateHTTPSource_resp. cbv zeta. all_cases resp; intro H;
    unfold Errorf in H; discriminate H.
Qed.

Lemma UpdateHTTPSource_never_aws (resp : Response) (source : HTTPSource) :
  err2 (UpdateHTTPSource_resp source (DoResponse resp)) <> Returns (Some ErrAwsAuthenticationError).
Proof.
  unfold UpdateHTTPSource_resp. cbv zeta. all_cases resp; intro H;
    unfold Errorf in H; discriminate H.
Qed.

Lemma CreateAWSCloudTrailSource_write_status (resp : Response) (source : AWSCloudTrailSource) :
  write_status_spec StatusCreated (StatusCode resp)
    (err2 (CreateAWSCloudTrailSource_resp source (DoResponse resp))).
Proof.
  unfold write_status_spec, CreateAWSCloudTrailSource_resp. cbv zeta.
  all_cases resp; close_error mentions_unknown_d.
Qed.

Lemma UpdateAWSCloudTrailSource_write_status (resp : Response) (source : AWSCloudTrailSource) :
  write_status_spec StatusOK (StatusCode resp)
    (err2 (UpdateAWSCloudTrailSource_resp source (DoResponse resp))).
Proof.
  unfold write_status_spec, UpdateAWSCloudTrailSource_resp. cbv zeta.
  all_cases resp; close_error mentions_unknown_d.
Qed.

Lemma GetAWSCloudTrailSource_success (resp : Response) (x : AWSCloudTrailSource) (etag : string) :
  GetAWSCloudTrailSource_resp (DoResponse resp) = Returns (Some x, etag, None)
  <-> StatusCode resp = StatusOK
      /\ Unmarshal decode_AWSCloudTrailSourceRequest AWSCloudTrailSourceRequest_zero (Response_Body resp) (new AWSCloudTrailSourceRequest_zero)
         = (Some (mkAWSCloudTrailSourceRequest x), None)
      /\ etag = Header_Get (Response_Header resp) "ETag".
Proof.
  unfold GetAWSCloudTrailSource_resp. cbv zeta. all_cases resp;
    (split; [intros H | intros (Hs & Hu & He)]); try lia;
    try (unfold Errorf in H; discriminate H); try discriminate Hu.
  - injection H as <- <-. destruct r. auto.
  - injection Hu as ->. subst etag. reflexivity.
Qed.

Lemma CreateAWSCloudTrailSource_success (resp : Response) (source x : AWSCloudTrailSource) :
  CreateAWSCloudTrailSource_resp source (DoResponse resp) = Returns (Some x, None)
  <-> StatusCode resp = StatusCreated
      /\ Unmarshal decode_AWSCloudTrailSourceRequest AWSCloudTrailSourceRequest_zero (Response_Body resp) (new AWSCloudTrailSourceRequest_zero)
         = (Some (mkAWSCloudTrailSourceRequest x), None).
Proof.
  unfold CreateAWSCloudTrailSource_resp. cbv zeta. all_cases resp;
    (split; [intros H | intros (Hs & Hu)]); try lia;
    try (unfold Errorf in H; discriminate H); try discriminate Hu.
  - injection H as <-. destruct r. auto.
  - injection Hu as ->. reflexivity.
Qed.

Lemma UpdateAWSCloudTrailSource_success (resp : Response) (source x : AWSCloudTrailSource) :
  UpdateAWSCloudTrailSource_resp source (DoResponse resp) = Returns (Some x, None)
  <-> StatusCode resp = StatusOK
      /\ Unmarshal decode_AWSCloudTrailSourceRequest AWSCloudTrailSourceRequest_zero (Response_Body resp) (new AWSCloudTrailSourceRequest_zero)
         = (Some (mkAWSCloudTrailSourceRequest x), None).
Proof.
  unfold UpdateAWSCloudTrailSource_resp. cbv zeta. all_cases resp;
    (split; [intros H | intros (Hs & Hu)]); try lia;
    try (unfold Errorf in H; discriminate H); try discriminate Hu.
  - injection H as <-. destruct r. auto.
  - injection Hu as ->. reflexivity.
Qed.

Lemma GetAWSCloudTrailSource_decode_error (resp : Response) (p : option AWSCloudTrailSourceRequest) (je : json_error) :
  StatusCode resp = StatusOK ->
  Unmarshal decode_AWSCloudTrailSourceRequest AWSCloudTrailSourceRequest_zero (Response_Body resp) (new AWSCloudTrailSourceRequest_zero) = (p, Some je) ->
  GetAWSCloudTrailSource_resp (DoResponse resp) = Returns (None, EmptyString, Some (JsonError je)).
Proof.
  intros Hs E. unfold GetAWSCloudTrailSource_resp. cbv zeta. by_status resp.
  rewrite E. destruct p; reflexivity.
Qed.

Lemma CreateAWSCloudTrailSource_decode_error (resp : Response) (source : AWSCloudTrailSource) (p : option AWSCloudTrailSourceRequest)
    (je : json_error) :
  StatusCode resp = StatusCreated ->
  Unmarshal decode_AWSCloudTrailSourceRequest AWSCloudTrailSourceRequest_zero (Response_Body resp) (new AWSCloudTrailSourceRequest_zero) = (p, Some je) ->
  CreateAWSCloudTrailSource_resp source (DoResponse resp) = Returns (None, Some (JsonError je)).
Proof.
  intros Hs E. unfold CreateAWSCloudTrailSource_resp. cbv zeta. by_status resp.
  rewrite E. destruct p; reflexivity.
Qed.

Lemma UpdateAWSCloudTrailSource_decode_error (resp : Response) (source : AWSCloudTrailSource) (p : option AWSCloudTrailSourceRequest)
    (je : json_error) :
  StatusCode resp = StatusOK ->
  Unmarshal decode_AWSCloudTrailSourceRequest AWSCloudTrailSourceRequest_zero (Response_Body resp) (new AWSCloudTrailSourceRequest_zero) = (p, Some je) ->
  UpdateAWSCloudTrailSource_resp source (DoResponse resp) = Returns (None, Some (JsonError je)).
Proof.
  intros Hs E. unfold UpdateAWSCloudTrailSource_resp. cbv zeta. by_status resp.
  rewrite E. destruct p; reflexivity.
Qed.

Lemma GetAWSCloudTrailSource_never_aws (resp : Response) :
  err3 (GetAWSCloudTrailSource_resp (DoResponse resp)) <> Returns (Some ErrAwsAuthenticationError).
Proof.
  unfold GetAWSCloudTrailSource_resp. cbv zeta. all_cases resp; intro H;
    unfold Errorf in H; discriminate H.
Qed.

Lemma DeleteAWSCloudTrailSource_never_aws (resp : Response) :
  DeleteAWSCloudTrailSource_resp (DoResponse resp) <> Returns (Some ErrAwsAuthenticationError).
Proof.
  unfold DeleteAWSCloudTrailSource_resp. cbv zeta. all_cases resp; intro H;
    unfold Errorf in H; discriminate H.
Qed.

Lemma CreateAWSLogSource_write_status (resp : Response) (source : AWSLogSource) :
  write_status_spec StatusCreated (StatusCode resp)
    (err2 (CreateAWSLogSource_resp source (DoResponse resp))).
Proof.
  unfold write_status_spec, CreateAWSLogSource_resp. cbv zeta.
  all_cases resp; close_error mentions_unknown_d.
Qed.

Lemma UpdateAWSLogSource_write_status (resp : Response) (source : AWSLogSource) :
  write_status_spec StatusOK (StatusCode resp)
    (err2 (UpdateAWSLogSource_resp source (DoResponse resp))).
Proof.
  unfold write_status_spec, UpdateAWSLogSource_resp. cbv zeta.
  all_cases resp; close_error mentions_unknown_d.
Qed.

Lemma GetAWSLogSource_success (resp : Response) (x : AWSLogSource) (etag : string) :
  GetAWSLogSource_resp (DoResponse resp) = Returns (Some x, etag, None)
  <-> StatusCode resp = StatusOK
      /\ Unmarshal decode_AWSLogSourceRequest AWSLogSourceRequest_zero (Response_Body resp) (new AWSLogSourceRequest_zero)
         = (Some (mkAWSLogSourceRequest x), None)
      /\ etag = Header_Get (Response_Header resp) "ETag".
Proof.
  unfold GetAWSLogSource_resp. cbv zeta. all_cases resp;
    (split; [intros H | intros (Hs & Hu & He)]); try lia;
    try (unfold Errorf in H; discriminate H); try discriminate Hu.
  - injection H as <- <-. destruct r. auto.
  - injection Hu as ->. subst etag. reflexivity.
Qed.

Lemma CreateAWSLogSource_success (resp : Response) (source x : AWSLogSource) :
  CreateAWSLogSource_resp source (DoResponse resp) = Returns (Some x, None)
  <-> StatusCode resp = StatusCreated
      /\ Unmarshal decode_AWSLogSourceRequest AWSLogSourceRequest_zero (Response_Body resp) (new AWSLogSourceRequest_zero)
         = (Some (mkAWSLogSourceRequest x), None).
Proof.
  unfold CreateAWSLogSource_resp. cbv zeta. all_cases resp;
    (split; [intros H | intros (Hs & Hu)]); try lia;
    try (unfold Errorf in H; discriminate H); try discriminate Hu.
  - injection H as <-. destruct r. auto.
  - injection Hu as ->. reflexivity.
Qed.

Lemma UpdateAWSLogSource_success (resp : Response) (source x : AWSLogSource) :
  UpdateAWSLogSource_resp source (DoResponse resp) = Returns (Some x, None)
  <-> StatusCode resp = StatusOK
      /\ Unmarshal decode_AWSLogSourceRequest AWSLogSourceRequest_zero (Response_Body resp) (new AWSLogSourceRequest_zero)
         = (Some (mkAWSLogSourceRequest x), None).
Proof.
  unfold UpdateAWSLogSource_resp. cbv zeta. all_cases resp;
    (split; [intros H | intros (Hs & Hu)]); try lia;
    try (unfold Errorf in H; discriminate H); try discriminate Hu.
  - injection H as <-. destruct r. auto.
  - injection Hu as ->. reflexivity.
Qed.

Lemma GetAWSLogSource_decode_error (resp : Response) (p : option AWSLogSourceRequest) (je : json_error) :
  StatusCode resp = StatusOK ->
  Unmarshal decode_AWSLogSourceRequest AWSLogSourceRequest_zero (Response_Body resp) (new AWSLogSourceRequest_zero) = (p, Some je) ->
  GetAWSLogSource_resp (DoResponse resp) = Returns (None, EmptyString, Some (JsonError je)).
Proof.
  intros Hs E. unfold GetAWSLogSource_resp. cbv zeta. by_status resp.
  rewrite E. destruct p; reflexivity.
Qed.

Lemma CreateAWSLogSource_decode_error (resp : Response) (source : AWSLogSource) (p : option AWSLogSourceRequest)
    (je : json_error) :
  StatusCode resp = StatusCreated ->
  Unmarshal decode_AWSLogSourceRequest AWSLogSourceRequest_zero (Response_Body resp) (new AWSLogSourceRequest_zero) = (p, Some je) ->
  CreateAWSLogSource_resp source (DoResponse resp) = Returns (None, Some (JsonError je)).
Proof.
  intros Hs E. unfold CreateAWSLogSource_resp. cbv zeta. by_status resp.
  rewrite E. destruct p; reflexivity.
Qed.

Lemma UpdateAWSLogSource_decode_error (resp : Response) (source : AWSLogSource) (p : option AWSLogSourceRequest)
    (je : json_error) :
  StatusCode resp = StatusOK ->
  Unmarshal decode_AWSLogSourceRequest AWSLogSourceRequest_zero (Response_Body resp) (new AWSLogSourceRequest_zero) = (p, Some je) ->
  UpdateAWSLogSource_resp source (DoResponse resp) = Returns (None, Some (JsonError je)).
Proof.
  intros Hs E. unfold UpdateAWSLogSource_resp. cbv zeta. by_status resp.
  rewrite E. destruct p; reflexivity.
Qed.

Lemma GetAWSLogSource_never_aws (resp : Response) :
  err3 (GetAWSLogSource_resp (DoResponse resp)) <> Returns (Some ErrAwsAuthenticationError).
Proof.
  unfold GetAWSLogSource_resp. cbv zeta. all_cases resp; intro H;
    unfold Errorf in H; discriminate H.
Qed.

Lemma DeleteAWSLogSource_never_aws (resp : Response) :
  DeleteAWSLogSource_resp (DoResponse resp) <> Returns (Some ErrAwsAuthenticationError).
Proof.
  unfold DeleteAWSLogSource_resp. cbv zeta. all_cases resp; intro H;
    unfold Errorf in H; discriminate H.
Qed.

(** ** When [ErrAwsAuthenticationError] comes out *)

Lemma awsFixedMessage_eqb (msg : string) :
  (String.eqb msg "Cannot authenticate with AWS."
   || String.eqb msg "Invalid IAM role: 'errorCode=AccessDenied'.")%bool = true
  <-> awsFixedMessage msg.
Proof.
  unfold awsFixedMessage. rewrite Bool.orb_true_iff, !String.eqb_eq. reflexivity.
Qed.

Ltac absurd_return :=
  let H := fresh in intro H; cbn [err2] in H; unfold Errorf in H; discriminate H.

Ltac not_bad_request :=
  split; [| intros (? & _); lia];
  repeat match goal with
         | |- context [Unmarshal ?d ?z ?b ?p] =>
           destruct (Unmarshal d z b p) as [[?r|] [?je|]]
         end;
  absurd_return.

Lemma CreateAWSLogSource_aws_iff (resp : Response) (source : AWSLogSource) :
  err2 (CreateAWSLogSource_resp source (DoResponse resp))
  = Returns (Some ErrAwsAuthenticationError)
  <-> StatusCode resp = StatusBadRequest
      /\ exists e,
          Unmarshal decode_Error Error_zero (Response_Body resp) (new Error_zero)
          = (Some e, None)
          /\ (awsFixedMessage (Error_Message e)
              \/ MatchString "The S3 bucket 'bucketName=.*' is not readable."
                   (Error_Message e) = true).
Proof.
  unfold CreateAWSLogSource_resp. cbv zeta. by_status resp; try not_bad_request.
  destruct (Unmarshal decode_Error Error_zero (Response_Body resp) (new Error_zero))
    as [[e'|] [je|]]; cbn [err2].
  - split; [absurd_return
           | intros (_ & x & Hx & _); discriminate Hx].
  - destruct (String.eqb _ _ || String.eqb _ _)%bool eqn:C1.
    + split; [intros _ | reflexivity]. split; [assumption|].
      exists e'. split; [reflexivity | left; apply awsFixedMessage_eqb, C1].
    + destruct (MatchString _ _) eqn:C2.
      * split; [intros _ | reflexivity]. split; [assumption|].
        exists e'. split; [reflexivity | right; exact C2].
      * split; [absurd_return|].
        intros (_ & x & Hx & [Hm | Hm]); injection Hx as <-.
        -- apply awsFixedMessage_eqb in Hm. rewrite Hm in C1. discriminate C1.
        -- rewrite Hm in C2. discriminate C2.
  - split; [absurd_return
           | intros (_ & x & Hx & _); discriminate Hx].
  - split; [absurd_return | intros (_ & x & Hx & _); discriminate Hx].
Qed.

Lemma CreateAWSCloudTrailSource_aws_iff (resp : Response) (source : AWSCloudTrailSource) :
  err2 (CreateAWSCloudTrailSource_resp source (DoResponse resp))
  = Returns (Some ErrAwsAuthenticationError)
  <-> StatusCode resp = StatusBadRequest
      /\ exists e,
          Unmarshal decode_Error Error_zero (Response_Body resp) (new Error_zero)
          = (Some e, None)
          /\ awsFixedMessage (Error_Message e).
Proof.
  unfold CreateAWSCloudTrailSource_resp. cbv zeta. by_status resp; try not_bad_request.
  destruct (Unmarshal decode_Error Error_zero (Response_Body resp) (new Error_zero))
    as [[e'|] [je|]]; cbn [err2].
  - split; [absurd_return
           | intros (_ & x & Hx & _); discriminate Hx].
  - destruct (String.eqb _ _ || String.eqb _ _)%bool eqn:C1.
    + split; [intros _ | reflexivity]. split; [assumption|].
      exists e'. split; [reflexivity | apply awsFixedMessage_eqb, C1].
    + split; [absurd_return|].
      intros (_ & x & Hx & Hm); injection Hx as <-.
      apply awsFixedMessage_eqb in Hm. rewrite Hm in C1. discriminate C1.
  - split; [absurd_return
           | intros (_ & x & Hx & _); discriminate Hx].
  - split; [absurd_return | intros (_ & x & Hx & _); discriminate Hx].
Qed.

Lemma UpdateAWSLogSource_aws_iff (resp : Response) (source : AWSLogSource) :
  err2 (UpdateAWSLogSource_resp source (DoResponse resp))
  = Returns (Some ErrAwsAuthenticationError)
  <-> StatusCode resp = StatusBadRequest
      /\ exists e,
          fst (Unmarshal decode_Error Error_zero (Response_Body resp) (new Error_zero))
          = Some e
          /\ awsFixedMessage (Error_Message e).
Proof.
  unfold UpdateAWSLogSource_resp. cbv zeta. by_status resp; try not_bad_request.
  destruct (Unmarshal decode_Error Error_zero (Response_Body resp) (new Error_zero))
    as [[e'|] je]; cbn [fst err2].
  - destruct (String.eqb _ _ || String.eqb _ _)%bool eqn:C1.
    + split; [intros _ | reflexivity]. split; [assumption|].
      exists e'. split; [reflexivity | apply awsFixedMessage_eqb, C1].
    + split; [absurd_return|].
      intros (_ & x & Hx & Hm); injection Hx as <-.
      apply awsFixedMessage_eqb in Hm. rewrite Hm in C1. discriminate C1.
  - split; [absurd_return | intros (_ & x & Hx & _); discriminate Hx].
Qed.

Lemma UpdateAWSCloudTrailSource_aws_iff (resp : Response) (source : AWSCloudTrailSource) :
  err2 (UpdateAWSCloudTrailSource_resp source (DoResponse resp))
  = Returns (Some ErrAwsAuthenticationError)
  <-> StatusCode resp = StatusBadRequest
      /\ exists e,
          fst (Unmarshal decode_Error Error_zero (Response_Body resp) (new Error_zero))
          = Some e
          /\ awsFixedMessage (Error_Message e).
Proof.
  unfold UpdateAWSCloudTrailSource_resp. cbv zeta. by_status resp; try not_bad_request.
  destruct (Unmarshal decode_Error Error_zero (Response_Body resp) (new Error_zero))
    as [[e'|] je]; cbn [fst err2].
  - destruct (String.eqb _ _ || String.eqb _ _)%bool eqn:C1.
    + split; [intros _ | reflexivity]. split; [assumption|].
      exists e'. split; [reflexivity | apply awsFixedMessage_eqb, C1].
    + split; [absurd_return|].
      intros (_ & x & Hx & Hm); injection Hx as <-.
      apply awsFixedMessage_eqb in Hm. rewrite Hm in C1. discriminate C1.
  - split; [absurd_return | intros (_ & x & Hx & _); discriminate Hx].
Qed.

(** ** The operations, answer by answer *)

(** X1.  When the transport fails, every operation returns the error of the
    transport as it is, with a nil resource and, for Get, an empty etag. *)
Theorem transport_error_is_returned (msg : string) (s : Client) (collectorID id : Z)
    (etag : string) (c : Collector) (hs : HTTPSource) (ct : AWSCloudTrailSource)
    (ls : AWSLogSource) :
  (snd (GetHostedCollector (refuse msg) id s)
     = Returns (None, EmptyString, Some (TransportError msg))
   /\ snd (CreateHostedCollector (refuse msg) c s) = Returns (None, Some (TransportError msg))
   /\ snd (UpdateHostedCollector (refuse msg) c etag s)
      = Returns (None, Some (TransportError msg))
   /\ snd (DeleteHostedCollector (refuse msg) id s) = Returns (Some (TransportError msg)))
  /\ (snd (GetHTTPSource (refuse msg) collectorID id s)
     = Returns (None, EmptyString, Some (TransportError msg))
   /\ snd (CreateHTTPSource (refuse msg) collectorID hs s) = Returns (None, Some (TransportError msg))
   /\ snd (UpdateHTTPSource (refuse msg) collectorID hs etag s)
      = Returns (None, Some (TransportError msg))
   /\ snd (DeleteHTTPSource (refuse msg) collectorID id s) = Returns (Some (TransportError msg)))
  /\ (snd (GetAWSCloudTrailSource (refuse msg) collectorID id s)
     = Returns (None, EmptyString, Some (TransportError msg))
   /\ snd (CreateAWSCloudTrailSource (refuse msg) collectorID ct s) = Returns (None, Some (TransportError msg))
   /\ snd (UpdateAWSCloudTrailSource (refuse msg) collectorID ct etag s)
      = Returns (None, Some (TransportError msg))
   /\ snd (DeleteAWSCloudTrailSource (refuse msg) collectorID id s) = Returns (Some (TransportError msg)))
  /\ (snd (GetAWSLogSource (refuse msg) collectorID id s)
     = Returns (None, EmptyString, Some (TransportError msg))
   /\ snd (CreateAWSLogSource (refuse msg) collectorID ls s) = Returns (None, Some (TransportError msg))
   /\ snd (UpdateAWSLogSource (refuse msg) collectorID ls etag s)
      = Returns (None, Some (TransportError msg))
   /\ snd (DeleteAWSLogSource (refuse msg) collectorID id s) = Returns (Some (TransportError msg))).
Proof. repeat split. Qed.

(** X2.  Create and Update, when the server answers: the error is
    [ErrClientAuthenticationError] exactly on 401; on a status other than
    the one taken for success (201 for Create, 200 for Update), 401 and 400
    it is an unknown-response error with the status code in it, so a 200
    answer to Create and a 404 or a 409 answer to Update are such errors;
    neither [ErrCollectorNotFound] nor [ErrSourceNotFound] is ever
    returned. *)
Theorem Create_Update_status_errors (resp : Response) (s : Client) (collectorID : Z)
    (etag : string) (c : Collector) (hs : HTTPSource) (ct : AWSCloudTrailSource)
    (ls : AWSLogSource) :
  write_status_spec StatusCreated (StatusCode resp)
      (err2 (snd (CreateHostedCollector (serve resp) c s)))
  /\ write_status_spec StatusOK (StatusCode resp)
      (err2 (snd (UpdateHostedCollector (serve resp) c etag s)))
  /\ write_status_spec StatusCreated (StatusCode resp)
      (err2 (snd (CreateHTTPSource (serve resp) collectorID hs s)))
  /\ write_status_spec StatusOK (StatusCode resp)
      (err2 (snd (UpdateHTTPSource (serve resp) collectorID hs etag s)))
  /\ write_status_spec StatusCreated (StatusCode resp)
      (err2 (snd (CreateAWSCloudTrailSource (serve resp) collectorID ct s)))
  /\ write_status_spec StatusOK (StatusCode resp)
      (err2 (snd (UpdateAWSCloudTrailSource (serve resp) collectorID ct etag s)))
  /\ write_status_spec StatusCreated (StatusCode resp)
      (err2 (snd (CreateAWSLogSource (serve resp) collectorID ls s)))
  /\ write_status_spec StatusOK (StatusCode resp)
      (err2 (snd (UpdateAWSLogSource (serve resp) collectorID ls etag s))).
Proof.
  rewrite CreateHostedCollector_run, UpdateHostedCollector_run, CreateHTTPSource_run, UpdateHTTPSource_run,
    CreateAWSCloudTrailSource_run, UpdateAWSCloudTrailSource_run, CreateAWSLogSource_run, UpdateAWSLogSource_run.
  cbn [snd]. unfold serve.
  split; [apply CreateHostedCollector_write_status|].
  split; [apply UpdateHostedCollector_write_status|].
  split; [apply CreateHTTPSource_write_status|].
  split; [apply UpdateHTTPSource_write_status|].
  split; [apply CreateAWSCloudTrailSource_write_status|].
  split; [apply UpdateAWSCloudTrailSource_write_status|].
  split; [apply CreateAWSLogSource_write_status|].
  apply UpdateAWSLogSource_write_status.
Qed.

Lemma Create_Update_status_errors_witness :
  mentions (itoa 404)
    (err2 (snd (UpdateHTTPSource (serve (statusOnly 404)) 7 defaultHTTPSource "etag" testClient)))
  /\ mentions (itoa 200)
       (err2 (snd (CreateAWSLogSource (serve (statusOnly 200)) 7 defaultAWSLogSource testClient))).
Proof.
  destruct (Create_Update_status_errors (statusOnly 404) testClient 7 "etag"
              defaultCollector defaultHTTPSource defaultAWSCloudTrailSource
              defaultAWSLogSource)
    as (_ & _ & _ & (_ & Hu & _) & _).
  destruct (Create_Update_status_errors (statusOnly 200) testClient 7 "etag"
              defaultCollector defaultHTTPSource defaultAWSCloudTrailSource
              defaultAWSLogSource)
    as (_ & _ & _ & _ & _ & _ & (_ & Hc & _) & _).
  split; [apply Hu | apply Hc]; intro H; discriminate H.
Defined.

(** X3.  Success, exactly: Get returns a resource, an etag and no error if
    and only if the status is 200, the body decodes without error to the
    envelope of that resource, and the etag is the [ETag] header of the
    answer.  Create does so if and only if the status is 201, and Update if
    and only if it is 200, and the body decodes to the envelope of the
    resource returned; the resource the caller passed plays no part. *)
Theorem success_exactly (resp : Response) (s : Client) (collectorID id : Z)
    (etag etag' : string) (c c' : Collector) (hs hs' : HTTPSource)
    (ct ct' : AWSCloudTrailSource) (ls ls' : AWSLogSource) :
  (snd (GetHostedCollector (serve resp) id s) = Returns (Some c, etag, None)
   <-> StatusCode resp = StatusOK
       /\ decodes_to decode_CollectorRequest CollectorRequest_zero (Response_Body resp) (mkCollectorRequest c)
       /\ etag = Header_Get (Response_Header resp) "ETag")
  /\ (snd (CreateHostedCollector (serve resp) c' s) = Returns (Some c, None)
      <-> StatusCode resp = StatusCreated
          /\ decodes_to decode_CollectorRequest CollectorRequest_zero (Response_Body resp) (mkCollectorRequest c))
  /\ (snd (UpdateHostedCollector (serve resp) c' etag' s) = Returns (Some c, None)
      <-> StatusCode resp = StatusOK
          /\ decodes_to decode_CollectorRequest CollectorRequest_zero (Response_Body resp) (mkCollectorRequest c))
  /\ (snd (GetHTTPSource (serve resp) collectorID id s) = Returns (Some hs, etag, None)
   <-> StatusCode resp = StatusOK
       /\ decodes_to decode_HTTPSourceRequest HTTPSourceRequest_zero (Response_Body resp) (mkHTTPSourceRequest hs)
       /\ etag = Header_Get (Response_Header resp) "ETag")
  /\ (snd (CreateHTTPSource (serve resp) collectorID hs' s) = Returns (Some hs, None)
      <-> StatusCode resp = StatusCreated
          /\ decodes_to decode_HTTPSourceRequest HTTPSourceRequest_zero (Response_Body resp) (mkHTTPSourceRequest hs))
  /\ (snd (UpdateHTTPSource (serve resp) collectorID hs' etag' s) = Returns (Some hs, None)
      <-> StatusCode resp = StatusOK
          /\ decodes_to decode_HTTPSourceRequest HTTPSourceRequest_zero (Response_Body resp) (mkHTTPSourceRequest hs))
  /\ (snd (GetAWSCloudTrailSource (serve resp) collectorID id s) = Returns (Some ct, etag, None)
   <-> StatusCode resp = StatusOK
       /\ decodes_to decode_AWSCloudTrailSourceRequest AWSCloudTrailSourceRequest_zero (Response_Body resp) (mkAWSCloudTrailSourceRequest ct)
       /\ etag = Header_Get (Response_Header resp) "ETag")
  /\ (snd (CreateAWSCloudTrailSource (serve resp) collectorID ct' s) = Returns (Some ct, None)
      <-> StatusCode resp = StatusCreated
          /\ decodes_to decode_AWSCloudTrailSourceRequest AWSCloudTrailSourceRequest_zero (Response_Body resp) (mkAWSCloudTrailSourceRequest ct))
  /\ (snd (UpdateAWSCloudTrailSource (serve resp) collectorID ct' etag' s) = Returns (Some ct, None)
      <-> StatusCode resp = StatusOK
          /\ decodes_to decode_AWSCloudTrailSourceRequest AWSCloudTrailSourceRequest_zero (Response_Body resp) (mkAWSCloudTrailSourceRequest ct))
  /\ (snd (GetAWSLogSource (serve resp) collectorID id s) = Returns (Some ls, etag, None)
   <-> StatusCode resp = StatusOK
       /\ decodes_to decode_AWSLogSourceRequest AWSLogSourceRequest_zero (Response_Body resp) (mkAWSLogSourceRequest ls)
       /\ etag = Header_Get (Response_Header resp) "ETag")
  /\ (snd (CreateAWSLogSource (serve resp) collectorID ls' s) = Returns (Some ls, None)
      <-> StatusCode resp = StatusCreated
          /\ decodes_to decode_AWSLogSourceRequest AWSLogSourceRequest_zero (Response_Body resp) (mkAWSLogSourceRequest ls))
  /\ (snd (UpdateAWSLogSource (serve resp) collectorID ls' etag' s) = Returns (Some ls, None)
      <-> StatusCode resp = StatusOK
          /\ decodes_to decode_AWSLogSourceRequest AWSLogSourceRequest_zero (Response_Body resp) (mkAWSLogSourceRequest ls)).
Proof.
  rewrite GetHostedCollector_run, CreateHostedCollector_run, UpdateHostedCollector_run, GetHTTPSource_run, CreateHTTPSource_run, UpdateHTTPSource_run,
    GetAWSCloudTrailSource_run, CreateAWSCloudTrailSource_run, UpdateAWSCloudTrailSource_run, GetAWSLogSource_run, CreateAWSLogSource_run, UpdateAWSLogSource_run.
  cbn [snd]. unfold serve, decodes_to.
  split; [apply GetHostedCollector_success|].
  split; [apply CreateHostedCollector_success|].
  split; [apply UpdateHostedCollector_success|].
  split; [apply GetHTTPSource_success|].
  split; [apply CreateHTTPSource_success|].
  split; [apply UpdateHTTPSource_success|].
  split; [apply GetAWSCloudTrailSource_success|].
  split; [apply CreateAWSCloudTrailSource_success|].
  split; [apply UpdateAWSCloudTrailSource_success|].
  split; [apply GetAWSLogSource_success|].
  split; [apply CreateAWSLogSource_success|].
  apply UpdateAWSLogSource_success.
Qed.

Lemma success_exactly_witness :
  snd (GetHTTPSource
         (serve (okResponse [("Etag", ["v7"])]
            (encode_HTTPSourceRequest (mkHTTPSourceRequest sampleHTTPSource))))
         1234567890 1234567890 testClient)
  = Returns (Some sampleHTTPSource, "v7", None).
Proof.
  destruct (success_exactly
              (okResponse [("Etag", ["v7"])]
                 (encode_HTTPSourceRequest (mkHTTPSourceRequest sampleHTTPSource)))
              testClient 1234567890 1234567890 "v7" "etag"
              sampleCollector sampleCollector sampleHTTPSource sampleHTTPSource
              sampleAWSCloudTrailSource sampleAWSCloudTrailSource
              sampleAWSLogSource sampleAWSLogSource)
    as (_ & _ & _ & Hg & _).
  apply Hg. split; [reflexivity|]. split; [vm_compute; reflexivity | reflexivity].
Defined.

(** X4.  A success status whose body does not decode: Get (on 200),
    Create (on 201) and Update (on 200) return a nil resource and the error
    [json.Unmarshal] reported, and Get returns the empty etag whatever the
    [ETag] header of the answer is. *)
Theorem decode_error_is_returned (h : Header) (b : Body) (s : Client)
    (collectorID id : Z) (etag : string) (c : Collector) (hs : HTTPSource)
    (ct : AWSCloudTrailSource) (ls : AWSLogSource) :
  (forall je, decode_error decode_CollectorRequest CollectorRequest_zero b je ->
      snd (GetHostedCollector (serve (mkResponse StatusOK h b)) id s)
      = Returns (None, EmptyString, Some (JsonError je))
      /\ snd (CreateHostedCollector (serve (mkResponse StatusCreated h b)) c s)
         = Returns (None, Some (JsonError je))
      /\ snd (UpdateHostedCollector (serve (mkResponse StatusOK h b)) c etag s)
         = Returns (None, Some (JsonError je)))
  /\ (forall je, decode_error decode_HTTPSourceRequest HTTPSourceRequest_zero b je ->
      snd (GetHTTPSource (serve (mkResponse StatusOK h b)) collectorID id s)
      = Returns (None, EmptyString, Some (JsonError je))
      /\ snd (CreateHTTPSource (serve (mkResponse StatusCreated h b)) collectorID hs s)
         = Returns (None, Some (JsonError je))
      /\ snd (UpdateHTTPSource (serve (mkResponse StatusOK h b)) collectorID hs etag s)
         = Returns (None, Some (JsonError je)))
  /\ (forall je, decode_error decode_AWSCloudTrailSourceRequest AWSCloudTrailSourceRequest_zero b je ->
      snd (GetAWSCloudTrailSource (serve (mkResponse StatusOK h b)) collectorID id s)
      = Returns (None, EmptyString, Some (JsonError je))
      /\ snd (CreateAWSCloudTrailSource (serve (mkResponse StatusCreated h b)) collectorID ct s)
         = Returns (None, Some (JsonError je))
      /\ snd (UpdateAWSCloudTrailSource (serve (mkResponse StatusOK h b)) collectorID ct etag s)
         = Returns (None, Some (JsonError je)))
  /\ (forall je, decode_error decode_AWSLogSourceRequest AWSLogSourceRequest_zero b je ->
      snd (GetAWSLogSource (serve (mkResponse StatusOK h b)) collectorID id s)
      = Returns (None, EmptyString, Some (JsonError je))
      /\ snd (CreateAWSLogSource (serve (mkResponse StatusCreated h b)) collectorID ls s)
         = Returns (None, Some (JsonError je))
      /\ snd (UpdateAWSLogSource (serve (mkResponse StatusOK h b)) collectorID ls etag s)
         = Returns (None, Some (JsonError je))).
Proof.
  split; [intros je Hd; unfold decode_error in Hd;
    destruct (Unmarshal decode_CollectorRequest CollectorRequest_zero b (new CollectorRequest_zero)) as [p o] eqn:E;
    cbn [snd] in Hd; subst o;
    rewrite GetHostedCollector_run, CreateHostedCollector_run, UpdateHostedCollector_run; cbn [snd]; unfold serve;
    (split; [|split]);
    [ apply (GetHostedCollector_decode_error _ p) | apply (CreateHostedCollector_decode_error _ _ p)
    | apply (UpdateHostedCollector_decode_error _ _ p) ]; (reflexivity || exact E)|].
  split; [intros je Hd; unfold decode_error in Hd;
    destruct (Unmarshal decode_HTTPSourceRequest HTTPSourceRequest_zero b (new HTTPSourceRequest_zero)) as [p o] eqn:E;
    cbn [snd] in Hd; subst o;
    rewrite GetHTTPSource_run, CreateHTTPSource_run, UpdateHTTPSource_run; cbn [snd]; unfold serve;
    (split; [|split]);
    [ apply (GetHTTPSource_decode_error _ p) | apply (CreateHTTPSource_decode_error _ _ p)
    | apply (UpdateHTTPSource_decode_error _ _ p) ]; (reflexivity || exact E)|].
  split; [intros je Hd; unfold decode_error in Hd;
    destruct (Unmarshal decode_AWSCloudTrailSourceRequest AWSCloudTrailSourceRequest_zero b (new AWSCloudTrailSourceRequest_zero)) as [p o] eqn:E;
    cbn [snd] in Hd; subst o;
    rewrite GetAWSCloudTrailSource_run, CreateAWSCloudTrailSource_run, UpdateAWSCloudTrailSource_run; cbn [snd]; unfold serve;
    (split; [|split]);
    [ apply (GetAWSCloudTrailSource_decode_error _ p) | apply (CreateAWSCloudTrailSource_decode_error _ _ p)
    | apply (UpdateAWSCloudTrailSource_decode_error _ _ p) ]; (reflexivity || exact E)|].
  intros je Hd; unfold decode_error in Hd;
    destruct (Unmarshal decode_AWSLogSourceRequest AWSLogSourceRequest_zero b (new AWSLogSourceRequest_zero)) as [p o] eqn:E;
    cbn [snd] in Hd; subst o;
    rewrite GetAWSLogSource_run, CreateAWSLogSource_run, UpdateAWSLogSource_run; cbn [snd]; unfold serve;
    (split; [|split]);
    [ apply (GetAWSLogSource_decode_error _ p) | apply (CreateAWSLogSource_decode_error _ _ p)
    | apply (UpdateAWSLogSource_decode_error _ _ p) ]; (reflexivity || exact E).
Qed.

Lemma decode_error_is_returned_witness :
  snd (GetHTTPSource (serve (mkResponse StatusOK [("Etag", ["v7"])] Malformed))
         7 8 testClient)
  = Returns (None, EmptyString, Some (JsonError SyntaxError)).
Proof.
  destruct (decode_error_is_returned [("Etag", ["v7"])] Malformed testClient 7 8 "etag"
              defaultCollector defaultHTTPSource defaultAWSCloudTrailSource
              defaultAWSLogSource)
    as (_ & Hh & _).
  exact (proj1 (Hh SyntaxError eq_refl)).
Defined.

(** X5.  A success status whose body is the JSON document [null]: Get,
    Create and Update of every kind panic.  [json.Unmarshal] sets the pointer
    to the envelope to nil and reports no error, and the address of the
    resource is then taken through it. *)
Theorem success_null_body_panics (h : Header) (s : Client) (collectorID id : Z)
    (etag : string) (c : Collector) (hs : HTTPSource) (ct : AWSCloudTrailSource)
    (ls : AWSLogSource) :
  (snd (GetHostedCollector (serve (mkResponse StatusOK h (Document JNull))) id s) = Panics
   /\ snd (CreateHostedCollector (serve (mkResponse StatusCreated h (Document JNull))) c s)
      = Panics
   /\ snd (UpdateHostedCollector (serve (mkResponse StatusOK h (Document JNull))) c etag s)
      = Panics)
  /\ (snd (GetHTTPSource (serve (mkResponse StatusOK h (Document JNull))) collectorID id s) = Panics
   /\ snd (CreateHTTPSource (serve (mkResponse StatusCreated h (Document JNull))) collectorID hs s)
      = Panics
   /\ snd (UpdateHTTPSource (serve (mkResponse StatusOK h (Document JNull))) collectorID hs etag s)
      = Panics)
  /\ (snd (GetAWSCloudTrailSource (serve (mkResponse StatusOK h (Document JNull))) collectorID id s) = Panics
   /\ snd (CreateAWSCloudTrailSource (serve (mkResponse StatusCreated h (Document JNull))) collectorID ct s)
      = Panics
   /\ snd (UpdateAWSCloudTrailSource (serve (mkResponse StatusOK h (Document JNull))) collectorID ct etag s)
      = Panics)
  /\ (snd (GetAWSLogSource (serve (mkResponse StatusOK h (Document JNull))) collectorID id s) = Panics
   /\ snd (CreateAWSLogSource (serve (mkResponse StatusCreated h (Document JNull))) collectorID ls s)
      = Panics
   /\ snd (UpdateAWSLogSource (serve (mkResponse StatusOK h (Document JNull))) collectorID ls etag s)
      = Panics).
Proof. repeat split. Qed.

(** X6.  [ErrAwsAuthenticationError] comes from Create and Update of the
    two AWS kinds only: no Get, no Delete and no operation on a collector or
    on an HTTP source returns it, whatever the answer. *)
Theorem aws_error_only_from_aws_writes (resp : Response) (s : Client)
    (collectorID id : Z) (etag : string) (c : Collector) (hs : HTTPSource) :
  err3 (snd (GetHostedCollector (serve resp) id s)) <> Returns (Some ErrAwsAuthenticationError)
  /\ snd (DeleteHostedCollector (serve resp) id s) <> Returns (Some ErrAwsAuthenticationError)
  /\ err2 (snd (CreateHostedCollector (serve resp) c s))
     <> Returns (Some ErrAwsAuthenticationError)
  /\ err2 (snd (UpdateHostedCollector (serve resp) c etag s))
     <> Returns (Some ErrAwsAuthenticationError)
  /\ err3 (snd (GetHTTPSource (serve resp) collectorID id s)) <> Returns (Some ErrAwsAuthenticationError)
  /\ snd (DeleteHTTPSource (serve resp) collectorID id s) <> Returns (Some ErrAwsAuthenticationError)
  /\ err2 (snd (CreateHTTPSource (serve resp) collectorID hs s))
     <> Returns (Some ErrAwsAuthenticationError)
  /\ err2 (snd (UpdateHTTPSource (serve resp) collectorID hs etag s))
     <> Returns (Some ErrAwsAuthenticationError)
  /\ err3 (snd (GetAWSCloudTrailSource (serve resp) collectorID id s)) <> Returns (Some ErrAwsAuthenticationError)
  /\ snd (DeleteAWSCloudTrailSource (serve resp) collectorID id s) <> Returns (Some ErrAwsAuthenticationError)
  /\ err3 (snd (GetAWSLogSource (serve resp) collectorID id s)) <> Returns (Some ErrAwsAuthenticationError)
  /\ snd (DeleteAWSLogSource (serve resp) collectorID id s) <> Returns (Some ErrAwsAuthenticationError).
Proof.
  rewrite GetHostedCollector_run, DeleteHostedCollector_run, CreateHostedCollector_run, UpdateHostedCollector_run, GetHTTPSource_run, DeleteHTTPSource_run,
    CreateHTTPSource_run, UpdateHTTPSource_run, GetAWSCloudTrailSource_run, DeleteAWSCloudTrailSource_run, GetAWSLogSource_run, DeleteAWSLogSource_run.
  cbn [snd]. unfold serve.
  split; [apply GetHostedCollector_never_aws|].
  split; [apply DeleteHostedCollector_never_aws|].
  split; [apply CreateHostedCollector_never_aws|].
  split; [apply UpdateHostedCollector_never_aws|].
  split; [apply GetHTTPSource_never_aws|].
  split; [apply DeleteHTTPSource_never_aws|].
  split; [apply CreateHTTPSource_never_aws|].
  split; [apply UpdateHTTPSource_never_aws|].
  split; [apply GetAWSCloudTrailSource_never_aws|].
  split; [apply DeleteAWSCloudTrailSource_never_aws|].
  split; [apply GetAWSLogSource_never_aws|].
  apply DeleteAWSLogSource_never_aws.
Qed.

(** X7.  When the AWS kinds return [ErrAwsAuthenticationError], exactly.
    Create: the status is 400, the body decodes without error to an error
    object, and its message is one of the two fixed messages or, for a log
    source only, has a match of the S3-bucket pattern.  Update: the status
    is 400 and the message the decoder left in the error object is one of
    the two fixed messages, also when the decoder reported an error; the
    S3-bucket pattern is not looked for. *)
Theorem aws_error_exactly (resp : Response) (s : Client) (collectorID : Z)
    (etag : string) (ct : AWSCloudTrailSource) (ls : AWSLogSource) :
  (err2 (snd (CreateAWSCloudTrailSource (serve resp) collectorID ct s))
   = Returns (Some ErrAwsAuthenticationError)
   <-> StatusCode resp = StatusBadRequest
       /\ exists e, decodes_to decode_Error Error_zero (Response_Body resp) e
                   /\ awsFixedMessage (Error_Message e))
  /\ (err2 (snd (CreateAWSLogSource (serve resp) collectorID ls s))
      = Returns (Some ErrAwsAuthenticationError)
      <-> StatusCode resp = StatusBadRequest
          /\ exists e, decodes_to decode_Error Error_zero (Response_Body resp) e
                      /\ (awsFixedMessage (Error_Message e)
                          \/ MatchString "The S3 bucket 'bucketName=.*' is not readable."
                               (Error_Message e) = true))
  /\ (err2 (snd (UpdateAWSCloudTrailSource (serve resp) collectorID ct etag s))
      = Returns (Some ErrAwsAuthenticationError)
      <-> StatusCode resp = StatusBadRequest
          /\ exists e,
              fst (Unmarshal decode_Error Error_zero (Response_Body resp) (new Error_zero))
              = Some e
              /\ awsFixedMessage (Error_Message e))
  /\ (err2 (snd (UpdateAWSLogSource (serve resp) collectorID ls etag s))
      = Returns (Some ErrAwsAuthenticationError)
      <-> StatusCode resp = StatusBadRequest
          /\ exists e,
              fst (Unmarshal decode_Error Error_zero (Response_Body resp) (new Error_zero))
              = Some e
              /\ awsFixedMessage (Error_Message e)).
Proof.
  rewrite CreateAWSCloudTrailSource_run, CreateAWSLogSource_run,
    UpdateAWSCloudTrailSource_run, UpdateAWSLogSource_run.
  cbn [snd]. unfold serve, decodes_to.
  split; [apply CreateAWSCloudTrailSource_aws_iff|].
  split; [apply CreateAWSLogSource_aws_iff|].
  split; [apply UpdateAWSCloudTrailSource_aws_iff | apply UpdateAWSLogSource_aws_iff].
Qed.

(** On an error body whose status is a string and whose message is the
    first fixed message, Update returns [ErrAwsAuthenticationError]. *)
Lemma aws_error_exactly_witness :
  err2 (snd (UpdateAWSLogSource (serve (mkResponse StatusBadRequest [] halfDecodedError))
               7 defaultAWSLogSource "etag" testClient))
  = Returns (Some ErrAwsAuthenticationError).
Proof.
  destruct (aws_error_exactly (mkResponse StatusBadRequest [] halfDecodedError)
              testClient 7 "etag" defaultAWSCloudTrailSource defaultAWSLogSource)
    as (_ & _ & _ & Hu).
  apply Hu. split; [reflexivity|].
  exists (set_Error_Message "Cannot authenticate with AWS." Error_zero).
  split; [reflexivity | left; reflexivity].
Defined.

(** ** Resolving the paths of the package *)

Lemma append_nil_r (s : string) : s ++ "" = s.
Proof. induction s as [|c s IH]; simpl; [reflexivity | now rewrite IH]. Qed.

Lemma split_slash_nonempty (s : string) : split_slash s <> [].
Proof.
  destruct s as [|c s]; simpl; [discriminate|].
  destruct (Ascii.eqb c slash); [discriminate|].
  destruct (split_slash s); discriminate.
Qed.

Lemma joinSlash_split (s : string) : joinSlash (split_slash s) = s.
Proof.
  induction s as [|c s IH]; [reflexivity|].
  simpl. destruct (Ascii.eqb_spec c slash) as [->|Hc].
  - destruct (split_slash s) as [|e es] eqn:E; [now destruct (split_slash_nonempty s)|].
    simpl in *. now rewrite IH.
  - destruct (split_slash s) as [|e es] eqn:E; [now destruct (split_slash_nonempty s)|].
    simpl in *. now rewrite IH.
Qed.

Lemma removeDots_free (elems : list string) (dst : string) :
  forallb (fun e => negb (isDot e)) elems = true ->
  removeDots elems dst false = dst ++ slashed elems.
Proof.
  revert dst. induction elems as [|e rest IH]; intros dst H; simpl.
  - now rewrite append_nil_r.
  - simpl in H. apply andb_prop in H. destruct H as [He Hr].
    unfold isDot in He. apply negb_true_iff, orb_false_iff in He. destruct He as [H1 H2].
    rewrite H1, H2. rewrite (IH _ Hr).
    rewrite !append_assoc. reflexivity.
Qed.

Lemma removeDots_free_first (elems : list string) :
  forallb (fun e => negb (isDot e)) elems = true ->
  removeDots elems EmptyString true = joinSlash elems.
Proof.
  destruct elems as [|e rest]; intros H; [reflexivity|].
  simpl in H. apply andb_prop in H. destruct H as [He Hr].
  unfold isDot in He. apply negb_true_iff, orb_false_iff in He. destruct He as [H1 H2].
  simpl. rewrite H1, H2. simpl. apply (removeDots_free rest e Hr).
Qed.

(** The path of a reference that stays inside the base directory. *)
Lemma resolvePath_dotFree (base ref : string) :
  ref <> EmptyString -> startsWithSlash ref = false ->
  dotFree (dirOf base ++ ref) = true ->
  resolvePath base ref
  = if startsWithSlash (dirOf base ++ ref) then dirOf base ++ ref
    else String slash (dirOf base ++ ref).
Proof.
  intros Hne Hrel Hfree. unfold resolvePath.
  assert (Hfull : match ref with
                  | EmptyString => base
                  | String c _ =>
                    if Ascii.eqb c slash then ref
                    else match LastIndexSlash base with
                         | Some i => take (S i) base ++ ref
                         | None => ref
                         end
                  end = dirOf base ++ ref).
  { destruct ref as [|c r]; [now destruct Hne|].
    simpl in Hrel. rewrite Hrel. unfold dirOf.
    destruct (LastIndexSlash base); reflexivity. }
  rewrite Hfull.
  unfold dotFree in Hfree. rewrite (removeDots_free_first _ Hfree), joinSlash_split.
  destruct (dirOf base ++ ref) as [|c r] eqn:E.
  - destruct (dirOf base); [simpl in E; now destruct Hne | discriminate E].
  - simpl. destruct (Ascii.eqb c slash); reflexivity.
Qed.

Lemma split_slash_app_slash (a b : string) :
  split_slash (a ++ String slash b) = (split_slash a ++ split_slash b)%list.
Proof.
  induction a as [|c a IH]; [reflexivity|].
  simpl. destruct (Ascii.eqb c slash).
  - now rewrite IH.
  - rewrite IH. destruct (split_slash a) eqn:E; [now destruct (split_slash_nonempty a)|].
    reflexivity.
Qed.

Lemma dotFree_app_slash (a b : string) :
  dotFree (a ++ String slash b) = dotFree a && dotFree b.
Proof. unfold dotFree. now rewrite split_slash_app_slash, forallb_app. Qed.

Lemma allPlain_split (s : string) : allPlain s = true -> split_slash s = [s].
Proof.
  induction s as [|c s IH]; [reflexivity|].
  simpl. unfold plainChar. intros H. apply andb_prop in H. destruct H as [Hc Hs].
  apply andb_prop in Hc. destruct Hc as [Hc _]. apply negb_true_iff in Hc.
  rewrite Hc, (IH Hs). reflexivity.
Qed.

Lemma allPlain_dotFree (s : string) : allPlain s = true -> dotFree s = true.
Proof.
  intros H. unfold dotFree. rewrite (allPlain_split s H). simpl.
  rewrite andb_true_r. apply negb_true_iff. unfold isDot.
  destruct s as [|c s]; [reflexivity|].
  simpl in H. unfold plainChar in H. apply andb_prop in H. destruct H as [Hc _].
  apply andb_prop in Hc. destruct Hc as [_ Hc]. apply negb_true_iff in Hc.
  simpl. rewrite Hc. reflexivity.
Qed.

Lemma uint_allPlain (d : Decimal.uint) : allPlain (NilEmpty.string_of_uint d) = true.
Proof. induction d; simpl; try reflexivity; exact IHd. Qed.

Lemma itoa_allPlain (n : Z) : allPlain (itoa n) = true.
Proof.
  unfold itoa, NilZero.string_of_int, NilZero.string_of_uint.
  destruct (Z.to_int n) as [d|d]; destruct d; try reflexivity;
    simpl; try apply uint_allPlain.
Qed.

Lemma last_slash_split (p : string) (i : nat) :
  LastIndexSlash p = Some i ->
  take (S i) p = take i p ++ "/" /\ p = take i p ++ String slash (drop (S i) p).
Proof.
  revert i. induction p as [|c r IH]; intros i H; [discriminate|].
  simpl in H. destruct (LastIndexSlash r) as [j|].
  - injection H as <-. destruct (IH j eq_refl) as [H1 H2].
    split.
    + change (take (S (S j)) (String c r)) with (String c (take (S j) r)).
      rewrite H1. reflexivity.
    + change (take (S j) (String c r)) with (String c (take j r)).
      change (drop (S (S j)) (String c r)) with (drop (S j) r).
      cbn [append]. f_equal. exact H2.
  - destruct (Ascii.eqb_spec c slash) as [->|]; [|discriminate].
    injection H as <-. split; reflexivity.
Qed.

Lemma dotFree_in_dir (p rel : string) :
  dotFree p = true -> dotFree rel = true -> dotFree (dirOf p ++ rel) = true.
Proof.
  intros Hp Hr. unfold dirOf. destruct (LastIndexSlash p) as [i|] eqn:E; [|exact Hr].
  destruct (last_slash_split p i E) as [H1 H2].
  rewrite H1, append_assoc. change ("/" ++ rel) with (String slash rel).
  rewrite dotFree_app_slash, Hr, andb_true_r.
  rewrite H2, dotFree_app_slash in Hp. apply andb_prop in Hp. exact (proj1 Hp).
Qed.

(** A relative path without dot segments resolves to the directory of the
    base followed by the path. *)
Lemma resolve_in_base (p rel : string) :
  dotFree p = true -> p = EmptyString \/ startsWithSlash p = true ->
  rel <> EmptyString -> startsWithSlash rel = false -> dotFree rel = true ->
  resolvePath p rel = baseDir p ++ rel.
Proof.
  intros Hp Habs Hne Hrel Hr.
  rewrite (resolvePath_dotFree p rel Hne Hrel (dotFree_in_dir p rel Hp Hr)).
  destruct Habs as [-> | Hs].
  - simpl. rewrite Hrel. reflexivity.
  - destruct p as [|c r]; [discriminate|]. simpl in Hs.
    unfold baseDir, dirOf.
    destruct (LastIndexSlash (String c r)) as [i|] eqn:E.
    + simpl. rewrite Hs. reflexivity.
    + simpl in E. destruct (LastIndexSlash r); [discriminate|].
      rewrite Hs in E. discriminate.
Qed.

Lemma dotFree_collectorPath (id : Z) : dotFree (collectorPath id) = true.
Proof.
  unfold collectorPath.
  change ("collectors/" ++ itoa id) with ("collectors" ++ String slash (itoa id)).
  rewrite dotFree_app_slash, (allPlain_dotFree _ (itoa_allPlain id)). reflexivity.
Qed.

Lemma dotFree_sourcesPath (collectorID : Z) : dotFree (sourcesPath collectorID) = true.
Proof.
  unfold sourcesPath.
  change ("collectors/" ++ itoa collectorID ++ "/sources")
    with ("collectors" ++ String slash (itoa collectorID ++ String slash "sources")).
  rewrite !dotFree_app_slash, (allPlain_dotFree _ (itoa_allPlain collectorID)).
  reflexivity.
Qed.

Lemma dotFree_sourcePath (collectorID id : Z) : dotFree (sourcePath collectorID id) = true.
Proof.
  unfold sourcePath.
  change ("collectors/" ++ itoa collectorID ++ "/sources/" ++ itoa id)
    with ("collectors" ++ String slash (itoa collectorID
            ++ String slash ("sources" ++ String slash (itoa id)))).
  rewrite !dotFree_app_slash, (allPlain_dotFree _ (itoa_allPlain collectorID)),
    (allPlain_dotFree _ (itoa_allPlain id)).
  reflexivity.
Qed.

Lemma Sprintf_collectorPath (id : Z) :
  Sprintf "collectors/%d" [ArgInt id] = collectorPath id.
Proof. unfold collectorPath. cbn. now rewrite append_nil_r. Qed.

Lemma Sprintf_sourcesPath (collectorID : Z) :
  Sprintf "collectors/%d/sources" [ArgInt collectorID] = sourcesPath collectorID.
Proof. reflexivity. Qed.

Lemma Sprintf_sourcePath (collectorID id : Z) :
  Sprintf "collectors/%d/sources/%d" [ArgInt collectorID; ArgInt id]
  = sourcePath collectorID id.
Proof. unfold sourcePath. cbn. now rewrite append_nil_r. Qed.

(** The URL of a request for a relative path of the API. *)
Lemma resolved_url (s : Client) (rel : string) :
  plainBase s -> rel <> EmptyString -> startsWithSlash rel = false ->
  dotFree rel = true ->
  URL_String (ResolveReference (EndpointURL s) (url_Parse rel)) = endpointFor s rel.
Proof.
  intros [Hp Habs] Hne Hrel Hr. unfold endpointFor, ResolveReference, url_Parse.
  cbn [Path]. now rewrite (resolve_in_base _ rel Hp Habs Hne Hrel Hr).
Qed.

(** ** The requests *)


(** X9.  Where the requests go.  When the path of the endpoint is empty or
    absolute and has no dot segment, the URL of a request is the scheme and
    host of the endpoint, the directory of its path (the path up to its
    last slash, the root for an empty path) and the relative path of the
    operation: [collectors], [collectors/ID], [collectors/CID/sources] or
    [collectors/CID/sources/ID].  Update takes the last id from the
    resource it was given. *)
Theorem request_urls (s : Client) (collectorID id : Z) (etag : string) (c : Collector)
    (hs : HTTPSource) (ct : AWSCloudTrailSource) (ls : AWSLogSource) :
  plainBase s ->
  (Request_URL (snd (GetHostedCollector_req id s)) = endpointFor s (collectorPath id)
   /\ Request_URL (snd (CreateHostedCollector_req c s)) = endpointFor s (collectorsPath)
   /\ Request_URL (snd (UpdateHostedCollector_req c etag s))
      = endpointFor s (collectorPath (Collector_ID c))
   /\ Request_URL (snd (DeleteHostedCollector_req id s)) = endpointFor s (collectorPath id))
  /\ (Request_URL (snd (GetHTTPSource_req collectorID id s)) = endpointFor s (sourcePath collectorID id)
   /\ Request_URL (snd (CreateHTTPSource_req collectorID hs s)) = endpointFor s (sourcesPath collectorID)
   /\ Request_URL (snd (UpdateHTTPSource_req collectorID hs etag s))
      = endpointFor s (sourcePath collectorID (HTTPSource_ID hs))
   /\ Request_URL (snd (DeleteHTTPSource_req collectorID id s)) = endpointFor s (sourcePath collectorID id))
  /\ (Request_URL (snd (GetAWSCloudTrailSource_req collectorID id s)) = endpointFor s (sourcePath collectorID id)
   /\ Request_URL (snd (CreateAWSCloudTrailSource_req collectorID ct s)) = endpointFor s (sourcesPath collectorID)
   /\ Request_URL (snd (UpdateAWSCloudTrailSource_req collectorID ct etag s))
      = endpointFor s (sourcePath collectorID (AWSCloudTrailSource_ID ct))
   /\ Request_URL (snd (DeleteAWSCloudTrailSource_req collectorID id s)) = endpointFor s (sourcePath collectorID id))
  /\ (Request_URL (snd (GetAWSLogSource_req collectorID id s)) = endpointFor s (sourcePath collectorID id)
   /\ Request_URL (snd (CreateAWSLogSource_req collectorID ls s)) = endpointFor s (sourcesPath collectorID)
   /\ Request_URL (snd (UpdateAWSLogSource_req collectorID ls etag s))
      = endpointFor s (sourcePath collectorID (AWSLogSource_ID ls))
   /\ Request_URL (snd (DeleteAWSLogSource_req collectorID id s)) = endpointFor s (sourcePath collectorID id)).
Proof.
  intros Hs. split; [|split; [|split]].
  - split; [|split; [|split]].
    + change (Request_URL (snd (GetHostedCollector_req id s)))
        with (URL_String (ResolveReference (EndpointURL s)
                (url_Parse (Sprintf "collectors/%d" [ArgInt id])))).
      rewrite Sprintf_collectorPath. apply resolved_url; auto using dotFree_collectorPath.
      discriminate.
    + change (Request_URL (snd (CreateHostedCollector_req c s)))
        with (URL_String (ResolveReference (EndpointURL s) (url_Parse collectorsPath))).
      apply resolved_url; auto. discriminate.
    + change (Request_URL (snd (UpdateHostedCollector_req c etag s)))
        with (URL_String (ResolveReference (EndpointURL s)
                (url_Parse (Sprintf "collectors/%d" [ArgInt (Collector_ID c)])))).
      rewrite Sprintf_collectorPath. apply resolved_url; auto using dotFree_collectorPath.
      discriminate.
    + change (Request_URL (snd (DeleteHostedCollector_req id s)))
        with (URL_String (ResolveReference (EndpointURL s)
                (url_Parse (Sprintf "collectors/%d" [ArgInt id])))).
      rewrite Sprintf_collectorPath. apply resolved_url; auto using dotFree_collectorPath.
      discriminate.
  - split; [|split; [|split]].
    + change (Request_URL (snd (GetHTTPSource_req collectorID id s)))
        with (URL_String (ResolveReference (EndpointURL s)
                (url_Parse (Sprintf "collectors/%d/sources/%d"
                              [ArgInt collectorID; ArgInt id])))).
      rewrite Sprintf_sourcePath. apply resolved_url; auto using dotFree_sourcePath.
      discriminate.
    + change (Request_URL (snd (CreateHTTPSource_req collectorID hs s)))
        with (URL_String (ResolveReference (EndpointURL s)
                (url_Parse (Sprintf "collectors/%d/sources" [ArgInt collectorID])))).
      rewrite Sprintf_sourcesPath. apply resolved_url; auto using dotFree_sourcesPath.
      discriminate.
    + change (Request_URL (snd (UpdateHTTPSource_req collectorID hs etag s)))
        with (URL_String (ResolveReference (EndpointURL s)
                (url_Parse (Sprintf "collectors/%d/sources/%d"
                              [ArgInt collectorID; ArgInt (HTTPSource_ID hs)])))).
      rewrite Sprintf_sourcePath. apply resolved_url; auto using dotFree_sourcePath.
      discriminate.
    + change (Request_URL (snd (DeleteHTTPSource_req collectorID id s)))
        with (URL_String (ResolveReference (EndpointURL s)
                (url_Parse (Sprintf "collectors/%d/sources/%d"
                              [ArgInt collectorID; ArgInt id])))).
      rewrite Sprintf_sourcePath. apply resolved_url; auto using dotFree_sourcePath.
      discriminate.
  - split; [|split; [|split]].
    + change (Request_URL (snd (GetAWSCloudTrailSource_req collectorID id s)))
        with (URL_String (ResolveReference (EndpointURL s)
                (url_Parse (Sprintf "collectors/%d/sources/%d"
                              [ArgInt collectorID; ArgInt id])))).
      rewrite Sprintf_sourcePath. apply resolved_url; auto using dotFree_sourcePath.
      discriminate.
    + change (Request_URL (snd (CreateAWSCloudTrailSource_req collectorID ct s)))
        with (URL_String (ResolveReference (EndpointURL s)
                (url_Parse (Sprintf "collectors/%d/sources" [ArgInt collectorID])))).
      rewrite Sprintf_sourcesPath. apply resolved_url; auto using dotFree_sourcesPath.
      discriminate.
    + change (Request_URL (snd (UpdateAWSCloudTrailSource_req collectorID ct etag s)))
        with (URL_String (ResolveReference (EndpointURL s)
                (url_Parse (Sprintf "collectors/%d/sources/%d"
                              [ArgInt collectorID; ArgInt (AWSCloudTrailSource_ID ct)])))).
      rewrite Sprintf_sourcePath. apply resolved_url; auto using dotFree_sourcePath.
      discriminate.
    + change (Request_URL (snd (DeleteAWSCloudTrailSource_req collectorID id s)))
        with (URL_String (ResolveReference (EndpointURL s)
                (url_Parse (Sprintf "collectors/%d/sources/%d"
                              [ArgInt collectorID; ArgInt id])))).
      rewrite Sprintf_sourcePath. apply resolved_url; auto using dotFree_sourcePath.
      discriminate.
  - split; [|split; [|split]].
    + change (Request_URL (snd (GetAWSLogSource_req collectorID id s)))
        with (URL_String (ResolveReference (EndpointURL s)
                (url_Parse (Sprintf "collectors/%d/sources/%d"
                              [ArgInt collectorID; ArgInt id])))).
      rewrite Sprintf_sourcePath. apply resolved_url; auto using dotFree_sourcePath.
      discriminate.
    + change (Request_URL (snd (CreateAWSLogSource_req collectorID ls s)))
        with (URL_String (ResolveReference (EndpointURL s)
                (url_Parse (Sprintf "collectors/%d/sources" [ArgInt collectorID])))).
      rewrite Sprintf_sourcesPath. apply resolved_url; auto using dotFree_sourcesPath.
      discriminate.
    + change (Request_URL (snd (UpdateAWSLogSource_req collectorID ls etag s)))
        with (URL_String (ResolveReference (EndpointURL s)
                (url_Parse (Sprintf "collectors/%d/sources/%d"
                              [ArgInt collectorID; ArgInt (AWSLogSource_ID ls)])))).
      rewrite Sprintf_sourcePath. apply resolved_url; auto using dotFree_sourcePath.
      discriminate.
    + change (Request_URL (snd (DeleteAWSLogSource_req collectorID id s)))
        with (URL_String (ResolveReference (EndpointURL s)
                (url_Parse (Sprintf "collectors/%d/sources/%d"
                              [ArgInt collectorID; ArgInt id])))).
      rewrite Sprintf_sourcePath. apply resolved_url; auto using dotFree_sourcePath.
      discriminate.
Qed.

Lemma request_urls_witness :
  Request_URL (snd (GetHTTPSource_req 7 8 apiClient))
  = "https://api.sumologic.com/api/v1/collectors/7/sources/8"
  /\ Request_URL (snd (UpdateHostedCollector_req defaultCollector "etag" testClient))
     = "http://127.0.0.1:8080/collectors/1234567890".
Proof.
  assert (Ha : plainBase apiClient) by (split; [reflexivity | right; reflexivity]).
  assert (Ht : plainBase testClient) by (split; [reflexivity | left; reflexivity]).
  destruct (request_urls apiClient 7 8 "etag" defaultCollector defaultHTTPSource
              defaultAWSCloudTrailSource defaultAWSLogSource Ha)
    as (_ & (Hg & _) & _).
  destruct (request_urls testClient 7 8 "etag" defaultCollector defaultHTTPSource
              defaultAWSCloudTrailSource defaultAWSLogSource Ht)
    as ((_ & _ & Hu & _) & _).
  split; [exact Hg | exact Hu].
Defined.

(** An endpoint whose path does not end in a slash loses the last segment
    of the path. *)
Example request_url_without_final_slash :
  Request_URL (snd (GetHTTPSource_req 7 8 slashlessClient))
  = "https://api.sumologic.com/api/collectors/7/sources/8".
Proof. vm_compute. reflexivity. Qed.

(** ** Members the structs do not have, and members that are not there *)

Section Skipping.
Context {T : Type} (F : list (Field T)).

Lemma decodeFields_unknown (m1 m2 : Members) (k : string) (v : json) (t : T) :
  findField F k = None ->
  decodeFields F (m1 ++ (k, v) :: m2)%list t = decodeFields F (m1 ++ m2)%list t.
Proof.
  intros Hk. revert t. induction m1 as [|[k1 v1] m1 IH]; intros t; simpl.
  - rewrite Hk. destruct (decodeFields F m2 t) as [t2 e2]. reflexivity.
  - destruct (match findField F k1 with
              | Some dec => dec v1 t
              | None => (t, None)
              end) as [t1 e1].
    now rewrite IH.
Qed.

Lemma decodeFields_all_unknown (m : Members) (t : T) :
  Forall (fun kv => findField F (fst kv) = None) m ->
  decodeFields F m t = (t, None).
Proof.
  induction 1 as [|[k v] m Hk _ IH]; simpl; [reflexivity|].
  simpl in Hk. rewrite Hk, IH. reflexivity.
Qed.
End Skipping.

Lemma GetHostedCollector_unknown_member (h : Header) (s : Client) (id : Z)
    (m1 m2 : Members) (k : string) (v : json) :
  findField Collector_fields k = None ->
  snd (GetHostedCollector (serve (okResponse h (JObject [("collector", JObject (m1 ++ (k, v) :: m2))])))
         id s)
  = snd (GetHostedCollector (serve (okResponse h (JObject [("collector", JObject (m1 ++ m2))]))) id s).
Proof.
  intros Hk. rewrite !GetHostedCollector_run. cbn [snd]. unfold serve, GetHostedCollector_resp, okResponse.
  cbn [StatusCode Response_Body Response_Header].
  change (StatusOK =? StatusOK) with true. cbv iota.
  unfold Unmarshal, new, decode_CollectorRequest, decode_struct.
  cbn [decodeFields findField findExact findFold CollectorRequest_fields field String.eqb Ascii.eqb
       Bool.eqb foldName byte_in lower fst snd].
  cbv beta iota delta [set_CollectorRequest_Collector CollectorRequest_Collector CollectorRequest_zero decode_Collector decode_struct].
  now rewrite (decodeFields_unknown Collector_fields m1 m2 k v Collector_zero Hk).
Qed.

Lemma GetHostedCollector_no_envelope (h : Header) (s : Client) (id : Z) (m : Members) :
  Forall (fun kv => findField CollectorRequest_fields (fst kv) = None) m ->
  snd (GetHostedCollector (serve (okResponse h (JObject m))) id s)
  = Returns (Some Collector_zero, Header_Get h "ETag", None).
Proof.
  intros Hm. rewrite GetHostedCollector_run. cbn [snd]. unfold serve, GetHostedCollector_resp, okResponse.
  cbn [StatusCode Response_Body Response_Header].
  change (StatusOK =? StatusOK) with true. cbv iota.
  unfold Unmarshal, new, decode_CollectorRequest, decode_struct.
  now rewrite (decodeFields_all_unknown CollectorRequest_fields m CollectorRequest_zero Hm).
Qed.

Lemma GetHTTPSource_unknown_member (h : Header) (s : Client) (collectorID id : Z)
    (m1 m2 : Members) (k : string) (v : json) :
  findField HTTPSource_fields k = None ->
  snd (GetHTTPSource (serve (okResponse h (JObject [("source", JObject (m1 ++ (k, v) :: m2))])))
         collectorID id s)
  = snd (GetHTTPSource (serve (okResponse h (JObject [("source", JObject (m1 ++ m2))]))) collectorID id s).
Proof.
  intros Hk. rewrite !GetHTTPSource_run. cbn [snd]. unfold serve, GetHTTPSource_resp, okResponse.
  cbn [StatusCode Response_Body Response_Header].
  change (StatusOK =? StatusOK) with true. cbv iota.
  unfold Unmarshal, new, decode_HTTPSourceRequest, decode_struct.
  cbn [decodeFields findField findExact findFold HTTPSourceRequest_fields field String.eqb Ascii.eqb
       Bool.eqb foldName byte_in lower fst snd].
  cbv beta iota delta [set_HTTPSourceRequest_Source HTTPSourceRequest_Source HTTPSourceRequest_zero decode_HTTPSource decode_struct].
  now rewrite (decodeFields_unknown HTTPSource_fields m1 m2 k v HTTPSource_zero Hk).
Qed.

Lemma GetHTTPSource_no_envelope (h : Header) (s : Client) (collectorID id : Z) (m : Members) :
  Forall (fun kv => findField HTTPSourceRequest_fields (fst kv) = None) m ->
  snd (GetHTTPSource (serve (okResponse h (JObject m))) collectorID id s)
  = Returns (Some HTTPSource_zero, Header_Get h "ETag", None).
Proof.
  intros Hm. rewrite GetHTTPSource_run. cbn [snd]. unfold serve, GetHTTPSource_resp, okResponse.
  cbn [StatusCode Response_Body Response_Header].
  change (StatusOK =? StatusOK) with true. cbv iota.
  unfold Unmarshal, new, decode_HTTPSourceRequest, decode_struct.
  now rewrite (decodeFields_all_unknown HTTPSourceRequest_fields m HTTPSourceRequest_zero Hm).
Qed.

Lemma GetAWSCloudTrailSource_unknown_member (h : Header) (s : Client) (collectorID id : Z)
    (m1 m2 : Members) (k : string) (v : json) :
  findField AWSCloudTrailSource_fields k = None ->
  snd (GetAWSCloudTrailSource (serve (okResponse h (JObject [("source", JObject (m1 ++ (k, v) :: m2))])))
         collectorID id s)
  = snd (GetAWSCloudTrailSource (serve (okResponse h (JObject [("source", JObject (m1 ++ m2))]))) collectorID id s).
Proof.
  intros Hk. rewrite !GetAWSCloudTrailSource_run. cbn [snd]. unfold serve, GetAWSCloudTrailSource_resp, okResponse.
  cbn [StatusCode Response_Body Response_Header].
  change (StatusOK =? StatusOK) with true. cbv iota.
  unfold Unmarshal, new, decode_AWSCloudTrailSourceRequest, decode_struct.
  cbn [decodeFields findField findExact findFold AWSCloudTrailSourceRequest_fields field String.eqb Ascii.eqb
       Bool.eqb foldName byte_in lower fst snd].
  cbv beta iota delta [set_AWSCloudTrailSourceRequest_Source AWSCloudTrailSourceRequest_Source AWSCloudTrailSourceRequest_zero decode_AWSCloudTrailSource decode_struct].
  now rewrite (decodeFields_unknown AWSCloudTrailSource_fields m1 m2 k v AWSCloudTrailSource_zero Hk).
Qed.

Lemma GetAWSCloudTrailSource_no_envelope (h : Header) (s : Client) (collectorID id : Z) (m : Members) :
  Forall (fun kv => findField AWSCloudTrailSourceRequest_fields (fst kv) = None) m ->
  snd (GetAWSCloudTrailSource (serve (okResponse h (JObject m))) collectorID id s)
  = Returns (Some AWSCloudTrailSource_zero, Header_Get h "ETag", None).
Proof.
  intros Hm. rewrite GetAWSCloudTrailSource_run. cbn [snd]. unfold serve, GetAWSCloudTrailSource_resp, okResponse.
  cbn [StatusCode Response_Body Response_Header].
  change (StatusOK =? StatusOK) with true. cbv iota.
  unfold Unmarshal, new, decode_AWSCloudTrailSourceRequest, decode_struct.
  now rewrite (decodeFields_all_unknown AWSCloudTrailSourceRequest_fields m AWSCloudTrailSourceRequest_zero Hm).
Qed.

Lemma GetAWSLogSource_unknown_member (h : Header) (s : Client) (collectorID id : Z)
    (m1 m2 : Members) (k : string) (v : json) :
  findField AWSLogSource_fields k = None ->
  snd (GetAWSLogSource (serve (okResponse h (JObject [("source", JObject (m1 ++ (k, v) :: m2))])))
         collectorID id s)
  = snd (GetAWSLogSource (serve (okResponse h (JObject [("source", JObject (m1 ++ m2))]))) collectorID id s).
Proof.
  intros Hk. rewrite !GetAWSLogSource_run. cbn [snd]. unfold serve, GetAWSLogSource_resp, okResponse.
  cbn [StatusCode Response_Body Response_Header].
  change (StatusOK =? StatusOK) with true. cbv iota.
  unfold Unmarshal, new, decode_AWSLogSourceRequest, decode_struct.
  cbn [decodeFields findField findExact findFold AWSLogSourceRequest_fields field String.eqb Ascii.eqb
       Bool.eqb foldName byte_in lower fst snd].
  cbv beta iota delta [set_AWSLogSourceRequest_Source AWSLogSourceRequest_Source AWSLogSourceRequest_zero decode_AWSLogSource decode_struct].
  now rewrite (decodeFields_unknown AWSLogSource_fields m1 m2 k v AWSLogSource_zero Hk).
Qed.

Lemma GetAWSLogSource_no_envelope (h : Header) (s : Client) (collectorID id : Z) (m : Members) :
  Forall (fun kv => findField AWSLogSourceRequest_fields (fst kv) = None) m ->
  snd (GetAWSLogSource (serve (okResponse h (JObject m))) collectorID id s)
  = Returns (Some AWSLogSource_zero, Header_Get h "ETag", None).
Proof.
  intros Hm. rewrite GetAWSLogSource_run. cbn [snd]. unfold serve, GetAWSLogSource_resp, okResponse.
  cbn [StatusCode Response_Body Response_Header].
  change (StatusOK =? StatusOK) with true. cbv iota.
  unfold Unmarshal, new, decode_AWSLogSourceRequest, decode_struct.
  now rewrite (decodeFields_all_unknown AWSLogSourceRequest_fields m AWSLogSourceRequest_zero Hm).
Qed.

(** X10.  A member whose key no field of the resource answers to is
    skipped: in the envelope of a 200, the resource Get returns, its etag
    and its error are the same with the member and without it, whatever the
    value of the member. *)
Theorem unknown_members_are_skipped (h : Header) (s : Client) (collectorID id : Z)
    (m1 m2 : Members) (k : string) (v : json) :
  (findField Collector_fields k = None ->
      snd (GetHostedCollector (serve (okResponse h (JObject [("collector", JObject (m1 ++ (k, v) :: m2))])))
             id s)
      = snd (GetHostedCollector (serve (okResponse h (JObject [("collector", JObject (m1 ++ m2))])))
               id s))
  /\ (findField HTTPSource_fields k = None ->
      snd (GetHTTPSource (serve (okResponse h (JObject [("source", JObject (m1 ++ (k, v) :: m2))])))
             collectorID id s)
      = snd (GetHTTPSource (serve (okResponse h (JObject [("source", JObject (m1 ++ m2))])))
               collectorID id s))
  /\ (findField AWSCloudTrailSource_fields k = None ->
      snd (GetAWSCloudTrailSource (serve (okResponse h (JObject [("source", JObject (m1 ++ (k, v) :: m2))])))
             collectorID id s)
      = snd (GetAWSCloudTrailSource (serve (okResponse h (JObject [("source", JObject (m1 ++ m2))])))
               collectorID id s))
  /\ (findField AWSLogSource_fields k = None ->
      snd (GetAWSLogSource (serve (okResponse h (JObject [("source", JObject (m1 ++ (k, v) :: m2))])))
             collectorID id s)
      = snd (GetAWSLogSource (serve (okResponse h (JObject [("source", JObject (m1 ++ m2))])))
               collectorID id s)).
Proof.
  split; [apply GetHostedCollector_unknown_member|].
  split; [apply GetHTTPSource_unknown_member|].
  split; [apply GetAWSCloudTrailSource_unknown_member
         | apply GetAWSLogSource_unknown_member].
Qed.

Lemma unknown_members_are_skipped_witness :
  snd (GetHTTPSource
         (serve (okResponse []
            (JObject [("source",
               JObject [("id", JInt 1234567890);
                        ("hostName", JArray [JNull; JNumber "1.5"]);
                        ("name", JString "test");
                        ("CollectorId", JInt 1234567890)])])))
         1234567890 1234567890 testClient)
  = Returns (Some defaultHTTPSource, EmptyString, None).
Proof.
  destruct (unknown_members_are_skipped [] testClient 1234567890 1234567890
              [("id", JInt 1234567890)]
              [("name", JString "test"); ("CollectorId", JInt 1234567890)]
              "hostName" (JArray [JNull; JNumber "1.5"]))
    as (_ & Hh & _).
  pose proof (Hh eq_refl) as E. cbn [app] in E. rewrite E. vm_compute. reflexivity.
Defined.

(** X11.  An object without the envelope key is no error: when no member
    of the body of a 200 answers to the key of the envelope ([collector] or
    [source], in any case of letters), Get returns the zero resource, with
    the id 0 and the empty name, the etag of the answer and a nil error.  So
    does Get of a source on the envelope of a collector. *)
Theorem missing_envelope_is_zero_resource (h : Header) (s : Client) (collectorID id : Z)
    (m : Members) :
  (Forall (fun kv => findField CollectorRequest_fields (fst kv) = None) m ->
      snd (GetHostedCollector (serve (okResponse h (JObject m))) id s)
      = Returns (Some Collector_zero, Header_Get h "ETag", None))
  /\ (Forall (fun kv => findField HTTPSourceRequest_fields (fst kv) = None) m ->
      snd (GetHTTPSource (serve (okResponse h (JObject m))) collectorID id s)
      = Returns (Some HTTPSource_zero, Header_Get h "ETag", None))
  /\ (Forall (fun kv => findField AWSCloudTrailSourceRequest_fields (fst kv) = None) m ->
      snd (GetAWSCloudTrailSource (serve (okResponse h (JObject m))) collectorID id s)
      = Returns (Some AWSCloudTrailSource_zero, Header_Get h "ETag", None))
  /\ (Forall (fun kv => findField AWSLogSourceRequest_fields (fst kv) = None) m ->
      snd (GetAWSLogSource (serve (okResponse h (JObject m))) collectorID id s)
      = Returns (Some AWSLogSource_zero, Header_Get h "ETag", None)).
Proof.
  split; [apply GetHostedCollector_no_envelope|].
  split; [apply GetHTTPSource_no_envelope|].
  split; [apply GetAWSCloudTrailSource_no_envelope | apply GetAWSLogSource_no_envelope].
Qed.

Lemma missing_envelope_is_zero_resource_witness :
  snd (GetHTTPSource
         (serve (okResponse [("Etag", ["v7"])]
            (JObject [("collector", encode_Collector defaultCollector)])))
         1234567890 1234567890 testClient)
  = Returns (Some HTTPSource_zero, "v7", None).
Proof.
  destruct (missing_envelope_is_zero_resource [("Etag", ["v7"])] testClient
              1234567890 1234567890
              [("collector", encode_Collector defaultCollector)])
    as (_ & Hh & _).
  apply Hh. repeat constructor.
Defined.

(** ** The members of an encoded resource *)

Lemma lookupMember_skip (k : string) (frag rest : Members) :
  Forall (fun kv => String.eqb (fst kv) k = false) frag ->
  lookupMember k (frag ++ rest)%list = lookupMember k rest.
Proof.
  induction 1 as [|[k1 v1] frag Hk _ IH]; simpl; [reflexivity|].
  simpl in Hk. now rewrite Hk.
Qed.

Lemma lookupMember_none (k : string) (m : Members) :
  Forall (fun kv => String.eqb (fst kv) k = false) m -> lookupMember k m = None.
Proof.
  intros H. rewrite <- (app_nil_r m). now rewrite lookupMember_skip.
Qed.

(** A fragment holds its own key or nothing. *)
Ltac frag_keys :=
  unfold omitempty_int, omitempty_string, omitempty_bool, omitempty_slice,
         member_string, member_bool, member;
  repeat match goal with
         | |- Forall _ (if ?b then _ else _) => destruct b
         | |- Forall _ (match ?s with _ => _ end) => destruct s
         end;
  repeat constructor.

Ltac no_member :=
  apply lookupMember_none; repeat (apply Forall_app; split); frag_keys.

Lemma encode_Collector_members (x : Collector) :
  let m := members_of (encode_Collector x) in
  lookupMember "name" m = Some (JString (toValidUTF8 (Collector_Name x)))
  /\ lookupMember "id" m = unlessZero (Collector_ID x).
Proof.
  cbv zeta. unfold encode_Collector, unlessZero. cbn [members_of].
  split.
  - rewrite lookupMember_skip by frag_keys. reflexivity.
  - unfold omitempty_int at 1. destruct (Collector_ID x =? 0); [|reflexivity].
    cbn [app]. no_member.
Qed.

Lemma encode_HTTPSource_members (x : HTTPSource) :
  let m := members_of (encode_HTTPSource x) in
  lookupMember "name" m = Some (JString (toValidUTF8 (HTTPSource_Name x)))
  /\ lookupMember "id" m = unlessZero (HTTPSource_ID x)
  /\ lookupMember "CollectorId" m = unlessZero (HTTPSource_CollectorID x).
Proof.
  cbv zeta. unfold encode_HTTPSource, unlessZero. cbn [members_of].
  split; [|split].
  - rewrite lookupMember_skip by frag_keys. reflexivity.
  - unfold omitempty_int at 1. destruct (HTTPSource_ID x =? 0); [|reflexivity].
    cbn [app]. no_member.
  - do 2 (rewrite lookupMember_skip by frag_keys).
    unfold omitempty_int at 1. destruct (HTTPSource_CollectorID x =? 0); [|reflexivity].
    cbn [app]. no_member.
Qed.

Lemma encode_AWSCloudTrailSource_members (x : AWSCloudTrailSource) :
  let m := members_of (encode_AWSCloudTrailSource x) in
  lookupMember "name" m = Some (JString (toValidUTF8 (AWSCloudTrailSource_Name x)))
  /\ lookupMember "id" m = unlessZero (AWSCloudTrailSource_ID x)
  /\ lookupMember "CollectorId" m = unlessZero (AWSCloudTrailSource_CollectorID x).
Proof.
  cbv zeta. unfold encode_AWSCloudTrailSource, unlessZero. cbn [members_of].
  split; [|split].
  - rewrite lookupMember_skip by frag_keys. reflexivity.
  - unfold omitempty_int at 1. destruct (AWSCloudTrailSource_ID x =? 0); [|reflexivity].
    cbn [app]. no_member.
  - do 2 (rewrite lookupMember_skip by frag_keys).
    unfold omitempty_int at 1. destruct (AWSCloudTrailSource_CollectorID x =? 0); [|reflexivity].
    cbn [app]. no_member.
Qed.

Lemma encode_AWSLogSource_members (x : AWSLogSource) :
  let m := members_of (encode_AWSLogSource x) in
  lookupMember "name" m = Some (JString (toValidUTF8 (AWSLogSource_Name x)))
  /\ lookupMember "id" m = unlessZero (AWSLogSource_ID x)
  /\ lookupMember "CollectorId" m = unlessZero (AWSLogSource_CollectorID x).
Proof.
  cbv zeta. unfold encode_AWSLogSource, unlessZero. cbn [members_of].
  split; [|split].
  - rewrite lookupMember_skip by frag_keys. reflexivity.
  - unfold omitempty_int at 1. destruct (AWSLogSource_ID x =? 0); [|reflexivity].
    cbn [app]. no_member.
  - do 2 (rewrite lookupMember_skip by frag_keys).
    unfold omitempty_int at 1. destruct (AWSLogSource_CollectorID x =? 0); [|reflexivity].
    cbn [app]. no_member.
Qed.

(** X12.  What Create and Update put on the wire: the body is the envelope
    of the resource, in which the name is always a member, also when it is
    empty (coerced to valid UTF-8), the id is a member unless it is 0, and
    the [CollectorId] of a source is the one of the resource given, left
    out when that is 0, whatever collector the call names. *)
Theorem sent_resource_members (s : Client) (collectorID : Z) (etag : string)
    (c : Collector) (hs : HTTPSource) (ct : AWSCloudTrailSource) (ls : AWSLogSource) :
  (let m := sentResource "collector" (snd (CreateHostedCollector_req c s)) in
     lookupMember "name" m = Some (JString (toValidUTF8 (Collector_Name c)))
     /\ lookupMember "id" m = unlessZero (Collector_ID c))
  /\ (let m := sentResource "collector" (snd (UpdateHostedCollector_req c etag s)) in
     lookupMember "name" m = Some (JString (toValidUTF8 (Collector_Name c)))
     /\ lookupMember "id" m = unlessZero (Collector_ID c))
  /\ (let m := sentResource "source" (snd (CreateHTTPSource_req collectorID hs s)) in
     lookupMember "name" m = Some (JString (toValidUTF8 (HTTPSource_Name hs)))
     /\ lookupMember "id" m = unlessZero (HTTPSource_ID hs)
     /\ lookupMember "CollectorId" m = unlessZero (HTTPSource_CollectorID hs))
  /\ (let m := sentResource "source" (snd (UpdateHTTPSource_req collectorID hs etag s)) in
     lookupMember "name" m = Some (JString (toValidUTF8 (HTTPSource_Name hs)))
     /\ lookupMember "id" m = unlessZero (HTTPSource_ID hs)
     /\ lookupMember "CollectorId" m = unlessZero (HTTPSource_CollectorID hs))
  /\ (let m := sentResource "source" (snd (CreateAWSCloudTrailSource_req collectorID ct s)) in
     lookupMember "name" m = Some (JString (toValidUTF8 (AWSCloudTrailSource_Name ct)))
     /\ lookupMember "id" m = unlessZero (AWSCloudTrailSource_ID ct)
     /\ lookupMember "CollectorId" m = unlessZero (AWSCloudTrailSource_CollectorID ct))
  /\ (let m := sentResource "source" (snd (UpdateAWSCloudTrailSource_req collectorID ct etag s)) in
     lookupMember "name" m = Some (JString (toValidUTF8 (AWSCloudTrailSource_Name ct)))
     /\ lookupMember "id" m = unlessZero (AWSCloudTrailSource_ID ct)
     /\ lookupMember "CollectorId" m = unlessZero (AWSCloudTrailSource_CollectorID ct))
  /\ (let m := sentResource "source" (snd (CreateAWSLogSource_req collectorID ls s)) in
     lookupMember "name" m = Some (JString (toValidUTF8 (AWSLogSource_Name ls)))
     /\ lookupMember "id" m = unlessZero (AWSLogSource_ID ls)
     /\ lookupMember "CollectorId" m = unlessZero (AWSLogSource_CollectorID ls))
  /\ (let m := sentResource "source" (snd (UpdateAWSLogSource_req collectorID ls etag s)) in
     lookupMember "name" m = Some (JString (toValidUTF8 (AWSLogSource_Name ls)))
     /\ lookupMember "id" m = unlessZero (AWSLogSource_ID ls)
     /\ lookupMember "CollectorId" m = unlessZero (AWSLogSource_CollectorID ls)).
Proof.
  split; [exact (encode_Collector_members c)|].
  split; [exact (encode_Collector_members c)|].
  split; [exact (encode_HTTPSource_members hs)|].
  split; [exact (encode_HTTPSource_members hs)|].
  split; [exact (encode_AWSCloudTrailSource_members ct)|].
  split; [exact (encode_AWSCloudTrailSource_members ct)|].
  split; [exact (encode_AWSLogSource_members ls) | exact (encode_AWSLogSource_members ls)].
Qed.

(** ** What the encoder writes is valid UTF-8 *)

Lemma drop_length (n : nat) (s : string) :
  (String.length (drop n s) <= String.length s)%nat.
Proof.
  revert s. induction n as [|n IH]; intros [|c r]; simpl; auto.
Qed.

Lemma take_app_exact (p q : string) : take (String.length p) (p ++ q) = p.
Proof. induction p as [|c p IH]; simpl; [now destruct q | now rewrite IH]. Qed.

Lemma drop_app_exact (p q : string) : drop (String.length p) (p ++ q) = q.
Proof. induction p as [|c p IH]; simpl; [now destruct q | exact IH]. Qed.

Lemma length_append (p q : string) :
  String.length (p ++ q) = (String.length p + String.length q)%nat.
Proof. induction p as [|c p IH]; simpl; [reflexivity | now rewrite IH]. Qed.

(** The rune at the head of a string is read off its own bytes. *)
Lemma DecodeRuneInString_prefix (s : string) (n : nat) :
  DecodeRuneInString s = Some n ->
  String.length (take n s) = n
  /\ (forall q, DecodeRuneInString (take n s ++ q) = Some n)
  /\ (exists n', n = S n').
Proof.
  intros H.
  destruct s as [|b0 [|b1 [|b2 [|b3 r]]]]; unfold DecodeRuneInString in H;
    repeat match type of H with
           | context [if ?b then _ else _] => destruct b eqn:?
           end;
    try discriminate H; injection H as <-;
    (split; [reflexivity|]); (split; [|eexists; reflexivity]);
    intros q; cbn [take append]; unfold DecodeRuneInString;
    repeat match goal with
           | E : ?b = _ |- context [?b] => rewrite E
           end;
    cbn [andb]; reflexivity.
Qed.

Lemma coerce_fuel (f1 f2 : nat) (s : string) :
  (String.length s <= f1)%nat -> (String.length s <= f2)%nat ->
  coerce f1 s = coerce f2 s.
Proof.
  revert f2 s. induction f1 as [|f1 IH]; intros f2 s H1 H2.
  - destruct s; [|simpl in H1; lia]. now destruct f2.
  - destruct s as [|c r]; [now destruct f2|].
    destruct f2 as [|f2]; [simpl in H2; lia|].
    simpl in H1, H2. cbn [coerce].
    destruct (DecodeRuneInString (String c r)) as [n|] eqn:E.
    + destruct (DecodeRuneInString_prefix _ _ E) as (_ & _ & n' & ->).
      cbn [drop]. pose proof (drop_length n' r).
      f_equal. apply IH; lia.
    + f_equal. apply IH; lia.
Qed.

Lemma coerce_step (n : nat) (p q : string) :
  String.length p = n ->
  (exists n', n = S n') ->
  DecodeRuneInString (p ++ q) = Some n ->
  toValidUTF8 q = q ->
  toValidUTF8 (p ++ q) = p ++ q.
Proof.
  intros Hn [n' ->] Hd Hq. unfold toValidUTF8 in *.
  rewrite length_append, Hn.
  destruct p as [|c p]; [discriminate Hn|].
  cbn [plus append coerce]. cbn [append] in Hd. rewrite Hd.
  change (String c (p ++ q)) with (String c p ++ q).
  rewrite <- Hn, take_app_exact, drop_app_exact.
  f_equal. transitivity (coerce (String.length q) q); [|exact Hq].
  apply coerce_fuel; simpl in Hn; lia.
Qed.

Lemma coerce_valid (fuel : nat) (s : string) : ValidString (coerce fuel s).
Proof.
  unfold ValidString. revert s. induction fuel as [|f IH]; intros s; [reflexivity|].
  destruct s as [|c r]; [reflexivity|]. cbn [coerce].
  destruct (DecodeRuneInString (String c r)) as [n|] eqn:E.
  - destruct (DecodeRuneInString_prefix _ _ E) as (Hl & Hp & Hn).
    apply (coerce_step n); auto.
  - apply (coerce_step 3); [reflexivity | now exists 2%nat | reflexivity | apply IH].
Qed.

Lemma toValidUTF8_valid (s : string) : ValidString (toValidUTF8 s).
Proof. apply coerce_valid. Qed.

Lemma toValidUTF8_idem (s : string) : toValidUTF8 (toValidUTF8 s) = toValidUTF8 s.
Proof. apply toValidUTF8_valid. Qed.

(** ** The resource an envelope decodes to is sent back as it is *)

Lemma map_idem {A : Type} (f : A -> A) (l : list A) :
  (forall y, f (f y) = f y) -> map f (map f l) = map f l.
Proof. intros H. rewrite map_map. apply map_ext. exact H. Qed.

Lemma Forall_map_keeps {A : Type} (P : A -> Prop) (f : A -> A) (l : list A) :
  (forall y, P y -> P (f y)) -> Forall P l -> Forall P (map f l).
Proof. intros H Hl. induction Hl; simpl; constructor; auto. Qed.

Lemma coerce_CollectorLinks_idem (x : CollectorLinks) : coerce_CollectorLinks (coerce_CollectorLinks x) = coerce_CollectorLinks x.
Proof.
  unfold coerce_CollectorLinks. cbn [CollectorLinks_Rel CollectorLinks_Href].
  rewrite ?toValidUTF8_idem. reflexivity.
Qed.

Lemma inrange_coerce_CollectorLinks (x : CollectorLinks) : inrange_CollectorLinks x -> inrange_CollectorLinks (coerce_CollectorLinks x).
Proof.
  intros _. exact I.
Qed.

Lemma coerce_Collector_idem (x : Collector) : coerce_Collector (coerce_Collector x) = coerce_Collector x.
Proof.
  unfold coerce_Collector. cbn [Collector_ID Collector_Name Collector_Description Collector_Category Collector_TimeZone Collector_Links Collector_CollectorType Collector_CollectorVersion Collector_LastSeenAlive Collector_Alive].
  rewrite ?toValidUTF8_idem, (map_idem coerce_CollectorLinks _ coerce_CollectorLinks_idem). reflexivity.
Qed.

Lemma inrange_coerce_Collector (x : Collector) : inrange_Collector x -> inrange_Collector (coerce_Collector x).
Proof.
  unfold inrange_Collector, coerce_Collector. cbn [Collector_ID Collector_Name Collector_Description Collector_Category Collector_TimeZone Collector_Links Collector_CollectorType Collector_CollectorVersion Collector_LastSeenAlive Collector_Alive].
  intros (H0 & H1 & H2).
  split; [assumption|].
  split; [apply Forall_map_keeps; [exact inrange_coerce_CollectorLinks | assumption]|].
  assumption.
Qed.

Lemma coerce_CollectorRequest_idem (x : CollectorRequest) : coerce_CollectorRequest (coerce_CollectorRequest x) = coerce_CollectorRequest x.
Proof.
  unfold coerce_CollectorRequest. cbn [CollectorRequest_Collector].
  rewrite coerce_Collector_idem. reflexivity.
Qed.

Lemma inrange_coerce_CollectorRequest (x : CollectorRequest) : inrange_CollectorRequest x -> inrange_CollectorRequest (coerce_CollectorRequest x).
Proof.
  unfold inrange_CollectorRequest, coerce_CollectorRequest. cbn [CollectorRequest_Collector].
  intros H0.
  apply inrange_coerce_Collector; assumption.
Qed.

Lemma coerce_Filter_idem (x : Filter) : coerce_Filter (coerce_Filter x) = coerce_Filter x.
Proof.
  unfold coerce_Filter. cbn [Filter_FilterType Filter_Name Filter_Regexp].
  rewrite ?toValidUTF8_idem. reflexivity.
Qed.

Lemma inrange_coerce_Filter (x : Filter) : inrange_Filter x -> inrange_Filter (coerce_Filter x).
Proof.
  intros _. exact I.
Qed.

Lemma coerce_HTTPSource_idem (x : HTTPSource) : coerce_HTTPSource (coerce_HTTPSource x) = coerce_HTTPSource x.
Proof.
  unfold coerce_HTTPSource. cbn [HTTPSource_ID HTTPSource_Name HTTPSource_CollectorID HTTPSource_Description HTTPSource_Category HTTPSource_TimeZone HTTPSource_SourceType HTTPSource_MessagePerRequest HTTPSource_MultilineProcessingEnabled HTTPSource_UseAutolineMatching HTTPSource_ManualPrefixRegexp HTTPSource_Url HTTPSource_Filters].
  rewrite ?toValidUTF8_idem, (map_idem coerce_Filter _ coerce_Filter_idem). reflexivity.
Qed.

Lemma inrange_coerce_HTTPSource (x : HTTPSource) : inrange_HTTPSource x -> inrange_HTTPSource (coerce_HTTPSource x).
Proof.
  unfold inrange_HTTPSource, coerce_HTTPSource. cbn [HTTPSource_ID HTTPSource_Name HTTPSource_CollectorID HTTPSource_Description HTTPSource_Category HTTPSource_TimeZone HTTPSource_SourceType HTTPSource_MessagePerRequest HTTPSource_MultilineProcessingEnabled HTTPSource_UseAutolineMatching HTTPSource_ManualPrefixRegexp HTTPSource_Url HTTPSource_Filters].
  intros (H0 & H1 & H2).
  split; [assumption|].
  split; [assumption|].
  apply Forall_map_keeps; [exact inrange_coerce_Filter | assumption].
Qed.

Lemma coerce_HTTPSourceRequest_idem (x : HTTPSourceRequest) : coerce_HTTPSourceRequest (coerce_HTTPSourceRequest x) = coerce_HTTPSourceRequest x.
Proof.
  unfold coerce_HTTPSourceRequest. cbn [HTTPSourceRequest_Source].
  rewrite coerce_HTTPSource_idem. reflexivity.
Qed.

Lemma inrange_coerce_HTTPSourceRequest (x : HTTPSourceRequest) : inrange_HTTPSourceRequest x -> inrange_HTTPSourceRequest (coerce_HTTPSourceRequest x).
Proof.
  unfold inrange_HTTPSourceRequest, coerce_HTTPSourceRequest. cbn [HTTPSourceRequest_Source].
  intros H0.
  apply inrange_coerce_HTTPSource; assumption.
Qed.

Lemma coerce_AWSBucketPath_idem (x : AWSBucketPath) : coerce_AWSBucketPath (coerce_AWSBucketPath x) = coerce_AWSBucketPath x.
Proof.
  unfold coerce_AWSBucketPath. cbn [AWSBucketPath_Type AWSBucketPath_BucketName AWSBucketPath_PathExpression].
  rewrite ?toValidUTF8_idem. reflexivity.
Qed.

Lemma inrange_coerce_AWSBucketPath (x : AWSBucketPath) : inrange_AWSBucketPath x -> inrange_AWSBucketPath (coerce_AWSBucketPath x).
Proof.
  intros _. exact I.
Qed.

Lemma coerce_AWSBucketAuthentication_idem (x : AWSBucketAuthentication) : coerce_AWSBucketAuthentication (coerce_AWSBucketAuthentication x) = coerce_AWSBucketAuthentication x.
Proof.
  unfold coerce_AWSBucketAuthentication. cbn [AWSBucketAuthentication_Type AWSBucketAuthentication_RoleARN].
  rewrite ?toValidUTF8_idem. reflexivity.
Qed.

Lemma inrange_coerce_AWSBucketAuthentication (x : AWSBucketAuthentication) : inrange_AWSBucketAuthentication x -> inrange_AWSBucketAuthentication (coerce_AWSBucketAuthentication x).
Proof.
  intros _. exact I.
Qed.

Lemma coerce_AWSBucketResource_idem (x : AWSBucketResource) : coerce_AWSBucketResource (coerce_AWSBucketResource x) = coerce_AWSBucketResource x.
Proof.
  unfold coerce_AWSBucketResource. cbn [AWSBucketResource_ServiceType AWSBucketResource_Path AWSBucketResource_Authentication].
  rewrite ?toValidUTF8_idem, coerce_AWSBucketPath_idem, coerce_AWSBucketAuthentication_idem. reflexivity.
Qed.

Lemma inrange_coerce_AWSBucketResource (x : AWSBucketResource) : inrange_AWSBucketResource x -> inrange_AWSBucketResource (coerce_AWSBucketResource x).
Proof.
  unfold inrange_AWSBucketResource, coerce_AWSBucketResource. cbn [AWSBucketResource_ServiceType AWSBucketResource_Path AWSBucketResource_Authentication].
  intros (H0 & H1).
  split; [apply inrange_coerce_AWSBucketPath; assumption|].
  apply inrange_coerce_AWSBucketAuthentication; assumption.
Qed.

Lemma coerce_AWSBucketThirdPartyRef_idem (x : AWSBucketThirdPartyRef) : coerce_AWSBucketThirdPartyRef (coerce_AWSBucketThirdPartyRef x) = coerce_AWSBucketThirdPartyRef x.
Proof.
  unfold coerce_AWSBucketThirdPartyRef. cbn [AWSBucketThirdPartyRef_Resources].
  rewrite (map_idem coerce_AWSBucketResource _ coerce_AWSBucketResource_idem). reflexivity.
Qed.

Lemma inrange_coerce_AWSBucketThirdPartyRef (x : AWSBucketThirdPartyRef) : inrange_AWSBucketThirdPartyRef x -> inrange_AWSBucketThirdPartyRef (coerce_AWSBucketThirdPartyRef x).
Proof.
  unfold inrange_AWSBucketThirdPartyRef, coerce_AWSBucketThirdPartyRef. cbn [AWSBucketThirdPartyRef_Resources].
  intros H0.
  apply Forall_map_keeps; [exact inrange_coerce_AWSBucketResource | assumption].
Qed.

Lemma coerce_AWSCloudTrailSource_idem (x : AWSCloudTrailSource) : coerce_AWSCloudTrailSource (coerce_AWSCloudTrailSource x) = coerce_AWSCloudTrailSource x.
Proof.
  unfold coerce_AWSCloudTrailSource. cbn [AWSCloudTrailSource_ID AWSCloudTrailSource_Name AWSCloudTrailSource_CollectorID AWSCloudTrailSource_Description AWSCloudTrailSource_Category AWSCloudTrailSource_TimeZone AWSCloudTrailSource_SourceType AWSCloudTrailSource_ContentType AWSCloudTrailSource_ScanInterval AWSCloudTrailSource_Paused AWSCloudTrailSource_CutoffRelativeTime AWSCloudTrailSource_ThirdPartyRef].
  rewrite ?toValidUTF8_idem, coerce_AWSBucketThirdPartyRef_idem. reflexivity.
Qed.

Lemma inrange_coerce_AWSCloudTrailSource (x : AWSCloudTrailSource) : inrange_AWSCloudTrailSource x -> inrange_AWSCloudTrailSource (coerce_AWSCloudTrailSource x).
Proof.
  unfold inrange_AWSCloudTrailSource, coerce_AWSCloudTrailSource. cbn [AWSCloudTrailSource_ID AWSCloudTrailSource_Name AWSCloudTrailSource_CollectorID AWSCloudTrailSource_Description AWSCloudTrailSource_Category AWSCloudTrailSource_TimeZone AWSCloudTrailSource_SourceType AWSCloudTrailSource_ContentType AWSCloudTrailSource_ScanInterval AWSCloudTrailSource_Paused AWSCloudTrailSource_CutoffRelativeTime AWSCloudTrailSource_ThirdPartyRef].
  intros (H0 & H1 & H2 & H3).
  split; [assumption|].
  split; [assumption|].
  split; [assumption|].
  apply inrange_coerce_AWSBucketThirdPartyRef; assumption.
Qed.

Lemma coerce_AWSCloudTrailSourceRequest_idem (x : AWSCloudTrailSourceRequest) : coerce_AWSCloudTrailSourceRequest (coerce_AWSCloudTrailSourceRequest x) = coerce_AWSCloudTrailSourceRequest x.
Proof.
  unfold coerce_AWSCloudTrailSourceRequest. cbn [AWSCloudTrailSourceRequest_Source].
  rewrite coerce_AWSCloudTrailSource_idem. reflexivity.
Qed.

Lemma inrange_coerce_AWSCloudTrailSourceRequest (x : AWSCloudTrailSourceRequest) : inrange_AWSCloudTrailSourceRequest x -> inrange_AWSCloudTrailSourceRequest (coerce_AWSCloudTrailSourceRequest x).
Proof.
  unfold inrange_AWSCloudTrailSourceRequest, coerce_AWSCloudTrailSourceRequest. cbn [AWSCloudTrailSourceRequest_Source].
  intros H0.
  apply inrange_coerce_AWSCloudTrailSource; assumption.
Qed.

Lemma coerce_AWSLogSource_idem (x : AWSLogSource) : coerce_AWSLogSource (coerce_AWSLogSource x) = coerce_AWSLogSource x.
Proof.
  unfold coerce_AWSLogSource. cbn [AWSLogSource_ID AWSLogSource_Name AWSLogSource_CollectorID AWSLogSource_Description AWSLogSource_Category AWSLogSource_TimeZone AWSLogSource_SourceType AWSLogSource_ContentType AWSLogSource_ScanInterval AWSLogSource_Paused AWSLogSource_CutoffRelativeTime AWSLogSource_MultilineProcessingEnabled AWSLogSource_UseAutolineMatching AWSLogSource_ManualPrefixRegexp AWSLogSource_Url AWSLogSource_ThirdPartyRef].
  rewrite ?toValidUTF8_idem, coerce_AWSBucketThirdPartyRef_idem. reflexivity.
Qed.

Lemma inrange_coerce_AWSLogSource (x : AWSLogSource) : inrange_AWSLogSource x -> inrange_AWSLogSource (coerce_AWSLogSource x).
Proof.
  unfold inrange_AWSLogSource, coerce_AWSLogSource. cbn [AWSLogSource_ID AWSLogSource_Name AWSLogSource_CollectorID AWSLogSource_Description AWSLogSource_Category AWSLogSource_TimeZone AWSLogSource_SourceType AWSLogSource_ContentType AWSLogSource_ScanInterval AWSLogSource_Paused AWSLogSource_CutoffRelativeTime AWSLogSource_MultilineProcessingEnabled AWSLogSource_UseAutolineMatching AWSLogSource_ManualPrefixRegexp AWSLogSource_Url AWSLogSource_ThirdPartyRef].
  intros (H0 & H1 & H2 & H3).
  split; [assumption|].
  split; [assumption|].
  split; [assumption|].
  apply inrange_coerce_AWSBucketThirdPartyRef; assumption.
Qed.

Lemma coerce_AWSLogSourceRequest_idem (x : AWSLogSourceRequest) : coerce_AWSLogSourceRequest (coerce_AWSLogSourceRequest x) = coerce_AWSLogSourceRequest x.
Proof.
  unfold coerce_AWSLogSourceRequest. cbn [AWSLogSourceRequest_Source].
  rewrite coerce_AWSLogSource_idem. reflexivity.
Qed.

Lemma inrange_coerce_AWSLogSourceRequest (x : AWSLogSourceRequest) : inrange_AWSLogSourceRequest x -> inrange_AWSLogSourceRequest (coerce_AWSLogSourceRequest x).
Proof.
  unfold inrange_AWSLogSourceRequest, coerce_AWSLogSourceRequest. cbn [AWSLogSourceRequest_Source].
  intros H0.
  apply inrange_coerce_AWSLogSource; assumption.
Qed.







(** ** The matcher decides [Matches] *)

Lemma append_empty_inv (s1 s2 : string) :
  s1 ++ s2 = EmptyString -> s1 = EmptyString /\ s2 = EmptyString.
Proof. destruct s1; simpl; [auto | discriminate]. Qed.

Lemma Matches_Cat_inv (r1 r2 : regex) (s : string) :
  Matches (Cat r1 r2) s ->
  exists s1 s2, s = s1 ++ s2 /\ Matches r1 s1 /\ Matches r2 s2.
Proof. intros H. inversion H; subst. eauto. Qed.

Lemma Matches_Alt_inv (r1 r2 : regex) (s : string) :
  Matches (Alt r1 r2) s -> Matches r1 s \/ Matches r2 s.
Proof. intros H. inversion H; subst; auto. Qed.

Lemma Matches_Star_cons (r : regex) (c : ascii) (s : string) :
  Matches (Star r) (String c s) ->
  exists s1 s2, s = s1 ++ s2 /\ Matches r (String c s1) /\ Matches (Star r) s2.
Proof.
  intros H. remember (Star r) as R eqn:ER. remember (String c s) as t eqn:Et.
  induction H as [| | | | | | | |r' s1 s2 H1 _ H2 IH2]; try discriminate.
  injection ER as ->. destruct s1 as [|c' s1'].
  - apply IH2; [reflexivity | exact Et].
  - simpl in Et. injection Et as -> <-. eauto.
Qed.

Lemma nullable_Matches (r : regex) : nullable r = true <-> Matches r EmptyString.
Proof.
  induction r as [| | | | |r1 IH1 r2 IH2|r1 IH1 r2 IH2|r1 IH1]; simpl.
  - split; [discriminate | intros H; inversion H].
  - split; [constructor | reflexivity].
  - split; [discriminate | intros H; inversion H].
  - split; [discriminate | intros H; inversion H].
  - split; [discriminate | intros H; inversion H].
  - rewrite andb_true_iff, IH1, IH2. split.
    + intros [H1 H2]. exact (MCat _ _ _ _ H1 H2).
    + intros H. apply Matches_Cat_inv in H as (s1 & s2 & E & H1 & H2).
      symmetry in E. apply append_empty_inv in E as [-> ->]. auto.
  - rewrite orb_true_iff, IH1, IH2. split.
    + intros [H|H]; [apply MAltL | apply MAltR]; exact H.
    + apply Matches_Alt_inv.
  - split; [constructor | reflexivity].
Qed.

Lemma deriv_Matches (c : ascii) (r : regex) (s : string) :
  Matches (deriv c r) s <-> Matches r (String c s).
Proof.
  revert s.
  induction r as [| |a| | |r1 IH1 r2 IH2|r1 IH1 r2 IH2|r1 IH1]; intros s; simpl.
  - split; intros H; inversion H.
  - split; intros H; inversion H.
  - destruct (Ascii.eqb_spec a c) as [->|N].
    + split; intros H; inversion H; subst; constructor.
    + split; intros H; inversion H; subst. now elim N.
  - destruct (Ascii.eqb_spec c newline) as [->|N].
    + split; intros H; inversion H; subst. congruence.
    + split; intros H; inversion H; subst; now constructor.
  - split; intros H; inversion H; subst; constructor.
  - destruct (nullable r1) eqn:N1.
    + split.
      * intros H. apply Matches_Alt_inv in H as [H|H].
        -- apply Matches_Cat_inv in H as (s1 & s2 & -> & H1 & H2).
           apply IH1 in H1. exact (MCat _ _ _ _ H1 H2).
        -- apply IH2 in H. apply nullable_Matches in N1. exact (MCat _ _ _ _ N1 H).
      * intros H. apply Matches_Cat_inv in H as (s1 & s2 & E & H1 & H2).
        destruct s1 as [|c' s1'].
        -- simpl in E. subst s2. apply MAltR, IH2, H2.
        -- simpl in E. injection E as <- ->. apply MAltL.
           apply MCat; [apply IH1, H1 | exact H2].
    + split.
      * intros H. apply Matches_Cat_inv in H as (s1 & s2 & -> & H1 & H2).
        apply IH1 in H1. exact (MCat _ _ _ _ H1 H2).
      * intros H. apply Matches_Cat_inv in H as (s1 & s2 & E & H1 & H2).
        destruct s1 as [|c' s1'].
        -- apply nullable_Matches in H1. congruence.
        -- simpl in E. injection E as <- ->.
           apply MCat; [apply IH1, H1 | exact H2].
  - split.
    + intros H. apply Matches_Alt_inv in H as [H|H];
        [apply MAltL, IH1, H | apply MAltR, IH2, H].
    + intros H. apply Matches_Alt_inv in H as [H|H];
        [apply MAltL, IH1, H | apply MAltR, IH2, H].
  - split.
    + intros H. apply Matches_Cat_inv in H as (s1 & s2 & -> & H1 & H2).
      apply IH1 in H1. exact (MStarS _ _ _ H1 H2).
    + intros H. apply Matches_Star_cons in H as (s1 & s2 & -> & H1 & H2).
      apply MCat; [apply IH1, H1 | exact H2].
Qed.

Lemma matches_Matches (r : regex) (s : string) : matches r s = true <-> Matches r s.
Proof.
  revert r. induction s as [|c s IH]; intros r; simpl.
  - apply nullable_Matches.
  - rewrite IH. apply deriv_Matches.
Qed.

Lemma Matches_lits (p : string) (r : regex) (s : string) :
  Matches (lits p r) s <-> exists s', s = p ++ s' /\ Matches r s'.
Proof.
  revert s. induction p as [|c p IH]; intros s; simpl.
  - split; [eauto | intros (s' & -> & H); exact H].
  - split.
    + intros H. apply Matches_Cat_inv in H as (s1 & s2 & -> & H1 & H2).
      inversion H1; subst. apply IH in H2 as (s' & -> & H2).
      exists s'. split; [reflexivity | exact H2].
    + intros (s' & -> & H).
      apply (MCat _ _ (String c EmptyString) (p ++ s')); [constructor|].
      apply IH. eauto.
Qed.

Lemma Matches_Star_AnyChar (s : string) : Matches (Star AnyChar) s.
Proof.
  induction s as [|c s IH]; [constructor|].
  apply (MStarS _ (String c EmptyString) s); [constructor | exact IH].
Qed.

Lemma Matches_Star_AnyCharNotNL (b : string) :
  Matches (Star AnyCharNotNL) b <-> noNewline b = true.
Proof.
  induction b as [|c b IH]; simpl.
  - split; [reflexivity | constructor].
  - rewrite andb_true_iff, negb_true_iff, <- IH. split.
    + intros H. apply Matches_Star_cons in H as (s1 & s2 & -> & H1 & H2).
      inversion H1; subst. split; [|exact H2].
      now apply Ascii.eqb_neq.
    + intros [N H]. apply Ascii.eqb_neq in N.
      apply (MStarS _ (String c EmptyString) b); [now constructor | exact H].
Qed.

(** The pattern of [CreateAWSLogSource], read as the matcher reads it. *)
Lemma Compile_S3_pattern :
  Compile "The S3 bucket 'bucketName=.*' is not readable."
  = lits "The S3 bucket 'bucketName="
      (Cat (Star AnyCharNotNL) (lits "' is not readable" AnyCharNotNL)).
Proof. reflexivity. Qed.

Lemma S3_pattern_matches (msg : string) :
  MatchString "The S3 bucket 'bucketName=.*' is not readable." msg = true
  <-> bucketNotReadable msg.
Proof.
  unfold MatchString, bucketNotReadable. rewrite matches_Matches, Compile_S3_pattern.
  split.
  - intros H. apply Matches_Cat_inv in H as (pre & t & -> & _ & H).
    apply Matches_Cat_inv in H as (m & post & -> & H & _).
    apply Matches_lits in H as (m1 & -> & H).
    apply Matches_Cat_inv in H as (b & m2 & -> & Hb & H).
    apply Matches_lits in H as (m3 & -> & H).
    inversion H as [| |c Hc| | | | | |]; subst.
    exists pre, b, c, post. split; [|split].
    + rewrite !append_assoc. reflexivity.
    + apply Matches_Star_AnyCharNotNL, Hb.
    + exact Hc.
  - intros (pre & b & c & post & -> & Hb & Hc).
    apply MCat; [apply Matches_Star_AnyChar|].
    replace ("The S3 bucket 'bucketName=" ++ b ++ "' is not readable" ++ String c post)
      with (("The S3 bucket 'bucketName=" ++ b ++ "' is not readable"
             ++ String c EmptyString) ++ post)
      by (rewrite !append_assoc; reflexivity).
    apply MCat; [|apply Matches_Star_AnyChar].
    apply Matches_lits. eexists. split; [reflexivity|].
    apply MCat; [apply Matches_Star_AnyCharNotNL, Hb|].
    apply Matches_lits. eexists. split; [reflexivity|]. now constructor.
Qed.

(** X14.  Which messages make [CreateAWSLogSource] answer a 400 with
    [ErrAwsAuthenticationError]: when the body decodes without error to an
    error object, the error is returned exactly when the message is one of
    the two fixed messages or says, anywhere and on one line, that
    [The S3 bucket 'bucketName=<b>' is not readable], followed by one more
    character that is not a line feed.  The bucket name may be any text
    without a line feed, and the pattern's last dot is any such character,
    not only a full stop. *)
Theorem unreadable_bucket_is_aws_error (resp : Response) (s : Client) (collectorID : Z)
    (ls : AWSLogSource) (e : Error) :
  StatusCode resp = StatusBadRequest ->
  decodes_to decode_Error Error_zero (Response_Body resp) e ->
  (err2 (snd (CreateAWSLogSource (serve resp) collectorID ls s))
   = Returns (Some ErrAwsAuthenticationError)
   <-> awsFixedMessage (Error_Message e) \/ bucketNotReadable (Error_Message e)).
Proof.
  intros Hs Hd. rewrite CreateAWSLogSource_run. cbn [snd]. unfold serve.
  rewrite CreateAWSLogSource_aws_iff, <- S3_pattern_matches. unfold decodes_to in Hd.
  split.
  - intros (_ & e' & He' & H). rewrite Hd in He'. injection He' as <-. exact H.
  - intros H. split; [exact Hs|]. exists e. split; [exact Hd | exact H].
Qed.

Lemma unreadable_bucket_is_aws_error_witness :
  err2 (snd (CreateAWSLogSource (serve (mkResponse StatusBadRequest [] s3NotReadable))
               7 sampleAWSLogSource testClient))
  = Returns (Some ErrAwsAuthenticationError).
Proof.
  apply (proj2 (unreadable_bucket_is_aws_error
                  (mkResponse StatusBadRequest [] s3NotReadable) testClient 7
                  sampleAWSLogSource
                  (mkError 400 "E1" "collectors.validation.fields.invalid"
                     "The S3 bucket 'bucketName=my-bucket' is not readable.")
                  eq_refl eq_refl)).
  right. exists EmptyString, "my-bucket", "."%char, EmptyString.
  split; [reflexivity|]. split; [reflexivity | discriminate].
Defined.

(** ** The texts of the errors *)

Lemma Errorf_unknown_d (n : Z) :
  Errorf "Unknown Response with Sumo Logic: `%d`" [ArgInt n] = unknownResponse n.
Proof. unfold Errorf, unknownResponse. now rewrite Sprintf_unknown_d. Qed.

Lemma Errorf_unknown_s (n : Z) :
  Errorf "Unknown Response with Sumo Logic: `%s`" [ArgInt n] = unknownResponseBadVerb n.
Proof. unfold Errorf, unknownResponseBadVerb. now rewrite Sprintf_unknown_s. Qed.

Lemma Errorf_sourceNameTaken (name : string) :
  Errorf "Bad Request. Please check if a source with this name `%s` already exists"
    [ArgString name]
  = sourceNameTaken name.
Proof. reflexivity. Qed.

Lemma Errorf_collectorNameTaken (name : string) :
  Errorf "Bad Request. Please check if a collector with this name `%` already exists"
    [ArgString name]
  = collectorNameTakenBadVerb name.
Proof.
  unfold Errorf, collectorNameTakenBadVerb. cbn. unfold badVerb. cbn.
  now rewrite !append_assoc.
Qed.

Lemma Errorf_badRequest (message : string) :
  Errorf "Bad Request. %s" [ArgString message] = badRequest message.
Proof. unfold Errorf, badRequest. cbn. now rewrite append_nil_r. Qed.

Lemma GetHostedCollector_unknown_text (resp : Response) :
  ~ handledByRead (StatusCode resp) ->
  err3 (GetHostedCollector_resp (DoResponse resp)) = Returns (Some (unknownResponseBadVerb (StatusCode resp))).
Proof.
  unfold handledByRead, handledByWrite, GetHostedCollector_resp. cbv zeta. intros H.
  by_status resp; try (exfalso; apply H; unfold StatusOK, StatusCreated,
    StatusUnauthorized, StatusNotFound, StatusBadRequest; lia).
  all: cbn [err2 err3]; now rewrite Errorf_unknown_s.
Qed.

Lemma CreateHostedCollector_unknown_text (resp : Response) (c : Collector) :
  ~ handledByWrite StatusCreated (StatusCode resp) ->
  err2 (CreateHostedCollector_resp c (DoResponse resp)) = Returns (Some (unknownResponseBadVerb (StatusCode resp))).
Proof.
  unfold handledByRead, handledByWrite, CreateHostedCollector_resp. cbv zeta. intros H.
  by_status resp; try (exfalso; apply H; unfold StatusOK, StatusCreated,
    StatusUnauthorized, StatusNotFound, StatusBadRequest; lia).
  all: cbn [err2 err3]; now rewrite Errorf_unknown_s.
Qed.

Lemma UpdateHostedCollector_unknown_text (resp : Response) (c : Collector) :
  ~ handledByWrite StatusOK (StatusCode resp) ->
  err2 (UpdateHostedCollector_resp c (DoResponse resp)) = Returns (Some (unknownResponseBadVerb (StatusCode resp))).
Proof.
  unfold handledByRead, handledByWrite, UpdateHostedCollector_resp. cbv zeta. intros H.
  by_status resp; try (exfalso; apply H; unfold StatusOK, StatusCreated,
    StatusUnauthorized, StatusNotFound, StatusBadRequest; lia).
  all: cbn [err2 err3]; now rewrite Errorf_unknown_s.
Qed.

Lemma DeleteHostedCollector_unknown_text (resp : Response) :
  ~ handledByRead (StatusCode resp) ->
  DeleteHostedCollector_resp (DoResponse resp) = Returns (Some (unknownResponseBadVerb (StatusCode resp))).
Proof.
  unfold handledByRead, handledByWrite, DeleteHostedCollector_resp. cbv zeta. intros H.
  by_status resp; try (exfalso; apply H; unfold StatusOK, StatusCreated,
    StatusUnauthorized, StatusNotFound, StatusBadRequest; lia).
  all: cbn [err2 err3]; now rewrite Errorf_unknown_s.
Qed.

Lemma GetHTTPSource_unknown_text (resp : Response) :
  ~ handledByRead (StatusCode resp) ->
  err3 (GetHTTPSource_resp (DoResponse resp)) = Returns (Some (unknownResponse (StatusCode resp))).
Proof.
  unfold handledByRead, handledByWrite, GetHTTPSource_resp. cbv zeta. intros H.
  by_status resp; try (exfalso; apply H; unfold StatusOK, StatusCreated,
    StatusUnauthorized, StatusNotFound, StatusBadRequest; lia).
  all: cbn [err2 err3]; now rewrite Errorf_unknown_d.
Qed.

Lemma CreateHTTPSource_unknown_text (resp : Response) (hs : HTTPSource) :
  ~ handledByWrite StatusCreated (StatusCode resp) ->
  err2 (CreateHTTPSource_resp hs (DoResponse resp)) = Returns (Some (unknownResponse (StatusCode resp))).
Proof.
  unfold handledByRead, handledByWrite, CreateHTTPSource_resp. cbv zeta. intros H.
  by_status resp; try (exfalso; apply H; unfold StatusOK, StatusCreated,
    StatusUnauthorized, StatusNotFound, StatusBadRequest; lia).
  all: cbn [err2 err3]; now rewrite Errorf_unknown_d.
Qed.

Lemma UpdateHTTPSource_unknown_text (resp : Response) (hs : HTTPSource) :
  ~ handledByWrite StatusOK (StatusCode resp) ->
  err2 (UpdateHTTPSource_resp hs (DoResponse resp)) = Returns (Some (unknownResponse (StatusCode resp))).
Proof.
  unfold handledByRead, handledByWrite, UpdateHTTPSource_resp. cbv zeta. intros H.
  by_status resp; try (exfalso; apply H; unfold StatusOK, StatusCreated,
    StatusUnauthorized, StatusNotFound, StatusBadRequest; lia).
  all: cbn [err2 err3]; now rewrite Errorf_unknown_d.
Qed.

Lemma DeleteHTTPSource_unknown_text (resp : Response) :
  ~ handledByRead (StatusCode resp) ->
  DeleteHTTPSource_resp (DoResponse resp) = Returns (Some (unknownResponse (StatusCode resp))).
Proof.
  unfold handledByRead, handledByWrite, DeleteHTTPSource_resp. cbv zeta. intros H.
  by_status resp; try (exfalso; apply H; unfold StatusOK, StatusCreated,
    StatusUnauthorized, StatusNotFound, StatusBadRequest; lia).
  all: cbn [err2 err3]; now rewrite Errorf_unknown_d.
Qed.

Lemma GetAWSCloudTrailSource_unknown_text (resp : Response) :
  ~ handledByRead (StatusCode resp) ->
  err3 (GetAWSCloudTrailSource_resp (DoResponse resp)) = Returns (Some (unknownResponse (StatusCode resp))).
Proof.
  unfold handledByRead, handledByWrite, GetAWSCloudTrailSource_resp. cbv zeta. intros H.
  by_status resp; try (exfalso; apply H; unfold StatusOK, StatusCreated,
    StatusUnauthorized, StatusNotFound, StatusBadRequest; lia).
  all: cbn [err2 err3]; now rewrite Errorf_unknown_d.
Qed.

Lemma CreateAWSCloudTrailSource_unknown_text (resp : Response) (ct : AWSCloudTrailSource) :
  ~ handledByWrite StatusCreated (StatusCode resp) ->
  err2 (CreateAWSCloudTrailSource_resp ct (DoResponse resp)) = Returns (Some (unknownResponse (StatusCode resp))).
Proof.
  unfold handledByRead, handledByWrite, CreateAWSCloudTrailSource_resp. cbv zeta. intros H.
  by_status resp; try (exfalso; apply H; unfold StatusOK, StatusCreated,
    StatusUnauthorized, StatusNotFound, StatusBadRequest; lia).
  all: cbn [err2 err3]; now rewrite Errorf_unknown_d.
Qed.

Lemma UpdateAWSCloudTrailSource_unknown_text (resp : Response) (ct : AWSCloudTrailSource) :
  ~ handledByWrite StatusOK (StatusCode resp) ->
  err2 (UpdateAWSCloudTrailSource_resp ct (DoResponse resp)) = Returns (Some (unknownResponse (StatusCode resp))).
Proof.
  unfold handledByRead, handledByWrite, UpdateAWSCloudTrailSource_resp. cbv zeta. intros H.
  by_status resp; try (exfalso; apply H; unfold StatusOK, StatusCreated,
    StatusUnauthorized, StatusNotFound, StatusBadRequest; lia).
  all: cbn [err2 err3]; now rewrite Errorf_unknown_d.
Qed.

Lemma DeleteAWSCloudTrailSource_unknown_text (resp : Response) :
  ~ handledByRead (StatusCode resp) ->
  DeleteAWSCloudTrailSource_resp (DoResponse resp) = Returns (Some (unknownResponse (StatusCode resp))).
Proof.
  unfold handledByRead, handledByWrite, DeleteAWSCloudTrailSource_resp. cbv zeta. intros H.
  by_status resp; try (exfalso; apply H; unfold StatusOK, StatusCreated,
    StatusUnauthorized, StatusNotFound, StatusBadRequest; lia).
  all: cbn [err2 err3]; now rewrite Errorf_unknown_d.
Qed.

Lemma GetAWSLogSource_unknown_text (resp : Response) :
  ~ handledByRead (StatusCode resp) ->
  err3 (GetAWSLogSource_resp (DoResponse resp)) = Returns (Some (unknownResponse (StatusCode resp))).
Proof.
  unfold handledByRead, handledByWrite, GetAWSLogSource_resp. cbv zeta. intros H.
  by_status resp; try (exfalso; apply H; unfold StatusOK, StatusCreated,
    StatusUnauthorized, StatusNotFound, StatusBadRequest; lia).
  all: cbn [err2 err3]; now rewrite Errorf_unknown_d.
Qed.

Lemma CreateAWSLogSource_unknown_text (resp : Response) (ls : AWSLogSource) :
  ~ handledByWrite StatusCreated (StatusCode resp) ->
  err2 (CreateAWSLogSource_resp ls (DoResponse resp)) = Returns (Some (unknownResponse (StatusCode resp))).
Proof.
  unfold handledByRead, handledByWrite, CreateAWSLogSource_resp. cbv zeta. intros H.
  by_status resp; try (exfalso; apply H; unfold StatusOK, StatusCreated,
    StatusUnauthorized, StatusNotFound, StatusBadRequest; lia).
  all: cbn [err2 err3]; now rewrite Errorf_unknown_d.
Qed.

Lemma UpdateAWSLogSource_unknown_text (resp : Response) (ls : AWSLogSource) :
  ~ handledByWrite StatusOK (StatusCode resp) ->
  err2 (UpdateAWSLogSource_resp ls (DoResponse resp)) = Returns (Some (unknownResponse (StatusCode resp))).
Proof.
  unfold handledByRead, handledByWrite, UpdateAWSLogSource_resp. cbv zeta. intros H.
  by_status resp; try (exfalso; apply H; unfold StatusOK, StatusCreated,
    StatusUnauthorized, StatusNotFound, StatusBadRequest; lia).
  all: cbn [err2 err3]; now rewrite Errorf_unknown_d.
Qed.

Lemma DeleteAWSLogSource_unknown_text (resp : Response) :
  ~ handledByRead (StatusCode resp) ->
  DeleteAWSLogSource_resp (DoResponse resp) = Returns (Some (unknownResponse (StatusCode resp))).
Proof.
  unfold handledByRead, handledByWrite, DeleteAWSLogSource_resp. cbv zeta. intros H.
  by_status resp; try (exfalso; apply H; unfold StatusOK, StatusCreated,
    StatusUnauthorized, StatusNotFound, StatusBadRequest; lia).
  all: cbn [err2 err3]; now rewrite Errorf_unknown_d.
Qed.

(** X15.  The text of the error for a status no branch handles.  The
    twelve operations on sources return
    [Unknown Response with Sumo Logic: `N`], N the status code in decimal.
    The four operations on hosted collectors format the code with [%s] and
    return [Unknown Response with Sumo Logic: `%!s(int=N)`]. *)
Theorem unknown_status_texts (resp : Response) (s : Client) (collectorID id : Z)
    (etag : string) (c : Collector) (hs : HTTPSource) (ct : AWSCloudTrailSource)
    (ls : AWSLogSource) :
  (~ handledByRead (StatusCode resp) ->
      err3 (snd (GetHostedCollector (serve resp) id s))
      = Returns (Some (unknownResponseBadVerb (StatusCode resp))))
  /\ (~ handledByWrite StatusCreated (StatusCode resp) ->
      err2 (snd (CreateHostedCollector (serve resp) c s))
      = Returns (Some (unknownResponseBadVerb (StatusCode resp))))
  /\ (~ handledByWrite StatusOK (StatusCode resp) ->
      err2 (snd (UpdateHostedCollector (serve resp) c etag s))
      = Returns (Some (unknownResponseBadVerb (StatusCode resp))))
  /\ (~ handledByRead (StatusCode resp) ->
      snd (DeleteHostedCollector (serve resp) id s)
      = Returns (Some (unknownResponseBadVerb (StatusCode resp))))
  /\ (~ handledByRead (StatusCode resp) ->
      err3 (snd (GetHTTPSource (serve resp) collectorID id s))
      = Returns (Some (unknownResponse (StatusCode resp))))
  /\ (~ handledByWrite StatusCreated (StatusCode resp) ->
      err2 (snd (CreateHTTPSource (serve resp) collectorID hs s))
      = Returns (Some (unknownResponse (StatusCode resp))))
  /\ (~ handledByWrite StatusOK (StatusCode resp) ->
      err2 (snd (UpdateHTTPSource (serve resp) collectorID hs etag s))
      = Returns (Some (unknownResponse (StatusCode resp))))
  /\ (~ handledByRead (StatusCode resp) ->
      snd (DeleteHTTPSource (serve resp) collectorID id s)
      = Returns (Some (unknownResponse (StatusCode resp))))
  /\ (~ handledByRead (StatusCode resp) ->
      err3 (snd (GetAWSCloudTrailSource (serve resp) collectorID id s))
      = Returns (Some (unknownResponse (StatusCode resp))))
  /\ (~ handledByWrite StatusCreated (StatusCode resp) ->
      err2 (snd (CreateAWSCloudTrailSource (serve resp) collectorID ct s))
      = Returns (Some (unknownResponse (StatusCode resp))))
  /\ (~ handledByWrite StatusOK (StatusCode resp) ->
      err2 (snd (UpdateAWSCloudTrailSource (serve resp) collectorID ct etag s))
      = Returns (Some (unknownResponse (StatusCode resp))))
  /\ (~ handledByRead (StatusCode resp) ->
      snd (DeleteAWSCloudTrailSource (serve resp) collectorID id s)
      = Returns (Some (unknownResponse (StatusCode resp))))
  /\ (~ handledByRead (StatusCode resp) ->
      err3 (snd (GetAWSLogSource (serve resp) collectorID id s))
      = Returns (Some (unknownResponse (StatusCode resp))))
  /\ (~ handledByWrite StatusCreated (StatusCode resp) ->
      err2 (snd (CreateAWSLogSource (serve resp) collectorID ls s))
      = Returns (Some (unknownResponse (StatusCode resp))))
  /\ (~ handledByWrite StatusOK (StatusCode resp) ->
      err2 (snd (UpdateAWSLogSource (serve resp) collectorID ls etag s))
      = Returns (Some (unknownResponse (StatusCode resp))))
  /\ (~ handledByRead (StatusCode resp) ->
      snd (DeleteAWSLogSource (serve resp) collectorID id s)
      = Returns (Some (unknownResponse (StatusCode resp)))).
Proof.
  split; [rewrite GetHostedCollector_run; cbn [snd]; apply GetHostedCollector_unknown_text|].
  split; [rewrite CreateHostedCollector_run; cbn [snd]; apply CreateHostedCollector_unknown_text|].
  split; [rewrite UpdateHostedCollector_run; cbn [snd]; apply UpdateHostedCollector_unknown_text|].
  split; [rewrite DeleteHostedCollector_run; cbn [snd]; apply DeleteHostedCollector_unknown_text|].
  split; [rewrite GetHTTPSource_run; cbn [snd]; apply GetHTTPSource_unknown_text|].
  split; [rewrite CreateHTTPSource_run; cbn [snd]; apply CreateHTTPSource_unknown_text|].
  split; [rewrite UpdateHTTPSource_run; cbn [snd]; apply UpdateHTTPSource_unknown_text|].
  split; [rewrite DeleteHTTPSource_run; cbn [snd]; apply DeleteHTTPSource_unknown_text|].
  split; [rewrite GetAWSCloudTrailSource_run; cbn [snd]; apply GetAWSCloudTrailSource_unknown_text|].
  split; [rewrite CreateAWSCloudTrailSource_run; cbn [snd]; apply CreateAWSCloudTrailSource_unknown_text|].
  split; [rewrite UpdateAWSCloudTrailSource_run; cbn [snd]; apply UpdateAWSCloudTrailSource_unknown_text|].
  split; [rewrite DeleteAWSCloudTrailSource_run; cbn [snd]; apply DeleteAWSCloudTrailSource_unknown_text|].
  split; [rewrite GetAWSLogSource_run; cbn [snd]; apply GetAWSLogSource_unknown_text|].
  split; [rewrite CreateAWSLogSource_run; cbn [snd]; apply CreateAWSLogSource_unknown_text|].
  split; [rewrite UpdateAWSLogSource_run; cbn [snd]; apply UpdateAWSLogSource_unknown_text|].
  rewrite DeleteAWSLogSource_run; cbn [snd]; apply DeleteAWSLogSource_unknown_text.
Qed.

Lemma unknown_status_texts_witness :
  err3 (snd (GetHostedCollector (serve (statusOnly 500)) 7 testClient))
  = Returns (Some (errorString "Unknown Response with Sumo Logic: `%!s(int=500)`"))
  /\ snd (DeleteAWSLogSource (serve (statusOnly 500)) 7 8 testClient)
     = Returns (Some (errorString "Unknown Response with Sumo Logic: `500`")).
Proof.
  pose proof (unknown_status_texts (statusOnly 500) testClient 7 8 "etag"
                defaultCollector defaultHTTPSource defaultAWSCloudTrailSource
                defaultAWSLogSource) as H.
  split.
  - apply (proj1 H). unfold handledByRead. cbn. intros [E|[E|E]]; discriminate E.
  - apply (proj2 (proj2 (proj2 (proj2 (proj2 (proj2 (proj2 (proj2 (proj2 (proj2
             (proj2 (proj2 (proj2 (proj2 (proj2 H))))))))))))))).
    unfold handledByRead. cbn. intros [E|[E|E]]; discriminate E.
Defined.

(** ** The texts of the errors for a 400 *)

Lemma CreateHostedCollector_400_text (resp : Response) (c : Collector) :
  StatusCode resp = StatusBadRequest ->
  err2 (CreateHostedCollector_resp c (DoResponse resp)) = Returns (Some (collectorNameTakenBadVerb (Collector_Name c))).
Proof.
  intros Hs. unfold CreateHostedCollector_resp. cbv zeta. by_status resp.
  cbn [err2]. now rewrite Errorf_collectorNameTaken.
Qed.

Lemma UpdateHostedCollector_400_text (resp : Response) (c : Collector) :
  StatusCode resp = StatusBadRequest ->
  err2 (UpdateHostedCollector_resp c (DoResponse resp)) = Returns (Some (collectorNameTakenBadVerb (Collector_Name c))).
Proof.
  intros Hs. unfold UpdateHostedCollector_resp. cbv zeta. by_status resp.
  cbn [err2]. now rewrite Errorf_collectorNameTaken.
Qed.

Lemma UpdateHTTPSource_400_text (resp : Response) (hs : HTTPSource) :
  StatusCode resp = StatusBadRequest ->
  err2 (UpdateHTTPSource_resp hs (DoResponse resp)) = Returns (Some (sourceNameTaken (HTTPSource_Name hs))).
Proof.
  intros Hs. unfold UpdateHTTPSource_resp. cbv zeta. by_status resp.
  cbn [err2]. now rewrite Errorf_sourceNameTaken.
Qed.

Lemma CreateAWSCloudTrailSource_400_message (resp : Response) (ct : AWSCloudTrailSource) (e : Error) :
  StatusCode resp = StatusBadRequest ->
  decodes_to decode_Error Error_zero (Response_Body resp) e ->
  ~ awsFixedMessage (Error_Message e) ->
  err2 (CreateAWSCloudTrailSource_resp ct (DoResponse resp)) = Returns (Some (badRequest (Error_Message e))).
Proof.
  unfold decodes_to. intros Hs Hd Hf. unfold CreateAWSCloudTrailSource_resp. cbv zeta.
  by_status resp. rewrite Hd.
  destruct (String.eqb _ _ || String.eqb _ _)%bool eqn:C1;
    [elim Hf; apply awsFixedMessage_eqb, C1|].
  cbn [err2]. now rewrite Errorf_badRequest.
Qed.

Lemma CreateAWSCloudTrailSource_400_undecoded (resp : Response) (ct : AWSCloudTrailSource) (je : json_error) :
  StatusCode resp = StatusBadRequest ->
  decode_error decode_Error Error_zero (Response_Body resp) je ->
  err2 (CreateAWSCloudTrailSource_resp ct (DoResponse resp))
  = Returns (Some (sourceNameTaken (AWSCloudTrailSource_Name ct))).
Proof.
  unfold decode_error. intros Hs Hd. unfold CreateAWSCloudTrailSource_resp. cbv zeta.
  by_status resp.
  destruct (Unmarshal decode_Error Error_zero (Response_Body resp) (new Error_zero))
    as [p [je'|]]; [|discriminate Hd].
  destruct p; cbn [err2]; now rewrite Errorf_sourceNameTaken.
Qed.

Lemma UpdateAWSCloudTrailSource_400_text (resp : Response) (ct : AWSCloudTrailSource) (e : Error) :
  StatusCode resp = StatusBadRequest ->
  fst (Unmarshal decode_Error Error_zero (Response_Body resp) (new Error_zero)) = Some e ->
  ~ awsFixedMessage (Error_Message e) ->
  err2 (UpdateAWSCloudTrailSource_resp ct (DoResponse resp))
  = Returns (Some (sourceNameTaken (AWSCloudTrailSource_Name ct))).
Proof.
  intros Hs Hd Hf. unfold UpdateAWSCloudTrailSource_resp. cbv zeta. by_status resp. rewrite Hd.
  destruct (String.eqb _ _ || String.eqb _ _)%bool eqn:C1;
    [elim Hf; apply awsFixedMessage_eqb, C1|].
  cbn [err2]. now rewrite Errorf_sourceNameTaken.
Qed.

Lemma CreateAWSLogSource_400_message (resp : Response) (ls : AWSLogSource) (e : Error) :
  StatusCode resp = StatusBadRequest ->
  decodes_to decode_Error Error_zero (Response_Body resp) e ->
  ~ awsFixedMessage (Error_Message e) ->
  ~ bucketNotReadable (Error_Message e) ->
  err2 (CreateAWSLogSource_resp ls (DoResponse resp)) = Returns (Some (badRequest (Error_Message e))).
Proof.
  unfold decodes_to. intros Hs Hd Hf Hb. unfold CreateAWSLogSource_resp. cbv zeta.
  by_status resp. rewrite Hd.
  destruct (String.eqb _ _ || String.eqb _ _)%bool eqn:C1;
    [elim Hf; apply awsFixedMessage_eqb, C1|].
  destruct (MatchString _ _) eqn:C2;
    [elim Hb; apply S3_pattern_matches, C2|].
  cbn [err2]. now rewrite Errorf_badRequest.
Qed.

Lemma CreateAWSLogSource_400_undecoded (resp : Response) (ls : AWSLogSource) (je : json_error) :
  StatusCode resp = StatusBadRequest ->
  decode_error decode_Error Error_zero (Response_Body resp) je ->
  err2 (CreateAWSLogSource_resp ls (DoResponse resp))
  = Returns (Some (sourceNameTaken (AWSLogSource_Name ls))).
Proof.
  unfold decode_error. intros Hs Hd. unfold CreateAWSLogSource_resp. cbv zeta.
  by_status resp.
  destruct (Unmarshal decode_Error Error_zero (Response_Body resp) (new Error_zero))
    as [p [je'|]]; [|discriminate Hd].
  destruct p; cbn [err2]; now rewrite Errorf_sourceNameTaken.
Qed.

Lemma UpdateAWSLogSource_400_text (resp : Response) (ls : AWSLogSource) (e : Error) :
  StatusCode resp = StatusBadRequest ->
  fst (Unmarshal decode_Error Error_zero (Response_Body resp) (new Error_zero)) = Some e ->
  ~ awsFixedMessage (Error_Message e) ->
  err2 (UpdateAWSLogSource_resp ls (DoResponse resp))
  = Returns (Some (sourceNameTaken (AWSLogSource_Name ls))).
Proof.
  intros Hs Hd Hf. unfold UpdateAWSLogSource_resp. cbv zeta. by_status resp. rewrite Hd.
  destruct (String.eqb _ _ || String.eqb _ _)%bool eqn:C1;
    [elim Hf; apply awsFixedMessage_eqb, C1|].
  cbn [err2]. now rewrite Errorf_sourceNameTaken.
Qed.

(** X16.  The text of the error for a 400, where it is not
    [ErrAwsAuthenticationError].  Create and Update of a hosted collector
    do not read the body; their format has a stray [%], so the text is
    [... a collector with this name `%!`(string=NAME) already exists].
    Update of a source names the source given:
    [... a source with this name `NAME` already exists] (for the AWS kinds,
    when the body is not the document [null]).  Create of an AWS source
    hands on the message of the API, [Bad Request. MESSAGE], when the body
    decodes without error, and names the source given when it does not. *)
Theorem bad_request_texts (resp : Response) (s : Client) (collectorID : Z)
    (etag : string) (c : Collector) (hs : HTTPSource) (ct : AWSCloudTrailSource)
    (ls : AWSLogSource) :
  StatusCode resp = StatusBadRequest ->
  err2 (snd (CreateHostedCollector (serve resp) c s))
    = Returns (Some (collectorNameTakenBadVerb (Collector_Name c)))
  /\ err2 (snd (UpdateHostedCollector (serve resp) c etag s))
    = Returns (Some (collectorNameTakenBadVerb (Collector_Name c)))
  /\ err2 (snd (UpdateHTTPSource (serve resp) collectorID hs etag s))
    = Returns (Some (sourceNameTaken (HTTPSource_Name hs)))
  /\ (forall e,
         decodes_to decode_Error Error_zero (Response_Body resp) e ->
         ~ awsFixedMessage (Error_Message e) ->
         err2 (snd (CreateAWSCloudTrailSource (serve resp) collectorID ct s))
         = Returns (Some (badRequest (Error_Message e))))
  /\ (forall je,
         decode_error decode_Error Error_zero (Response_Body resp) je ->
         err2 (snd (CreateAWSCloudTrailSource (serve resp) collectorID ct s))
         = Returns (Some (sourceNameTaken (AWSCloudTrailSource_Name ct))))
  /\ (forall e,
         fst (Unmarshal decode_Error Error_zero (Response_Body resp) (new Error_zero))
         = Some e ->
         ~ awsFixedMessage (Error_Message e) ->
         err2 (snd (UpdateAWSCloudTrailSource (serve resp) collectorID ct etag s))
         = Returns (Some (sourceNameTaken (AWSCloudTrailSource_Name ct))))
  /\ (forall e,
         decodes_to decode_Error Error_zero (Response_Body resp) e ->
         ~ awsFixedMessage (Error_Message e) ->
         ~ bucketNotReadable (Error_Message e) ->
         err2 (snd (CreateAWSLogSource (serve resp) collectorID ls s))
         = Returns (Some (badRequest (Error_Message e))))
  /\ (forall je,
         decode_error decode_Error Error_zero (Response_Body resp) je ->
         err2 (snd (CreateAWSLogSource (serve resp) collectorID ls s))
         = Returns (Some (sourceNameTaken (AWSLogSource_Name ls))))
  /\ (forall e,
         fst (Unmarshal decode_Error Error_zero (Response_Body resp) (new Error_zero))
         = Some e ->
         ~ awsFixedMessage (Error_Message e) ->
         err2 (snd (UpdateAWSLogSource (serve resp) collectorID ls etag s))
         = Returns (Some (sourceNameTaken (AWSLogSource_Name ls)))).
Proof.
  intros Hs.
  split; [rewrite CreateHostedCollector_run; cbn [snd]; apply CreateHostedCollector_400_text; exact Hs|].
  split; [rewrite UpdateHostedCollector_run; cbn [snd]; apply UpdateHostedCollector_400_text; exact Hs|].
  split; [rewrite UpdateHTTPSource_run; cbn [snd]; apply UpdateHTTPSource_400_text; exact Hs|].
  split; [intros e; rewrite CreateAWSCloudTrailSource_run; cbn [snd]; apply CreateAWSCloudTrailSource_400_message; exact Hs|].
  split; [intros je; rewrite CreateAWSCloudTrailSource_run; cbn [snd]; apply CreateAWSCloudTrailSource_400_undecoded; exact Hs|].
  split; [intros e; rewrite UpdateAWSCloudTrailSource_run; cbn [snd]; apply UpdateAWSCloudTrailSource_400_text; exact Hs|].
  split; [intros e; rewrite CreateAWSLogSource_run; cbn [snd]; apply CreateAWSLogSource_400_message; exact Hs|].
  split; [intros je; rewrite CreateAWSLogSource_run; cbn [snd]; apply CreateAWSLogSource_400_undecoded; exact Hs|].
  intros e; rewrite UpdateAWSLogSource_run; cbn [snd]; apply UpdateAWSLogSource_400_text; exact Hs.
Qed.

Lemma bad_request_texts_witness :
  err2 (snd (UpdateHostedCollector (serve (mkResponse StatusBadRequest [] s3NotReadable))
               defaultCollector "etag" testClient))
  = Returns (Some (errorString
      "Bad Request. Please check if a collector with this name `%!`(string=test) already exists"))
  /\ err2 (snd (UpdateAWSLogSource (serve (mkResponse StatusBadRequest [] s3NotReadable))
                  7 defaultAWSLogSource "etag" testClient))
     = Returns (Some (errorString
         "Bad Request. Please check if a source with this name `test` already exists")).
Proof.
  pose proof (bad_request_texts (mkResponse StatusBadRequest [] s3NotReadable) testClient 7
                "etag" defaultCollector defaultHTTPSource defaultAWSCloudTrailSource
                defaultAWSLogSource eq_refl) as H.
  split.
  - exact (proj1 (proj2 H)).
  - apply (proj2 (proj2 (proj2 (proj2 (proj2 (proj2 (proj2 (proj2 H))))))))
      with (e := mkError 400 "E1" "collectors.validation.fields.invalid"
                   "The S3 bucket 'bucketName=my-bucket' is not readable.").
    + reflexivity.
    + intros [E|E]; discriminate E.
Defined.

(** ** What is sent is well formed *)














